(** * SIAF backend: route handlers of the asset / IT-operations service

    A shallow embedding of the Express route handlers (auth, incidents,
    assets, responsive forms, maintenances, reports) and of the SQL
    statements they issue, followed by the properties of the specification.

    Conventions of the embedding:
    - request values are [jsval]s; [truthy] is the test of [if (x)];
    - numbers are tracked when they are integers (see [number]);
    - a bound parameter list is a [list jsval], in binding order;
    - the queries with joins and aggregates go to an opaque store
      ([db_all], [db_get]) that answers or fails; the keyed statements
      (UPDATE ... WHERE id = ?, INSERT, the login SELECT) are interpreted
      over tables of rows. *)

From Stdlib Require Import ZArith List Ascii String Bool Lia QArith Qround.
From stdpp Require Import base option list strings gmap.

Local Open Scope string_scope.
Local Open Scope list_scope.
Local Open Scope Z_scope.

(** ** JavaScript values and coercions *)

Module JS.

(** Numbers. The handlers compute with page numbers, limits and counts; an
    integer is tracked exactly (exact for doubles below 2^53), and every other
    double (NaN, an infinity, a fraction, the value of a numeral not written as
    a plain decimal integer) is [Untracked]: nothing is claimed about it. *)
Inductive number :=
| Int (z : Z)
| Untracked.

Inductive jsval :=
| JUndefined
| JNull
| JBool (b : bool)
| JNum (n : number)
| JStr (s : string).

(** [if (v)]. An untracked number that reaches a test is a JSON number with a
    fractional part, hence not zero. *)
Definition truthy (v : jsval) : bool :=
  match v with
  | JUndefined | JNull => false
  | JBool b => b
  | JNum (Int z) => negb (z =? 0)
  | JNum Untracked => true
  | JStr s => negb (String.eqb s "")
  end.

(** [const { x = d } = obj]: the default replaces [undefined] only. *)
Definition or_default (d v : jsval) : jsval :=
  match v with
  | JUndefined => d
  | _ => v
  end.

Definition is_digit (c : ascii) : bool :=
  ((48 <=? nat_of_ascii c) && (nat_of_ascii c <=? 57))%nat.

Definition digit_value (c : ascii) : Z := Z.of_nat (nat_of_ascii c) - 48.

Definition digit_char (d : Z) : ascii := ascii_of_nat (48 + Z.to_nat d).

Arguments is_digit : simpl never.
Arguments digit_value : simpl never.
Arguments digit_char : simpl never.

(** Value of a run of decimal digits, most significant first. *)
Fixpoint digits_value (acc : Z) (l : list ascii) : option Z :=
  match l with
  | [] => Some acc
  | c :: l' => if is_digit c then digits_value (10 * acc + digit_value c) l' else None
  end.

Definition unsigned_decimal (l : list ascii) : option Z :=
  match l with
  | [] => None
  | _ => digits_value 0 l
  end.

(** An optionally signed, non-empty run of decimal digits. *)
Definition integer_literal (s : string) : option Z :=
  match list_ascii_of_string s with
  | c :: l =>
      if Ascii.eqb c "-" then Z.opp <$> unsigned_decimal l
      else if Ascii.eqb c "+" then unsigned_decimal l
      else unsigned_decimal (c :: l)
  | [] => None
  end.

(** ToNumber on a string, for the numerals the model tracks: the empty string
    is 0, an integer literal is its value. *)
Definition string_to_number (s : string) : number :=
  if String.eqb s "" then Int 0
  else match integer_literal s with
       | Some z => Int z
       | None => Untracked
       end.

(** Number.prototype.toString(), radix 10, on an integer. *)
Fixpoint digits_lsb (fuel : nat) (n : Z) : list ascii :=
  match fuel with
  | O => []
  | S f => if n <? 10 then [digit_char n]
           else digit_char (n mod 10) :: digits_lsb f (n / 10)
  end.

Definition nat_toString (n : Z) : list ascii :=
  rev (digits_lsb (S (Z.to_nat n)) n).

Definition toString (n : Z) : string :=
  if n <? 0 then string_of_list_ascii ("-"%char :: nat_toString (- n))
  else string_of_list_ascii (nat_toString n).

(** ToString of a value, as template literals and [+] on a string apply it. *)
Definition to_string (v : jsval) : string :=
  match v with
  | JUndefined => "undefined"
  | JNull => "null"
  | JBool b => if b then "true" else "false"
  | JNum (Int z) => toString z
  | JNum Untracked => "NaN"
  | JStr s => s
  end.

(** ToNumber of a value, as the operators [-], [*] and [/] apply it. *)
Definition to_number (v : jsval) : number :=
  match v with
  | JUndefined => Untracked
  | JNull => Int 0
  | JBool b => Int (if b then 1 else 0)
  | JNum n => n
  | JStr s => string_to_number s
  end.

Definition is_space (c : ascii) : bool :=
  let n := nat_of_ascii c in
  ((n =? 32) || ((9 <=? n) && (n <=? 13)))%nat.

Fixpoint skip_spaces (l : list ascii) : list ascii :=
  match l with
  | c :: l' => if is_space c then skip_spaces l' else l
  | [] => []
  end.

Definition hex_value (c : ascii) : option Z :=
  let n := nat_of_ascii c in
  if ((48 <=? n) && (n <=? 57))%nat then Some (Z.of_nat n - 48)
  else if ((65 <=? n) && (n <=? 70))%nat then Some (Z.of_nat n - 55)
  else if ((97 <=? n) && (n <=? 102))%nat then Some (Z.of_nat n - 87)
  else None.

Definition radix_digit (radix : Z) (c : ascii) : option Z :=
  if radix =? 16 then hex_value c
  else if is_digit c then Some (digit_value c) else None.

(** The longest prefix of digits in the radix: its value and whether it is
    non-empty. *)
Fixpoint prefix_value (radix : Z) (acc : Z) (seen : bool) (l : list ascii) : option Z :=
  match l with
  | c :: l' =>
      match radix_digit radix c with
      | Some d => prefix_value radix (radix * acc + d) true l'
      | None => if seen then Some acc else None
      end
  | [] => if seen then Some acc else None
  end.

Definition strip_hex_prefix (l : list ascii) : Z * list ascii :=
  match l with
  | c0 :: c1 :: l' =>
      if Ascii.eqb c0 "0" && (Ascii.eqb c1 "x" || Ascii.eqb c1 "X") then (16, l')
      else (10, l)
  | _ => (10, l)
  end.

(** parseInt(string) without a radix argument: leading white space, a sign,
    a 0x prefix, then the longest run of digits; NaN when there is none. *)
Definition parseInt_string (s : string) : number :=
  let l := skip_spaces (list_ascii_of_string s) in
  let '(sign, l) :=
    match l with
    | c :: l' =>
        if Ascii.eqb c "-" then (-1, l')
        else if Ascii.eqb c "+" then (1, l')
        else (1, l)
    | [] => (1, l)
    end in
  let '(radix, l) := strip_hex_prefix l in
  match prefix_value radix 0 false l with
  | Some z => Int (sign * z)
  | None => Untracked
  end.

(** parseInt(v): the argument is first converted to a string. *)
Definition parseInt (v : jsval) : number :=
  match v with
  | JStr s => parseInt_string s
  | JNum (Int z) => parseInt_string (toString z)
  | _ => Untracked
  end.

Definition sub (a b : number) : number :=
  match a, b with
  | Int x, Int y => Int (x - y)
  | _, _ => Untracked
  end.

Definition mul (a b : number) : number :=
  match a, b with
  | Int x, Int y => Int (x * y)
  | _, _ => Untracked
  end.

(** [Math.ceil(a / b)]: the least integer not below the quotient; a zero
    divisor gives NaN or an infinity. *)
Definition ceil_div (a b : number) : number :=
  match a, b with
  | Int x, Int y => if y =? 0 then Untracked else Int (Qceiling (inject_Z x / inject_Z y))
  | _, _ => Untracked
  end.

(** String.prototype.padStart(n, c) with a one-character filler. *)
Definition padStart (n : nat) (c : ascii) (s : string) : string :=
  string_of_list_ascii (replicate (n - String.length s) c) +:+ s.

(** String.prototype.substr(-k): the last [k] characters (the whole string
    when it is shorter). *)
Definition substr_last (k : nat) (s : string) : string :=
  let l := list_ascii_of_string s in
  string_of_list_ascii (drop (length l - k) l).

(** The fields of [new Date()] the generators read. *)
Record Date := {
  getFullYear : Z;
  getMonth : Z;
  getDate : Z
}.

#[global] Instance number_eq_dec : EqDecision number.
Proof. solve_decision. Defined.

#[global] Instance jsval_eq_dec : EqDecision jsval.
Proof. solve_decision. Defined.

End JS.

Import JS.

(** ** SQL texts of the read queries

    The template literals of the handlers, character for character. *)

(** responsive forms list: [let query]. *)
Definition forms_select : string :=
  "
        SELECT 
            rf.*,
            a.name as asset_name,
            a.asset_code,
            prev.full_name as previous_responsible_name,
            new.full_name as new_responsible_name,
            approver.full_name as approved_by_name
        FROM responsive_forms rf
        LEFT JOIN assets a ON rf.asset_id = a.id
        LEFT JOIN users prev ON rf.previous_responsible_id = prev.id
        LEFT JOIN users new ON rf.new_responsible_id = new.id
        LEFT JOIN users approver ON rf.approved_by = approver.id
        WHERE 1=1
    ".

(** responsive forms list: [let countQuery]. *)
Definition forms_count_select : string :=
  "SELECT COUNT(*) as total FROM responsive_forms rf WHERE 1=1".

(** maintenances list: [let query]. *)
Definition maintenances_select : string :=
  "
        SELECT 
            m.*,
            a.name as asset_name,
            a.asset_code,
            t.full_name as technician_name
        FROM maintenances m
        LEFT JOIN assets a ON m.asset_id = a.id
        LEFT JOIN users t ON m.technician_id = t.id
        WHERE 1=1
    ".

(** maintenances list: [let countQuery]. *)
Definition maintenances_count_select : string :=
  "SELECT COUNT(*) as total FROM maintenances m WHERE 1=1".

(** incidents list: [let query]. *)
Definition incidents_select : string :=
  "
        SELECT 
            i.*,
            a.name as asset_name,
            a.asset_code,
            reporter.full_name as reported_by_name,
            assignee.full_name as assigned_to_name
        FROM incidents i
        LEFT JOIN assets a ON i.asset_id = a.id
        LEFT JOIN users reporter ON i.reported_by = reporter.id
        LEFT JOIN users assignee ON i.assigned_to = assignee.id
        WHERE 1=1
    ".

(** incidents list: [let countQuery]. *)
Definition incidents_count_select : string :=
  "SELECT COUNT(*) as total FROM incidents i WHERE 1=1".

(** assets list: [let query]. *)
Definition assets_select : string :=
  "
        SELECT 
            a.*, 
            c.name as category_name,
            u.full_name as responsible_name
        FROM assets a
        LEFT JOIN asset_categories c ON a.category_id = c.id
        LEFT JOIN users u ON a.responsible_user_id = u.id
        WHERE 1=1
    ".

(** assets list: [let countQuery]. *)
Definition assets_count_select : string :=
  "SELECT COUNT(*) as total FROM assets a WHERE 1=1".

(** inventory report: [let query]. *)
Definition inventory_report_select : string :=
  "
        SELECT 
            a.*,
            c.name as category_name,
            u.full_name as responsible_name,
            u.department as responsible_department
        FROM assets a
        LEFT JOIN asset_categories c ON a.category_id = c.id
        LEFT JOIN users u ON a.responsible_user_id = u.id
        WHERE 1=1
    ".

(** incidents report: [let query]. *)
Definition incidents_report_select : string :=
  "
        SELECT 
            i.*,
            a.name as asset_name,
            a.asset_code,
            reporter.full_name as reported_by_name,
            assignee.full_name as assigned_to_name,
            CASE 
                WHEN i.resolved_date IS NOT NULL THEN
                    ROUND((JULIANDAY(i.resolved_date) - JULIANDAY(i.reported_date)) * 24, 2)
                ELSE NULL
            END as resolution_hours
        FROM incidents i
        LEFT JOIN assets a ON i.asset_id = a.id
        LEFT JOIN users reporter ON i.reported_by = reporter.id
        LEFT JOIN users assignee ON i.assigned_to = assignee.id
        WHERE 1=1
    ".

(** maintenance report: [let query]. *)
Definition maintenance_report_select : string :=
  "
        SELECT 
            m.*,
            a.name as asset_name,
            a.asset_code,
            t.full_name as technician_name
        FROM maintenances m
        LEFT JOIN assets a ON m.asset_id = a.id
        LEFT JOIN users t ON m.technician_id = t.id
        WHERE 1=1
    ".

(** responsive forms report: [let query]. *)
Definition forms_report_select : string :=
  "
        SELECT 
            rf.*,
            a.name as asset_name,
            a.asset_code,
            prev.full_name as previous_responsible_name,
            new.full_name as new_responsible_name,
            approver.full_name as approved_by_name
        FROM responsive_forms rf
        LEFT JOIN assets a ON rf.asset_id = a.id
        LEFT JOIN users prev ON rf.previous_responsible_id = prev.id
        LEFT JOIN users new ON rf.new_responsible_id = new.id
        LEFT JOIN users approver ON rf.approved_by = approver.id
        WHERE 1=1
    ".

(** requisitions report: [let query]. *)
Definition requisitions_report_select : string :=
  "
        SELECT 
            r.*,
            requester.full_name as requested_by_name,
            approver.full_name as approved_by_name
        FROM requisitions r
        LEFT JOIN users requester ON r.requested_by = requester.id
        LEFT JOIN users approver ON r.approved_by = approver.id
        WHERE 1=1
    ".

(** GET /dashboard: [const queries], in key order. *)
Definition dashboard_queries : list (string * string) :=
  [ ("totalAssets",
     "SELECT COUNT(*) as count FROM assets WHERE status != 'inactive'");
    ("assetsByCategory",
     "
            SELECT c.name, COUNT(a.id) as count 
            FROM asset_categories c 
            LEFT JOIN assets a ON c.id = a.category_id AND a.status != 'inactive'
            GROUP BY c.id, c.name
        ");
    ("assetsWithoutResponsible",
     "
            SELECT COUNT(*) as count FROM assets 
            WHERE responsible_user_id IS NULL AND status = 'active'
        ");
    ("expiredWarranties",
     "
            SELECT COUNT(*) as count FROM assets 
            WHERE warranty_expiry < DATE('now') AND status = 'active'
        ");
    ("totalIncidents",
     "SELECT COUNT(*) as count FROM incidents");
    ("openIncidents",
     "
            SELECT COUNT(*) as count FROM incidents 
            WHERE status IN ('open', 'assigned', 'in_progress')
        ");
    ("incidentsByPriority",
     "SELECT priority, COUNT(*) as count FROM incidents GROUP BY priority");
    ("totalMaintenances",
     "SELECT COUNT(*) as count FROM maintenances");
    ("upcomingMaintenances",
     "
            SELECT COUNT(*) as count FROM maintenances 
            WHERE scheduled_date BETWEEN DATE('now') AND DATE('now', '+30 days') 
            AND status = 'scheduled'
        ");
    ("overdueMaintenances",
     "
            SELECT COUNT(*) as count FROM maintenances 
            WHERE scheduled_date < DATE('now') AND status = 'scheduled'
        ");
    ("pendingForms",
     "SELECT COUNT(*) as count FROM responsive_forms WHERE status = 'pending'");
    ("pendingRequisitions",
     "SELECT COUNT(*) as count FROM requisitions WHERE status = 'pending'");
    ("approvedRequisitionsValue",
     "
            SELECT SUM(estimated_cost) as total FROM requisitions 
            WHERE status = 'approved' AND created_at >= DATE('now', '-30 days')
        ") ].

(** responsive forms GET /stats/overview: [const queries]. *)
Definition forms_stats_queries : list (string * string) :=
  [ ("total",
     "SELECT COUNT(*) as count FROM responsive_forms");
    ("byStatus",
     "SELECT status, COUNT(*) as count FROM responsive_forms GROUP BY status");
    ("pending",
     "SELECT COUNT(*) as count FROM responsive_forms WHERE status = 'pending'");
    ("approved",
     "SELECT COUNT(*) as count FROM responsive_forms WHERE status = 'approved'");
    ("rejected",
     "SELECT COUNT(*) as count FROM responsive_forms WHERE status = 'rejected'");
    ("thisMonth",
     "
            SELECT COUNT(*) as count FROM responsive_forms 
            WHERE strftime('%Y-%m', created_at) = strftime('%Y-%m', 'now')
        ") ].

(** maintenances GET /stats/overview: [const queries]. *)
Definition maintenances_stats_queries : list (string * string) :=
  [ ("total",
     "SELECT COUNT(*) as count FROM maintenances");
    ("byStatus",
     "SELECT status, COUNT(*) as count FROM maintenances GROUP BY status");
    ("byType",
     "SELECT type, COUNT(*) as count FROM maintenances GROUP BY type");
    ("upcoming",
     "
            SELECT COUNT(*) as count FROM maintenances 
            WHERE scheduled_date BETWEEN DATE('now') AND DATE('now', '+30 days') 
            AND status = 'scheduled'
        ");
    ("overdue",
     "
            SELECT COUNT(*) as count FROM maintenances 
            WHERE scheduled_date < DATE('now') AND status = 'scheduled'
        ");
    ("totalCost",
     "
            SELECT SUM(cost) as total FROM maintenances 
            WHERE completed_date >= DATE('now', '-12 months') AND cost IS NOT NULL
        ") ].

(** incidents GET /stats/overview: [const queries]. *)
Definition incidents_stats_queries : list (string * string) :=
  [ ("total",
     "SELECT COUNT(*) as count FROM incidents");
    ("byStatus",
     "SELECT status, COUNT(*) as count FROM incidents GROUP BY status");
    ("byPriority",
     "SELECT priority, COUNT(*) as count FROM incidents GROUP BY priority");
    ("open",
     "SELECT COUNT(*) as count FROM incidents WHERE status IN ('open', 'assigned', 'in_progress')");
    ("resolved",
     "SELECT COUNT(*) as count FROM incidents WHERE status = 'resolved'");
    ("avgResolutionTime",
     "
            SELECT AVG(JULIANDAY(resolved_date) - JULIANDAY(reported_date)) * 24 as avg_hours
            FROM incidents 
            WHERE resolved_date IS NOT NULL
        ") ].

(** assets GET /stats/overview: [const queries]. *)
Definition assets_stats_queries : list (string * string) :=
  [ ("total",
     "SELECT COUNT(*) as count FROM assets WHERE status != 'inactive'");
    ("byStatus",
     "SELECT status, COUNT(*) as count FROM assets WHERE status != 'inactive' GROUP BY status");
    ("byCategory",
     "
            SELECT c.name, COUNT(a.id) as count 
            FROM asset_categories c 
            LEFT JOIN assets a ON c.id = a.category_id AND a.status != 'inactive'
            GROUP BY c.id, c.name
        ");
    ("expiredWarranty",
     "
            SELECT COUNT(*) as count FROM assets 
            WHERE warranty_expiry < DATE('now') AND status = 'active'
        ");
    ("expiringWarranty",
     "
            SELECT COUNT(*) as count FROM assets 
            WHERE warranty_expiry BETWEEN DATE('now') AND DATE('now', '+30 days') 
            AND status = 'active'
        ") ].

(** ** Requests, rows and responses *)

(** A row of a result set, and a request body, are objects: column or field
    name to value. *)
Abbreviation row := (gmap string jsval).

(** [obj.k]: [undefined] when the field is absent. *)
Definition prop (o : row) (k : string) : jsval := default JUndefined (o !! k).

(** [req.query.k]: the values of a query string are strings. *)
Definition qparam (q : gmap string string) (k : string) : jsval :=
  from_option JStr JUndefined (q !! k).

Inductive result (A : Type) :=
| Ok (a : A)
| Err (e : string).
Arguments Ok {A} a.
Arguments Err {A} e.

(** The values of the fields of a body passed to [res.json]: a plain value,
    an object literal of plain values, a row or the rows of a result set, the
    [stats] object of an aggregate batch, the array of validation errors. *)
Inductive item :=
| JV (v : jsval)
| JO (fields : list (string * jsval))
| JRow (r : row)
| JRows (rs : list row)
| JStats (m : gmap string (list row))
| JErrors (msgs : list string).

(** A body: the fields of the object literal, in order. *)
Abbreviation json := (list (string * item)).

Record response := {
  status : Z;
  body : json
}.

(** What a handler does with the request: it sends one response, or an
    exception escapes the callback and no response is sent. *)
Inductive outcome :=
| Sent (r : response)
| Thrown.

(** [res.status(code).json({ message })]. *)
Definition message (code : Z) (text : string) : outcome :=
  Sent {| status := code; body := [("message", JV (JStr text))] |}.

(** [res.status(400).json({ errors: errors.array() })]: the messages of the
    failed validators, in declaration order. *)
Definition bad_request (errors : list string) : outcome :=
  Sent {| status := 400; body := [("errors", JErrors errors)] |}.

(** [res.json(body)]. *)
Definition ok (b : json) : outcome := Sent {| status := 200; body := b |}.

(** [if (c) { query += sql; params.push(...vals) }] on the pair of the query
    text and its parameter list. *)
Definition when (c : jsval) (sql : string) (vals : list jsval)
    (qp : string * list jsval) : string * list jsval :=
  if truthy c then (qp.1 +:+ sql, qp.2 ++ vals) else qp.

(** [pagination: { page, limit, total, totalPages }] of the list responses. *)
Definition pagination (page limit : jsval) (countResult : row) : item :=
  JO [ ("page", JNum (parseInt page));
       ("limit", JNum (parseInt limit));
       ("total", prop countResult "total");
       ("totalPages",
        JNum (ceil_div (to_number (prop countResult "total")) (to_number limit))) ].

(** ** The store behind the keyed statements

    The schema is the one [scripts/init-database.js] creates. A table is the
    list of its rows in rowid order; no handler deletes a row. *)

Module Store.

(** Column affinity (SQLite derives it from the declared type: INTEGER,
    DATE, DATETIME, DECIMAL and BOOLEAN columns are numeric, VARCHAR and TEXT
    columns are text). *)
Inductive affinity := Numeric | Text.

Inductive default_value :=
| DNull
| DValue (v : jsval)
| DCurrentTimestamp.

Record column := {
  col_name : string;
  col_affinity : affinity;
  col_not_null : bool;
  col_unique : bool;
  col_default : default_value
}.

Definition col (name : string) (a : affinity) (not_null unique : bool)
    (d : default_value) : column :=
  {| col_name := name; col_affinity := a; col_not_null := not_null;
     col_unique := unique; col_default := d |}.

(** CREATE TABLE statements of the bootstrap script ([id] is the INTEGER
    PRIMARY KEY AUTOINCREMENT of every table and is assigned by [sql_insert]). *)
Definition schema (t : string) : list column :=
  if String.eqb t "users" then
    [ col "username" Text true true DNull;
      col "email" Text true true DNull;
      col "password" Text true false DNull;
      col "full_name" Text true false DNull;
      col "role" Text false false (DValue (JStr "user"));
      col "department" Text false false DNull;
      col "created_at" Numeric false false DCurrentTimestamp;
      col "updated_at" Numeric false false DCurrentTimestamp;
      col "active" Numeric false false (DValue (JNum (Int 1))) ]
  else if String.eqb t "asset_categories" then
    [ col "name" Text true false DNull;
      col "description" Text false false DNull;
      col "created_at" Numeric false false DCurrentTimestamp ]
  else if String.eqb t "assets" then
    [ col "asset_code" Text true true DNull;
      col "name" Text true false DNull;
      col "description" Text false false DNull;
      col "category_id" Numeric false false DNull;
      col "brand" Text false false DNull;
      col "model" Text false false DNull;
      col "serial_number" Text false false DNull;
      col "purchase_date" Numeric false false DNull;
      col "purchase_price" Numeric false false DNull;
      col "supplier" Text false false DNull;
      col "location" Text false false DNull;
      col "status" Text false false (DValue (JStr "active"));
      col "responsible_user_id" Numeric false false DNull;
      col "warranty_expiry" Numeric false false DNull;
      col "notes" Text false false DNull;
      col "created_at" Numeric false false DCurrentTimestamp;
      col "updated_at" Numeric false false DCurrentTimestamp ]
  else if String.eqb t "incidents" then
    [ col "incident_code" Text true true DNull;
      col "title" Text true false DNull;
      col "description" Text true false DNull;
      col "asset_id" Numeric false false DNull;
      col "priority" Text false false (DValue (JStr "medium"));
      col "status" Text false false (DValue (JStr "open"));
      col "reported_by" Numeric false false DNull;
      col "assigned_to" Numeric false false DNull;
      col "reported_date" Numeric false false DCurrentTimestamp;
      col "resolved_date" Numeric false false DNull;
      col "solution" Text false false DNull;
      col "created_at" Numeric false false DCurrentTimestamp;
      col "updated_at" Numeric false false DCurrentTimestamp ]
  else if String.eqb t "maintenances" then
    [ col "maintenance_code" Text true true DNull;
      col "asset_id" Numeric true false DNull;
      col "type" Text false false (DValue (JStr "preventive"));
      col "title" Text true false DNull;
      col "description" Text false false DNull;
      col "scheduled_date" Numeric false false DNull;
      col "completed_date" Numeric false false DNull;
      col "status" Text false false (DValue (JStr "scheduled"));
      col "technician_id" Numeric false false DNull;
      col "cost" Numeric false false DNull;
      col "supplier" Text false false DNull;
      col "notes" Text false false DNull;
      col "created_at" Numeric false false DCurrentTimestamp;
      col "updated_at" Numeric false false DCurrentTimestamp ]
  else if String.eqb t "responsive_forms" then
    [ col "form_code" Text true true DNull;
      col "asset_id" Numeric true false DNull;
      col "previous_responsible_id" Numeric false false DNull;
      col "new_responsible_id" Numeric true false DNull;
      col "transfer_date" Numeric true false DNull;
      col "reason" Text false false DNull;
      col "conditions" Text false false DNull;
      col "observations" Text false false DNull;
      col "approved_by" Numeric false false DNull;
      col "status" Text false false (DValue (JStr "pending"));
      col "created_at" Numeric false false DCurrentTimestamp;
      col "updated_at" Numeric false false DCurrentTimestamp ]
  else [].

Definition column_of (t c : string) : option column :=
  List.find (fun k => String.eqb (col_name k) c) (schema t).

(** The affinity of a column; [id] and anything undeclared is numeric. *)
Definition affinity_of (t c : string) : affinity :=
  from_option col_affinity Numeric (column_of t c).

(** A JavaScript value as the driver binds it: [undefined] and [null] are
    NULL, a boolean is 0 or 1. *)
Definition bind (v : jsval) : jsval :=
  match v with
  | JUndefined => JNull
  | JBool b => JNum (Int (if b then 1 else 0))
  | _ => v
  end.

(** A bound value as a column of the given affinity holds or compares it:
    a numeric column turns the text of an integer literal into the integer
    (text spelling a number in another notation is kept as text here), a text
    column turns an integer into its decimal text. *)
Definition coerce (a : affinity) (v : jsval) : jsval :=
  match a, bind v with
  | Numeric, JStr s =>
      match integer_literal s with
      | Some z => JNum (Int z)
      | None => JStr s
      end
  | Text, JNum (Int z) => JStr (toString z)
  | _, b => b
  end.

(** [a = b] on stored values: NULL equals nothing. *)
Definition sql_eq (a b : jsval) : bool :=
  match a, b with
  | JNum (Int x), JNum (Int y) => x =? y
  | JStr x, JStr y => String.eqb x y
  | _, _ => false
  end.

Definition is_null (v : jsval) : bool :=
  match v with
  | JNull | JUndefined => true
  | _ => false
  end.

(** [c = ?] with the parameter [v], on a row of table [t]. *)
Definition col_eq (t c : string) (v : jsval) (r : row) : bool :=
  sql_eq (prop r c) (coerce (affinity_of t c) v).

(** [c = 'text'] and [c = n] with a literal. *)
Definition col_is (c : string) (lit : jsval) (r : row) : bool :=
  sql_eq (prop r c) lit.

(** The state of the store: its tables, and the failures still to come. Each
    statement consumes the head of [faults]; [true] makes it fail with an
    error and no effect. *)
Record db := {
  tables : gmap string (list row);
  faults : list bool
}.

Definition table (t : string) (s : db) : list row := default [] (tables s !! t).

Definition with_table (t : string) (rows : list row) (s : db) : db :=
  {| tables := <[t := rows]> (tables s); faults := faults s |}.

(** The store once it has taken a statement. *)
Definition next (s : db) : db := {| tables := tables s; faults := tail (faults s) |}.

Definition attempt {A : Type} (f : db -> result A * db) (s : db) : result A * db :=
  match head (faults s) with
  | Some true => (Err "SQLITE_ERROR", next s)
  | _ => f (next s)
  end.

(** [SET c = v, ...] on one row. *)
Definition assign (t : string) (sets : list (string * jsval)) (r : row) : row :=
  foldl (fun r' cv => <[cv.1 := coerce (affinity_of t cv.1) cv.2]> r') r sets.

(** A NOT NULL column among the assigned ones receives NULL. *)
Definition violates_not_null (t : string) (sets : list (string * jsval)) : bool :=
  existsb (fun cv => from_option col_not_null false (column_of t cv.1)
                     && is_null (coerce (affinity_of t cv.1) cv.2)) sets.

(** [UPDATE t SET sets WHERE cond]; the answer is [this.changes], the number
    of rows the WHERE clause selects. No UPDATE of the handlers assigns a
    UNIQUE column. *)
Definition sql_update (t : string) (sets : list (string * jsval)) (cond : row -> bool)
    : db -> result Z * db :=
  attempt (fun s =>
    let rows := table t s in
    let changes := Z.of_nat (length (List.filter cond rows)) in
    if (0 <? changes) && violates_not_null t sets
    then (Err "SQLITE_CONSTRAINT", s)
    else (Ok changes,
          with_table t (List.map (fun r => if cond r then assign t sets r else r) rows) s)).

(** The id AUTOINCREMENT gives the next row: one more than the largest. *)
Definition next_id (rows : list row) : Z :=
  1 + foldr (fun r m => match prop r "id" with JNum (Int i) => Z.max i m | _ => m end) 0 rows.

(** The row of an INSERT before the listed values are assigned: every column
    at its default. *)
Definition blank (t : string) (now : string) : row :=
  foldl (fun r k =>
           <[col_name k := match col_default k with
                           | DNull => JNull
                           | DValue v => v
                           | DCurrentTimestamp => JStr now
                           end]> r)
        ∅ (schema t).

(** The new row breaks a NOT NULL or a UNIQUE constraint of the table. *)
Definition violates (t : string) (r : row) (rows : list row) : bool :=
  existsb (fun k =>
             (col_not_null k && is_null (prop r (col_name k)))
             || (col_unique k
                 && existsb (fun r' => sql_eq (prop r' (col_name k)) (prop r (col_name k))) rows))
          (schema t).

(** [INSERT INTO t (columns) VALUES (values)]; the answer is [this.lastID]. *)
Definition sql_insert (t : string) (now : string) (values : list (string * jsval))
    : db -> result Z * db :=
  attempt (fun s =>
    let rows := table t s in
    let id := next_id rows in
    let r := <["id" := JNum (Int id)]> (assign t values (blank t now)) in
    if violates t r rows then (Err "SQLITE_CONSTRAINT", s)
    else (Ok id, with_table t (rows ++ [r]) s)).

(** [db.get] of [SELECT columns FROM t WHERE cond]: the first row selected, if
    any, with the columns asked for ([None] for [*]). *)
Definition sql_get (t : string) (columns : option (list string)) (cond : row -> bool)
    : db -> result (option row) * db :=
  attempt (fun s =>
    (Ok (match columns with
         | None => id
         | Some cs => fun r => list_to_map (List.map (fun c => (c, prop r c)) cs)
         end <$> List.find cond (table t s)), s)).

End Store.

Import Store.

(** ** Collaborators outside the routers *)

(** The validators of express-validator the routes declare, on the value of
    a body field. *)
Class Validators := {
  notEmpty : jsval -> bool;
  isInt : jsval -> bool;
  isBoolean : jsval -> bool;
  isISO8601 : jsval -> bool;
  isEmail : jsval -> bool;
  isIn : list string -> jsval -> bool;
  isLength : nat -> jsval -> bool
}.

(** bcryptjs and the helpers of [middleware/auth]: [authorizeRole] answers
    with the response it sends when it stops the request. *)
Class Credentials := {
  bcrypt_compare : jsval -> jsval -> result bool;
  bcrypt_hash : jsval -> result string;
  generateToken : row -> string;
  authorizeRole : list string -> row -> option outcome
}.

(** What a request reads from its surroundings: CURRENT_TIMESTAMP of the
    store, [new Date()], the draw of [Math.random()] and [req.user]. *)
Record env := {
  now : string;
  today : Date;
  random : Q;
  req_user : row
}.

(** The messages of the validators that failed, in declaration order. *)
Definition failed (checks : list (bool * string)) : list string :=
  List.map snd (List.filter (fun c => negb c.1) checks).

Definition is_empty {A : Type} (l : list A) : bool :=
  match l with
  | [] => true
  | _ => false
  end.

(** [res.status(201).json(body)]. *)
Definition created (b : json) : outcome := Sent {| status := 201; body := b |}.

(** ** Domain codes *)

Definition generateFormCode (now : Date) (random : Q) : string :=
  let year := substr_last 2 (toString (getFullYear now)) in
  let month := padStart 2 "0" (toString (getMonth now + 1)) in
  let day := padStart 2 "0" (toString (getDate now)) in
  let random := padStart 3 "0" (toString (Qfloor (random * 1000))) in
  "FR-" +:+ year +:+ month +:+ day +:+ "-" +:+ random.

Definition generateMaintenanceCode (now : Date) (random : Q) : string :=
  let year := substr_last 2 (toString (getFullYear now)) in
  let month := padStart 2 "0" (toString (getMonth now + 1)) in
  let day := padStart 2 "0" (toString (getDate now)) in
  let random := padStart 3 "0" (toString (Qfloor (random * 1000))) in
  "MNT-" +:+ year +:+ month +:+ day +:+ "-" +:+ random.

Definition generateIncidentCode (now : Date) (random : Q) : string :=
  let year := substr_last 2 (toString (getFullYear now)) in
  let month := padStart 2 "0" (toString (getMonth now + 1)) in
  let day := padStart 2 "0" (toString (getDate now)) in
  let random := padStart 3 "0" (toString (Qfloor (random * 1000))) in
  "INC-" +:+ year +:+ month +:+ day +:+ "-" +:+ random.

(** ** Auth router *)

Module Auth.
Section Handlers.
Context {V : Validators} {C : Credentials}.

(** POST /login. *)
Definition login (e : env) (body : row) (s : db) : outcome * db :=
  let errors := failed [ (notEmpty (prop body "username"), "Usuario es requerido");
                         (notEmpty (prop body "password"), "Contraseña es requerida") ] in
  if negb (is_empty errors) then (bad_request errors, s) else
  let username := prop body "username" in
  let password := prop body "password" in
  let '(r, s) :=
    sql_get "users" None
      (fun u => (col_eq "users" "username" username u || col_eq "users" "email" username u)
                && col_is "active" (JNum (Int 1)) u) s in
  match r with
  | Err _ => (message 500 "Error del servidor", s)
  | Ok None => (message 401 "Credenciales inválidas", s)
  | Ok (Some user) =>
      match bcrypt_compare password (prop user "password") with
      | Err _ | Ok false => (message 401 "Credenciales inválidas", s)
      | Ok true =>
          let token := generateToken user in
          let '(_, s) :=
            sql_update "users" [("updated_at", JStr (now e))]
              (col_eq "users" "id" (prop user "id")) s in
          (ok [ ("message", JV (JStr "Login exitoso"));
                ("token", JV (JStr token));
                ("user", JO [ ("id", prop user "id");
                              ("username", prop user "username");
                              ("email", prop user "email");
                              ("full_name", prop user "full_name");
                              ("role", prop user "role");
                              ("department", prop user "department") ]) ], s)
      end
  end.

(** POST /register. *)
Definition register (e : env) (body : row) (s : db) : outcome * db :=
  if negb (bool_decide (prop (req_user e) "role" = JStr "admin"))
  then (message 403 "Solo administradores pueden registrar usuarios", s) else
  let errors :=
    failed [ (isLength 3 (prop body "username"), "Usuario debe tener al menos 3 caracteres");
             (isEmail (prop body "email"), "Email inválido");
             (isLength 6 (prop body "password"), "Contraseña debe tener al menos 6 caracteres");
             (notEmpty (prop body "full_name"), "Nombre completo es requerido") ] in
  if negb (is_empty errors) then (bad_request errors, s) else
  let username := prop body "username" in
  let email := prop body "email" in
  let password := prop body "password" in
  let full_name := prop body "full_name" in
  let role := or_default (JStr "user") (prop body "role") in
  let department := prop body "department" in
  let '(r, s) :=
    sql_get "users" None
      (fun u => col_eq "users" "username" username u || col_eq "users" "email" email u) s in
  match r with
  | Err _ => (message 500 "Error del servidor", s)
  | Ok (Some existingUser) => (message 400 "Usuario o email ya existen", s)
  | Ok None =>
      match bcrypt_hash password with
      | Err _ => (message 500 "Error al procesar contraseña", s)
      | Ok hashedPassword =>
          let '(r, s) :=
            sql_insert "users" (now e)
              [ ("username", username); ("email", email); ("password", JStr hashedPassword);
                ("full_name", full_name); ("role", role); ("department", department) ] s in
          match r with
          | Err _ => (message 500 "Error al crear usuario", s)
          | Ok lastID =>
              (created [ ("message", JV (JStr "Usuario creado exitosamente"));
                         ("user", JO [ ("id", JNum (Int lastID));
                                       ("username", username);
                                       ("email", email);
                                       ("full_name", full_name);
                                       ("role", role);
                                       ("department", department) ]) ], s)
          end
      end
  end.

(** GET /profile. *)
Definition profile (e : env) (s : db) : outcome * db :=
  let '(r, s) :=
    sql_get "users"
      (Some ["id"; "username"; "email"; "full_name"; "role"; "department"; "created_at"])
      (col_eq "users" "id" (prop (req_user e) "id")) s in
  match r with
  | Err _ => (message 500 "Error del servidor", s)
  | Ok None => (message 404 "Usuario no encontrado", s)
  | Ok (Some user) => (ok [ ("user", JRow user) ], s)
  end.

(** PUT /change-password. *)
Definition change_password (e : env) (body : row) (s : db) : outcome * db :=
  let errors :=
    failed [ (notEmpty (prop body "currentPassword"), "Contraseña actual requerida");
             (isLength 6 (prop body "newPassword"),
              "Nueva contraseña debe tener al menos 6 caracteres") ] in
  if negb (is_empty errors) then (bad_request errors, s) else
  let currentPassword := prop body "currentPassword" in
  let newPassword := prop body "newPassword" in
  let '(r, s) :=
    sql_get "users" (Some ["password"]) (col_eq "users" "id" (prop (req_user e) "id")) s in
  match r with
  | Err _ => (message 500 "Error del servidor", s)
  | Ok None => (Thrown, s)
  | Ok (Some user) =>
      match bcrypt_compare currentPassword (prop user "password") with
      | Err _ | Ok false => (message 400 "Contraseña actual incorrecta", s)
      | Ok true =>
          match bcrypt_hash newPassword with
          | Err _ => (message 500 "Error al procesar nueva contraseña", s)
          | Ok hashedPassword =>
              let '(r, s) :=
                sql_update "users"
                  [ ("password", JStr hashedPassword); ("updated_at", JStr (now e)) ]
                  (col_eq "users" "id" (prop (req_user e) "id")) s in
              match r with
              | Err _ => (message 500 "Error al actualizar contraseña", s)
              | Ok _ => (ok [ ("message", JV (JStr "Contraseña actualizada exitosamente")) ], s)
              end
          end
      end
  end.
End Handlers.
End Auth.

(** ** Responsive forms router *)

Module ResponsiveForms.

Definition page_query (q : gmap string string) : string * list jsval :=
  let page := or_default (JNum (Int 1)) (qparam q "page") in
  let limit := or_default (JNum (Int 10)) (qparam q "limit") in
  let status := qparam q "status" in
  let asset_id := qparam q "asset_id" in
  let new_responsible_id := qparam q "new_responsible_id" in
  let offset := mul (sub (to_number page) (Int 1)) (to_number limit) in
  let qp := (forms_select, []) in
  let qp := when status " AND rf.status = ?" [status] qp in
  let qp := when asset_id " AND rf.asset_id = ?" [asset_id] qp in
  let qp := when new_responsible_id " AND rf.new_responsible_id = ?" [new_responsible_id] qp in
  (qp.1 +:+ " ORDER BY rf.created_at DESC LIMIT ? OFFSET ?",
   qp.2 ++ [JNum (parseInt limit); JNum offset]).

Definition count_query (q : gmap string string) : string * list jsval :=
  let status := qparam q "status" in
  let asset_id := qparam q "asset_id" in
  let new_responsible_id := qparam q "new_responsible_id" in
  let qp := (forms_count_select, []) in
  let qp := when status " AND rf.status = ?" [status] qp in
  let qp := when asset_id " AND rf.asset_id = ?" [asset_id] qp in
  let qp := when new_responsible_id " AND rf.new_responsible_id = ?" [new_responsible_id] qp in
  qp.

Section List.
Variable db_all : string -> list jsval -> result (list row).
Variable db_get : string -> list jsval -> result (option row).

(** GET /. *)
Definition get_list (q : gmap string string) : outcome :=
  let page := or_default (JNum (Int 1)) (qparam q "page") in
  let limit := or_default (JNum (Int 10)) (qparam q "limit") in
  match db_all (page_query q).1 (page_query q).2 with
  | Err _ => message 500 "Error al obtener formatos responsivos"
  | Ok forms =>
      match db_get (count_query q).1 (count_query q).2 with
      | Err _ => message 500 "Error al contar formatos responsivos"
      | Ok None => Thrown
      | Ok (Some countResult) =>
          ok [ ("forms", JRows forms);
               ("pagination", pagination page limit countResult) ]
      end
  end.
End List.

Section Handlers.
Context {V : Validators}.

(** POST /. *)
Definition create (e : env) (body : row) (s : db) : outcome * db :=
  let errors :=
    failed [ (isInt (prop body "asset_id"), "Activo válido es requerido");
             (isInt (prop body "new_responsible_id"), "Nuevo responsable válido es requerido");
             (isISO8601 (prop body "transfer_date"), "Fecha de transferencia válida es requerida");
             (notEmpty (prop body "reason"), "Razón de la transferencia es requerida") ] in
  if negb (is_empty errors) then (bad_request errors, s) else
  let asset_id := prop body "asset_id" in
  let new_responsible_id := prop body "new_responsible_id" in
  let transfer_date := prop body "transfer_date" in
  let reason := prop body "reason" in
  let conditions := prop body "conditions" in
  let observations := prop body "observations" in
  let form_code := generateFormCode (today e) (random e) in
  let '(r, s) :=
    sql_get "assets" (Some ["responsible_user_id"]) (col_eq "assets" "id" asset_id) s in
  match r with
  | Err _ => (message 500 "Error al obtener información del activo", s)
  | Ok None => (message 404 "Activo no encontrado", s)
  | Ok (Some asset) =>
      let previous_responsible_id := prop asset "responsible_user_id" in
      let '(r, s) :=
        sql_insert "responsive_forms" (now e)
          [ ("form_code", JStr form_code); ("asset_id", asset_id);
            ("previous_responsible_id", previous_responsible_id);
            ("new_responsible_id", new_responsible_id);
            ("transfer_date", transfer_date); ("reason", reason);
            ("conditions", conditions); ("observations", observations);
            ("status", JStr "pending") ] s in
      match r with
      | Err _ => (message 500 "Error al crear formato responsivo", s)
      | Ok lastID =>
          (created [ ("message", JV (JStr "Formato responsivo creado exitosamente"));
                     ("form", JO [ ("id", JNum (Int lastID));
                                   ("form_code", JStr form_code);
                                   ("asset_id", asset_id);
                                   ("new_responsible_id", new_responsible_id);
                                   ("transfer_date", transfer_date);
                                   ("status", JStr "pending") ]) ], s)
      end
  end.

(** PUT /:id/approve. *)
Definition approve (e : env) (id : jsval) (body : row) (s : db) : outcome * db :=
  let errors :=
    failed [ (isBoolean (prop body "approved"), "Estado de aprobación requerido") ] in
  if negb (is_empty errors) then (bad_request errors, s) else
  let approved := prop body "approved" in
  let comments := prop body "comments" in
  let approved_by := prop (req_user e) "id" in
  let status := if truthy approved then "approved" else "rejected" in
  let done :=
    "Formato responsivo "
    +:+ (if String.eqb status "approved" then "aprobado" else "rechazado")
    +:+ " exitosamente" in
  let '(r, s) :=
    sql_update "responsive_forms"
      [ ("status", JStr status); ("approved_by", approved_by);
        ("observations", comments); ("updated_at", JStr (now e)) ]
      (fun f => col_eq "responsive_forms" "id" id f && col_is "status" (JStr "pending") f) s in
  match r with
  | Err _ => (message 500 "Error al actualizar formato responsivo", s)
  | Ok changes =>
      if changes =? 0 then (message 404 "Formato no encontrado o ya procesado", s) else
      if truthy approved then
        let '(r, s) :=
          sql_get "responsive_forms" (Some ["asset_id"; "new_responsible_id"])
            (col_eq "responsive_forms" "id" id) s in
        match r with
        | Err _ | Ok None => (message 500 "Error al obtener datos del formato", s)
        | Ok (Some form) =>
            let '(r, s) :=
              sql_update "assets"
                [ ("responsible_user_id", prop form "new_responsible_id");
                  ("updated_at", JStr (now e)) ]
                (col_eq "assets" "id" (prop form "asset_id")) s in
            match r with
            | Err _ => (message 500 "Error al actualizar responsable del activo", s)
            | Ok _ => (ok [ ("message", JV (JStr done)) ], s)
            end
        end
      else (ok [ ("message", JV (JStr done)) ], s)
  end.
End Handlers.

End ResponsiveForms.

(** ** Maintenances router *)

Module Maintenances.

Definition page_query (q : gmap string string) : string * list jsval :=
  let page := or_default (JNum (Int 1)) (qparam q "page") in
  let limit := or_default (JNum (Int 10)) (qparam q "limit") in
  let status := qparam q "status" in
  let type := qparam q "type" in
  let asset_id := qparam q "asset_id" in
  let technician_id := qparam q "technician_id" in
  let offset := mul (sub (to_number page) (Int 1)) (to_number limit) in
  let qp := (maintenances_select, []) in
  let qp := when status " AND m.status = ?" [status] qp in
  let qp := when type " AND m.type = ?" [type] qp in
  let qp := when asset_id " AND m.asset_id = ?" [asset_id] qp in
  let qp := when technician_id " AND m.technician_id = ?" [technician_id] qp in
  (qp.1 +:+ " ORDER BY m.scheduled_date DESC, m.created_at DESC LIMIT ? OFFSET ?",
   qp.2 ++ [JNum (parseInt limit); JNum offset]).

Definition count_query (q : gmap string string) : string * list jsval :=
  let status := qparam q "status" in
  let type := qparam q "type" in
  let asset_id := qparam q "asset_id" in
  let technician_id := qparam q "technician_id" in
  let qp := (maintenances_count_select, []) in
  let qp := when status " AND m.status = ?" [status] qp in
  let qp := when type " AND m.type = ?" [type] qp in
  let qp := when asset_id " AND m.asset_id = ?" [asset_id] qp in
  let qp := when technician_id " AND m.technician_id = ?" [technician_id] qp in
  qp.

Section List.
Variable db_all : string -> list jsval -> result (list row).
Variable db_get : string -> list jsval -> result (option row).

(** GET /. *)
Definition get_list (q : gmap string string) : outcome :=
  let page := or_default (JNum (Int 1)) (qparam q "page") in
  let limit := or_default (JNum (Int 10)) (qparam q "limit") in
  match db_all (page_query q).1 (page_query q).2 with
  | Err _ => message 500 "Error al obtener mantenimientos"
  | Ok maintenances =>
      match db_get (count_query q).1 (count_query q).2 with
      | Err _ => message 500 "Error al contar mantenimientos"
      | Ok None => Thrown
      | Ok (Some countResult) =>
          ok [ ("maintenances", JRows maintenances);
               ("pagination", pagination page limit countResult) ]
      end
  end.
End List.

Section Handlers.
Context {V : Validators}.

(** POST /. *)
Definition create (e : env) (body : row) (s : db) : outcome * db :=
  let errors :=
    failed [ (isInt (prop body "asset_id"), "Activo válido es requerido");
             (isIn ["preventive"; "corrective"; "predictive"] (prop body "type"),
              "Tipo de mantenimiento inválido");
             (notEmpty (prop body "title"), "Título es requerido");
             (isISO8601 (prop body "scheduled_date"), "Fecha programada válida es requerida") ] in
  if negb (is_empty errors) then (bad_request errors, s) else
  let asset_id := prop body "asset_id" in
  let type := prop body "type" in
  let title := prop body "title" in
  let description := prop body "description" in
  let scheduled_date := prop body "scheduled_date" in
  let technician_id := prop body "technician_id" in
  let cost := prop body "cost" in
  let supplier := prop body "supplier" in
  let notes := prop body "notes" in
  let maintenance_code := generateMaintenanceCode (today e) (random e) in
  let '(r, s) :=
    sql_insert "maintenances" (now e)
      [ ("maintenance_code", JStr maintenance_code); ("asset_id", asset_id);
        ("type", type); ("title", title); ("description", description);
        ("scheduled_date", scheduled_date); ("technician_id", technician_id);
        ("cost", cost); ("supplier", supplier); ("notes", notes);
        ("status", JStr "scheduled") ] s in
  match r with
  | Err _ => (message 500 "Error al crear mantenimiento", s)
  | Ok lastID =>
      (created [ ("message", JV (JStr "Mantenimiento programado exitosamente"));
                 ("maintenance", JO [ ("id", JNum (Int lastID));
                                      ("maintenance_code", JStr maintenance_code);
                                      ("title", title);
                                      ("type", type);
                                      ("scheduled_date", scheduled_date);
                                      ("status", JStr "scheduled") ]) ], s)
  end.

(** PUT /:id. *)
Definition update (e : env) (id : jsval) (body : row) (s : db) : outcome * db :=
  let errors :=
    failed [ (notEmpty (prop body "title"), "Título es requerido");
             (isIn ["preventive"; "corrective"; "predictive"] (prop body "type"),
              "Tipo de mantenimiento inválido") ] in
  if negb (is_empty errors) then (bad_request errors, s) else
  let '(r, s) :=
    sql_update "maintenances"
      [ ("type", prop body "type"); ("title", prop body "title");
        ("description", prop body "description");
        ("scheduled_date", prop body "scheduled_date");
        ("technician_id", prop body "technician_id"); ("cost", prop body "cost");
        ("supplier", prop body "supplier"); ("notes", prop body "notes");
        ("status", prop body "status"); ("updated_at", JStr (now e)) ]
      (col_eq "maintenances" "id" id) s in
  match r with
  | Err _ => (message 500 "Error al actualizar mantenimiento", s)
  | Ok changes =>
      if changes =? 0 then (message 404 "Mantenimiento no encontrado", s)
      else (ok [ ("message", JV (JStr "Mantenimiento actualizado exitosamente")) ], s)
  end.
End Handlers.

(** PUT /:id/start. *)
Definition start (e : env) (id : jsval) (s : db) : outcome * db :=
  let '(r, s) :=
    sql_update "maintenances"
      [ ("status", JStr "in_progress"); ("updated_at", JStr (now e)) ]
      (fun m => col_eq "maintenances" "id" id m && col_is "status" (JStr "scheduled") m) s in
  match r with
  | Err _ => (message 500 "Error al iniciar mantenimiento", s)
  | Ok changes =>
      if changes =? 0 then (message 404 "Mantenimiento no encontrado o ya iniciado", s)
      else (ok [ ("message", JV (JStr "Mantenimiento iniciado exitosamente")) ], s)
  end.

(** PUT /:id/complete. The route declares a validator for [notes], and the
    handler does not read the validation result. *)
Definition complete (e : env) (id : jsval) (body : row) (s : db) : outcome * db :=
  let notes := prop body "notes" in
  let cost := prop body "cost" in
  let sets := [ ("status", JStr "completed"); ("completed_date", JStr (now e));
                ("updated_at", JStr (now e)) ] in
  let sets := if truthy notes then sets ++ [("notes", notes)] else sets in
  let sets := if truthy cost then sets ++ [("cost", cost)] else sets in
  let '(r, s) :=
    sql_update "maintenances" sets
      (fun m => col_eq "maintenances" "id" id m
                && (col_is "status" (JStr "scheduled") m
                    || col_is "status" (JStr "in_progress") m)) s in
  match r with
  | Err _ => (message 500 "Error al completar mantenimiento", s)
  | Ok changes =>
      if changes =? 0 then (message 404 "Mantenimiento no encontrado o ya completado", s)
      else (ok [ ("message", JV (JStr "Mantenimiento completado exitosamente")) ], s)
  end.

End Maintenances.

(** ** Incidents router *)

Module Incidents.

Definition page_query (q : gmap string string) : string * list jsval :=
  let page := or_default (JNum (Int 1)) (qparam q "page") in
  let limit := or_default (JNum (Int 10)) (qparam q "limit") in
  let status := qparam q "status" in
  let priority := qparam q "priority" in
  let asset_id := qparam q "asset_id" in
  let assigned_to := qparam q "assigned_to" in
  let offset := mul (sub (to_number page) (Int 1)) (to_number limit) in
  let qp := (incidents_select, []) in
  let qp := when status " AND i.status = ?" [status] qp in
  let qp := when priority " AND i.priority = ?" [priority] qp in
  let qp := when asset_id " AND i.asset_id = ?" [asset_id] qp in
  let qp := when assigned_to " AND i.assigned_to = ?" [assigned_to] qp in
  (qp.1 +:+ " ORDER BY i.created_at DESC LIMIT ? OFFSET ?",
   qp.2 ++ [JNum (parseInt limit); JNum offset]).

Definition count_query (q : gmap string string) : string * list jsval :=
  let status := qparam q "status" in
  let priority := qparam q "priority" in
  let asset_id := qparam q "asset_id" in
  let assigned_to := qparam q "assigned_to" in
  let qp := (incidents_count_select, []) in
  let qp := when status " AND i.status = ?" [status] qp in
  let qp := when priority " AND i.priority = ?" [priority] qp in
  let qp := when asset_id " AND i.asset_id = ?" [asset_id] qp in
  let qp := when assigned_to " AND i.assigned_to = ?" [assigned_to] qp in
  qp.

Section List.
Variable db_all : string -> list jsval -> result (list row).
Variable db_get : string -> list jsval -> result (option row).

(** GET /. *)
Definition get_list (q : gmap string string) : outcome :=
  let page := or_default (JNum (Int 1)) (qparam q "page") in
  let limit := or_default (JNum (Int 10)) (qparam q "limit") in
  match db_all (page_query q).1 (page_query q).2 with
  | Err _ => message 500 "Error al obtener incidencias"
  | Ok incidents =>
      match db_get (count_query q).1 (count_query q).2 with
      | Err _ => message 500 "Error al contar incidencias"
      | Ok None => Thrown
      | Ok (Some countResult) =>
          ok [ ("incidents", JRows incidents);
               ("pagination", pagination page limit countResult) ]
      end
  end.
End List.

Section Handlers.
Context {V : Validators}.

(** POST /. *)
Definition create (e : env) (body : row) (s : db) : outcome * db :=
  let errors :=
    failed [ (notEmpty (prop body "title"), "Título es requerido");
             (notEmpty (prop body "description"), "Descripción es requerida");
             (isIn ["low"; "medium"; "high"; "critical"] (prop body "priority"),
              "Prioridad inválida") ] in
  if negb (is_empty errors) then (bad_request errors, s) else
  let title := prop body "title" in
  let description := prop body "description" in
  let asset_id := prop body "asset_id" in
  let priority := or_default (JStr "medium") (prop body "priority") in
  let assigned_to := prop body "assigned_to" in
  let incident_code := generateIncidentCode (today e) (random e) in
  let reported_by := prop (req_user e) "id" in
  let '(r, s) :=
    sql_insert "incidents" (now e)
      [ ("incident_code", JStr incident_code); ("title", title);
        ("description", description); ("asset_id", asset_id); ("priority", priority);
        ("reported_by", reported_by); ("assigned_to", assigned_to);
        ("status", JStr "open") ] s in
  match r with
  | Err _ => (message 500 "Error al crear incidencia", s)
  | Ok lastID =>
      (created [ ("message", JV (JStr "Incidencia creada exitosamente"));
                 ("incident", JO [ ("id", JNum (Int lastID));
                                   ("incident_code", JStr incident_code);
                                   ("title", title);
                                   ("priority", priority);
                                   ("status", JStr "open") ]) ], s)
  end.

(** PUT /:id. *)
Definition update (e : env) (id : jsval) (body : row) (s : db) : outcome * db :=
  let errors :=
    failed [ (notEmpty (prop body "title"), "Título es requerido");
             (notEmpty (prop body "description"), "Descripción es requerida") ] in
  if negb (is_empty errors) then (bad_request errors, s) else
  let status := prop body "status" in
  let sets := [ ("title", prop body "title"); ("description", prop body "description");
                ("priority", prop body "priority"); ("status", status);
                ("assigned_to", prop body "assigned_to"); ("solution", prop body "solution");
                ("updated_at", JStr (now e)) ] in
  let sets :=
    if bool_decide (status = JStr "resolved") || bool_decide (status = JStr "closed")
    then sets ++ [("resolved_date", JStr (now e))] else sets in
  let '(r, s) := sql_update "incidents" sets (col_eq "incidents" "id" id) s in
  match r with
  | Err _ => (message 500 "Error al actualizar incidencia", s)
  | Ok changes =>
      if changes =? 0 then (message 404 "Incidencia no encontrada", s)
      else (ok [ ("message", JV (JStr "Incidencia actualizada exitosamente")) ], s)
  end.

(** PUT /:id/assign. *)
Definition assign_to (e : env) (id : jsval) (body : row) (s : db) : outcome * db :=
  let errors :=
    failed [ (isInt (prop body "assigned_to"), "Usuario asignado requerido") ] in
  if negb (is_empty errors) then (bad_request errors, s) else
  let '(r, s) :=
    sql_update "incidents"
      [ ("assigned_to", prop body "assigned_to"); ("status", JStr "assigned");
        ("updated_at", JStr (now e)) ]
      (col_eq "incidents" "id" id) s in
  match r with
  | Err _ => (message 500 "Error al asignar incidencia", s)
  | Ok changes =>
      if changes =? 0 then (message 404 "Incidencia no encontrada", s)
      else (ok [ ("message", JV (JStr "Incidencia asignada exitosamente")) ], s)
  end.

(** PUT /:id/resolve. *)
Definition resolve (e : env) (id : jsval) (body : row) (s : db) : outcome * db :=
  let errors :=
    failed [ (notEmpty (prop body "solution"), "Solución es requerida") ] in
  if negb (is_empty errors) then (bad_request errors, s) else
  let '(r, s) :=
    sql_update "incidents"
      [ ("solution", prop body "solution"); ("status", JStr "resolved");
        ("resolved_date", JStr (now e)); ("updated_at", JStr (now e)) ]
      (col_eq "incidents" "id" id) s in
  match r with
  | Err _ => (message 500 "Error al resolver incidencia", s)
  | Ok changes =>
      if changes =? 0 then (message 404 "Incidencia no encontrada", s)
      else (ok [ ("message", JV (JStr "Incidencia resuelta exitosamente")) ], s)
  end.
End Handlers.

End Incidents.

(** ** Assets router *)

Module Assets.

Definition page_query (q : gmap string string) : string * list jsval :=
  let page := or_default (JNum (Int 1)) (qparam q "page") in
  let limit := or_default (JNum (Int 10)) (qparam q "limit") in
  let category := qparam q "category" in
  let status := qparam q "status" in
  let search := qparam q "search" in
  let offset := mul (sub (to_number page) (Int 1)) (to_number limit) in
  let qp := (assets_select, []) in
  let qp := when category " AND a.category_id = ?" [category] qp in
  let qp := when status " AND a.status = ?" [status] qp in
  let qp :=
    let searchTerm := JStr ("%" +:+ to_string search +:+ "%") in
    when search " AND (a.name LIKE ? OR a.asset_code LIKE ? OR a.brand LIKE ? OR a.model LIKE ?)"
      [searchTerm; searchTerm; searchTerm; searchTerm] qp in
  (qp.1 +:+ " ORDER BY a.created_at DESC LIMIT ? OFFSET ?",
   qp.2 ++ [JNum (parseInt limit); JNum offset]).

Definition count_query (q : gmap string string) : string * list jsval :=
  let category := qparam q "category" in
  let status := qparam q "status" in
  let search := qparam q "search" in
  let qp := (assets_count_select, []) in
  let qp := when category " AND a.category_id = ?" [category] qp in
  let qp := when status " AND a.status = ?" [status] qp in
  let qp :=
    let searchTerm := JStr ("%" +:+ to_string search +:+ "%") in
    when search " AND (a.name LIKE ? OR a.asset_code LIKE ? OR a.brand LIKE ? OR a.model LIKE ?)"
      [searchTerm; searchTerm; searchTerm; searchTerm] qp in
  qp.

Section List.
Variable db_all : string -> list jsval -> result (list row).
Variable db_get : string -> list jsval -> result (option row).

(** GET /. *)
Definition get_list (q : gmap string string) : outcome :=
  let page := or_default (JNum (Int 1)) (qparam q "page") in
  let limit := or_default (JNum (Int 10)) (qparam q "limit") in
  match db_all (page_query q).1 (page_query q).2 with
  | Err _ => message 500 "Error al obtener activos"
  | Ok assets =>
      match db_get (count_query q).1 (count_query q).2 with
      | Err _ => message 500 "Error al contar activos"
      | Ok None => Thrown
      | Ok (Some countResult) =>
          ok [ ("assets", JRows assets);
               ("pagination", pagination page limit countResult) ]
      end
  end.
End List.

Section Handlers.
Context {V : Validators} {C : Credentials}.

(** POST /. *)
Definition create (e : env) (body : row) (s : db) : outcome * db :=
  let errors :=
    failed [ (notEmpty (prop body "name"), "Nombre del activo es requerido");
             (notEmpty (prop body "asset_code"), "Código del activo es requerido");
             (isInt (prop body "category_id"), "Categoría válida es requerida") ] in
  if negb (is_empty errors) then (bad_request errors, s) else
  let asset_code := prop body "asset_code" in
  let name := prop body "name" in
  let status := or_default (JStr "active") (prop body "status") in
  let '(r, s) := sql_get "assets" (Some ["id"]) (col_eq "assets" "asset_code" asset_code) s in
  match r with
  | Err _ => (message 500 "Error del servidor", s)
  | Ok (Some existing) => (message 400 "El código del activo ya existe", s)
  | Ok None =>
      let '(r, s) :=
        sql_insert "assets" (now e)
          [ ("asset_code", asset_code); ("name", name);
            ("description", prop body "description");
            ("category_id", prop body "category_id"); ("brand", prop body "brand");
            ("model", prop body "model"); ("serial_number", prop body "serial_number");
            ("purchase_date", prop body "purchase_date");
            ("purchase_price", prop body "purchase_price");
            ("supplier", prop body "supplier"); ("location", prop body "location");
            ("status", status);
            ("responsible_user_id", prop body "responsible_user_id");
            ("warranty_expiry", prop body "warranty_expiry");
            ("notes", prop body "notes") ] s in
      match r with
      | Err _ => (message 500 "Error al crear activo", s)
      | Ok lastID =>
          (created [ ("message", JV (JStr "Activo creado exitosamente"));
                     ("asset", JO [ ("id", JNum (Int lastID));
                                    ("asset_code", asset_code);
                                    ("name", name);
                                    ("status", status) ]) ], s)
      end
  end.

(** PUT /:id. *)
Definition update (e : env) (id : jsval) (body : row) (s : db) : outcome * db :=
  let errors :=
    failed [ (notEmpty (prop body "name"), "Nombre del activo es requerido");
             (isInt (prop body "category_id"), "Categoría válida es requerida") ] in
  if negb (is_empty errors) then (bad_request errors, s) else
  let '(r, s) :=
    sql_update "assets"
      [ ("name", prop body "name"); ("description", prop body "description");
        ("category_id", prop body "category_id"); ("brand", prop body "brand");
        ("model", prop body "model"); ("serial_number", prop body "serial_number");
        ("purchase_date", prop body "purchase_date");
        ("purchase_price", prop body "purchase_price");
        ("supplier", prop body "supplier"); ("location", prop body "location");
        ("status", prop body "status");
        ("responsible_user_id", prop body "responsible_user_id");
        ("warranty_expiry", prop body "warranty_expiry"); ("notes", prop body "notes");
        ("updated_at", JStr (now e)) ]
      (col_eq "assets" "id" id) s in
  match r with
  | Err _ => (message 500 "Error al actualizar activo", s)
  | Ok changes =>
      if changes =? 0 then (message 404 "Activo no encontrado", s)
      else (ok [ ("message", JV (JStr "Activo actualizado exitosamente")) ], s)
  end.

(** DELETE /:id (soft delete, admin only). *)
Definition soft_delete (e : env) (id : jsval) (s : db) : outcome * db :=
  match authorizeRole ["admin"] (req_user e) with
  | Some stop => (stop, s)
  | None =>
      let '(r, s) :=
        sql_update "assets" [ ("status", JStr "inactive"); ("updated_at", JStr (now e)) ]
          (col_eq "assets" "id" id) s in
      match r with
      | Err _ => (message 500 "Error al eliminar activo", s)
      | Ok changes =>
          if changes =? 0 then (message 404 "Activo no encontrado", s)
          else (ok [ ("message", JV (JStr "Activo eliminado exitosamente")) ], s)
      end
  end.

(** POST /categories (admin only). *)
Definition create_category (e : env) (body : row) (s : db) : outcome * db :=
  match authorizeRole ["admin"] (req_user e) with
  | Some stop => (stop, s)
  | None =>
      let errors :=
        failed [ (notEmpty (prop body "name"), "Nombre de la categoría es requerido") ] in
      if negb (is_empty errors) then (bad_request errors, s) else
      let name := prop body "name" in
      let description := prop body "description" in
      let '(r, s) :=
        sql_insert "asset_categories" (now e)
          [ ("name", name); ("description", description) ] s in
      match r with
      | Err _ => (message 500 "Error al crear categoría", s)
      | Ok lastID =>
          (created [ ("message", JV (JStr "Categoría creada exitosamente"));
                     ("category", JO [ ("id", JNum (Int lastID));
                                       ("name", name);
                                       ("description", description) ]) ], s)
      end
  end.
End Handlers.

End Assets.

(** ** Reports: the filtered queries

    The report handlers run one query and summarise its rows in process; the
    query and its parameters are built as below. *)

Module Reports.

(** GET /inventory. *)
Definition inventory_query (q : gmap string string) : string * list jsval :=
  let category := qparam q "category" in
  let status := qparam q "status" in
  let responsible := qparam q "responsible" in
  let dateFrom := qparam q "dateFrom" in
  let dateTo := qparam q "dateTo" in
  let qp := (inventory_report_select, []) in
  let qp := when category " AND a.category_id = ?" [category] qp in
  let qp := when status " AND a.status = ?" [status] qp in
  let qp := when responsible " AND a.responsible_user_id = ?" [responsible] qp in
  let qp := when dateFrom " AND a.created_at >= ?" [dateFrom] qp in
  let qp := when dateTo " AND a.created_at <= ?" [JStr (to_string dateTo +:+ " 23:59:59")] qp in
  (qp.1 +:+ " ORDER BY a.created_at DESC", qp.2).

(** GET /incidents. *)
Definition incidents_query (q : gmap string string) : string * list jsval :=
  let status := qparam q "status" in
  let priority := qparam q "priority" in
  let asset_id := qparam q "asset_id" in
  let dateFrom := qparam q "dateFrom" in
  let dateTo := qparam q "dateTo" in
  let qp := (incidents_report_select, []) in
  let qp := when status " AND i.status = ?" [status] qp in
  let qp := when priority " AND i.priority = ?" [priority] qp in
  let qp := when asset_id " AND i.asset_id = ?" [asset_id] qp in
  let qp := when dateFrom " AND i.reported_date >= ?" [dateFrom] qp in
  let qp := when dateTo " AND i.reported_date <= ?" [JStr (to_string dateTo +:+ " 23:59:59")] qp in
  (qp.1 +:+ " ORDER BY i.reported_date DESC", qp.2).

(** GET /maintenance. *)
Definition maintenance_query (q : gmap string string) : string * list jsval :=
  let type := qparam q "type" in
  let status := qparam q "status" in
  let asset_id := qparam q "asset_id" in
  let dateFrom := qparam q "dateFrom" in
  let dateTo := qparam q "dateTo" in
  let qp := (maintenance_report_select, []) in
  let qp := when type " AND m.type = ?" [type] qp in
  let qp := when status " AND m.status = ?" [status] qp in
  let qp := when asset_id " AND m.asset_id = ?" [asset_id] qp in
  let qp := when dateFrom " AND m.scheduled_date >= ?" [dateFrom] qp in
  let qp := when dateTo " AND m.scheduled_date <= ?" [dateTo] qp in
  (qp.1 +:+ " ORDER BY m.scheduled_date DESC", qp.2).

(** GET /responsive-forms. *)
Definition forms_query (q : gmap string string) : string * list jsval :=
  let status := qparam q "status" in
  let asset_id := qparam q "asset_id" in
  let dateFrom := qparam q "dateFrom" in
  let dateTo := qparam q "dateTo" in
  let qp := (forms_report_select, []) in
  let qp := when status " AND rf.status = ?" [status] qp in
  let qp := when asset_id " AND rf.asset_id = ?" [asset_id] qp in
  let qp := when dateFrom " AND rf.transfer_date >= ?" [dateFrom] qp in
  let qp := when dateTo " AND rf.transfer_date <= ?" [dateTo] qp in
  (qp.1 +:+ " ORDER BY rf.transfer_date DESC", qp.2).

(** GET /requisitions. *)
Definition requisitions_query (q : gmap string string) : string * list jsval :=
  let status := qparam q "status" in
  let type := qparam q "type" in
  let department := qparam q "department" in
  let dateFrom := qparam q "dateFrom" in
  let dateTo := qparam q "dateTo" in
  let qp := (requisitions_report_select, []) in
  let qp := when status " AND r.status = ?" [status] qp in
  let qp := when type " AND r.type = ?" [type] qp in
  let qp := when department " AND r.department = ?" [department] qp in
  let qp := when dateFrom " AND r.created_at >= ?" [dateFrom] qp in
  let qp := when dateTo " AND r.created_at <= ?" [JStr (to_string dateTo +:+ " 23:59:59")] qp in
  (qp.1 +:+ " ORDER BY r.created_at DESC", qp.2).

End Reports.

(** ** Aggregate batches: dashboard and stats/overview

    Each handler starts one [db.all] per entry of [queries]; a callback stores
    its rows in the shared [stats] object and resolves its promise, or rejects
    it; [Promise.all] then sends the whole object, or the error message at the
    first rejection. The callbacks run in the order the store completes the
    queries, the [schedule]. *)

Module Aggregate.

Section Batch.
Variable db_all : string -> list jsval -> result (list row).

(** The shared [stats] object and the first rejection, if any. *)
Definition batch_state : Type := gmap string (list row) * option string.

(** The callback of [db.all(queries[key], ...)]. *)
Definition callback (queries : list (string * string)) (st : batch_state)
    (key : string) : batch_state :=
  match (list_to_map queries : gmap string string) !! key with
  | None => st
  | Some sql =>
      match db_all sql [] with
      | Err e => (st.1, match st.2 with Some e0 => Some e0 | None => Some e end)
      | Ok result => (<[key := result]> st.1, st.2)
      end
  end.

Definition run (queries : list (string * string)) (schedule : list string) : batch_state :=
  foldl (callback queries) (∅, None) schedule.

(** [Promise.all(promises).then(...).catch(...)]. *)
Definition respond (queries : list (string * string)) (envelope error_message : string)
    (schedule : list string) : outcome :=
  let st := run queries schedule in
  match st.2 with
  | Some _ => message 500 error_message
  | None => ok [(envelope, JStats st.1)]
  end.

(** GET /dashboard (reports). *)
Definition dashboard : list string -> outcome :=
  respond dashboard_queries "dashboard" "Error al obtener estadísticas del dashboard".

(** GET /stats/overview of the responsive forms, maintenances, incidents
    and assets routers. *)
Definition forms_stats : list string -> outcome :=
  respond forms_stats_queries "stats" "Error al obtener estadísticas".

Definition maintenances_stats : list string -> outcome :=
  respond maintenances_stats_queries "stats" "Error al obtener estadísticas".

Definition incidents_stats : list string -> outcome :=
  respond incidents_stats_queries "stats" "Error al obtener estadísticas".

Definition assets_stats : list string -> outcome :=
  respond assets_stats_queries "stats" "Error al obtener estadísticas".
End Batch.

End Aggregate.

(** ** The write endpoints as one transition system *)

(** A request to one of the endpoints that issue INSERT or UPDATE
    statements, with its route parameter and body. *)
Inductive operation :=
| Login (body : row)
| Register (body : row)
| ChangePassword (body : row)
| IncidentCreate (body : row)
| IncidentUpdate (id : jsval) (body : row)
| IncidentAssign (id : jsval) (body : row)
| IncidentResolve (id : jsval) (body : row)
| AssetCreate (body : row)
| AssetUpdate (id : jsval) (body : row)
| AssetDelete (id : jsval)
| CategoryCreate (body : row)
| FormCreate (body : row)
| FormApprove (id : jsval) (body : row)
| MaintenanceCreate (body : row)
| MaintenanceUpdate (id : jsval) (body : row)
| MaintenanceStart (id : jsval)
| MaintenanceComplete (id : jsval) (body : row).

Definition run {V : Validators} {C : Credentials} (e : env) (op : operation) (s : db)
    : outcome * db :=
  match op with
  | Login body => Auth.login e body s
  | Register body => Auth.register e body s
  | ChangePassword body => Auth.change_password e body s
  | IncidentCreate body => Incidents.create e body s
  | IncidentUpdate id body => Incidents.update e id body s
  | IncidentAssign id body => Incidents.assign_to e id body s
  | IncidentResolve id body => Incidents.resolve e id body s
  | AssetCreate body => Assets.create e body s
  | AssetUpdate id body => Assets.update e id body s
  | AssetDelete id => Assets.soft_delete e id s
  | CategoryCreate body => Assets.create_category e body s
  | FormCreate body => ResponsiveForms.create e body s
  | FormApprove id body => ResponsiveForms.approve e id body s
  | MaintenanceCreate body => Maintenances.create e body s
  | MaintenanceUpdate id body => Maintenances.update e id body s
  | MaintenanceStart id => Maintenances.start e id s
  | MaintenanceComplete id body => Maintenances.complete e id body s
  end.



(** The store answers the next statement. *)
Definition answers (s : db) : Prop := head (faults s) ≠ Some true.


(** ** The bootstrap script (scripts/init-database.js)

    The script queues its statements on a serialized connection: they run one
    after the other, each in its own transaction. No statement has a
    callback, so an error is emitted on the database object, which has no
    listener, and the process ends there. *)

Module InitDatabase.

(** [CREATE TABLE IF NOT EXISTS t (...)], on a store whose tables have the
    columns of [schema]: no row changes. *)
Definition create_table_if_not_exists (t : string) : db -> result Z * db :=
  attempt (fun s => (Ok 0, s)).

(** [INSERT OR IGNORE INTO t (columns) VALUES (values)]: a row that breaks a
    NOT NULL or UNIQUE constraint is skipped and the statement succeeds; the
    answer is [this.changes]. *)
Definition sql_insert_or_ignore (t : string) (now : string) (values : list (string * jsval))
    : db -> result Z * db :=
  attempt (fun s =>
    let rows := table t s in
    let id := next_id rows in
    let r := <["id" := JNum (Int id)]> (assign t values (blank t now)) in
    if violates t r rows then (Ok 0, s)
    else (Ok 1, with_table t (rows ++ [r]) s)).

Definition tables_created : list string :=
  [ "users"; "asset_categories"; "assets"; "incidents"; "maintenances";
    "responsive_forms"; "requisitions"; "requisition_items" ].

Definition categories : list string :=
  [ "Computadoras"; "Impresoras"; "Cámaras de Seguridad"; "Equipos de Red"; "Software";
    "Mobiliario de Oficina"; "Equipos de Audio/Video"; "Otros" ].

(** [VALUES ('admin', 'admin@beachscape.com', ?, 'Administrador del Sistema',
    'admin', 'Sistemas')] with the hash for the parameter. *)
Definition admin_values (adminPassword : string) : list (string * jsval) :=
  [ ("username", JStr "admin"); ("email", JStr "admin@beachscape.com");
    ("password", JStr adminPassword); ("full_name", JStr "Administrador del Sistema");
    ("role", JStr "admin"); ("department", JStr "Sistemas") ].

(** The statements of the script, in the order it queues them. [now] is
    CURRENT_TIMESTAMP while it runs. *)
Definition statements (now : string) (adminPassword : string)
    : list (db -> result Z * db) :=
  List.map create_table_if_not_exists tables_created
  ++ [ sql_insert_or_ignore "users" now (admin_values adminPassword) ]
  ++ List.map (fun category =>
                 sql_insert_or_ignore "asset_categories" now [("name", JStr category)])
       categories.

(** The next statement of the queue, unless the script has ended. *)
Definition step (st : option db) (statement : db -> result Z * db) : option db :=
  match st with
  | Some s =>
      match statement s with
      | (Ok _, s') => Some s'
      | (Err _, _) => None
      end
  | None => None
  end.

(** The store the script leaves when it runs to its end; [None] when
    [bcrypt.hashSync] throws or a statement fails, and the process ends with
    the script unfinished. *)
Definition init {C : Credentials} (now : string) (s : db) : option db :=
  match bcrypt_hash (JStr "admin123") with
  | Err _ => None
  | Ok adminPassword => foldl step (Some s) (statements now adminPassword)
  end.

End InitDatabase.

(** ** Reports: the summaries computed in process

    Each report handler sends the rows of its query with a [summary] object
    computed from them: the number of rows, counts by a column (an object used
    as a dictionary, filled by [reduce]) and counts of the rows in a given
    state. The sums of prices and costs and the average resolution time are
    computed on decimals and are left out. *)

Module Summaries.

(** The properties every object inherits from [Object.prototype]: reading one
    of them on the accumulator [{}] gives the inherited value, not
    [undefined]. *)
Definition inherited : list string :=
  [ "constructor"; "__defineGetter__"; "__defineSetter__"; "hasOwnProperty";
    "__lookupGetter__"; "__lookupSetter__"; "isPrototypeOf"; "propertyIsEnumerable";
    "toString"; "valueOf"; "__proto__"; "toLocaleString" ].

(** The value of an own property of the accumulator: a count, or the text
    that [+ 1] makes of an inherited function (its source text followed by
    1s). *)
Inductive entry :=
| Count (n : Z)
| NativeText.

(** [acc[key] = (acc[key] || 0) + 1], the key being converted to a string.
    Assigning a string to [__proto__] does nothing. *)
Definition bump (acc : gmap string entry) (key : jsval) : gmap string entry :=
  let k := to_string key in
  if String.eqb k "__proto__" then acc
  else match acc !! k with
       | Some (Count n) => <[k := Count (n + 1)]> acc
       | Some NativeText => <[k := NativeText]> acc
       | None =>
           if bool_decide (k ∈ inherited) then <[k := NativeText]> acc
           else <[k := Count 1]> acc
       end.

(** [rows.reduce((acc, row) => { acc[row.field] = (acc[row.field] || 0) + 1;
    return acc; }, {})]. *)
Definition count_by (field : string) (rows : list row) : gmap string entry :=
  foldl (fun acc r => bump acc (prop r field)) ∅ rows.

(** [asset.category_name || 'Sin categoría']. *)
Definition category_of (asset : row) : jsval :=
  if truthy (prop asset "category_name") then prop asset "category_name"
  else JStr "Sin categoría".

(** [byCategory] of the inventory report. *)
Definition byCategory (assets : list row) : gmap string entry :=
  foldl (fun acc asset => bump acc (category_of asset)) ∅ assets.

(** [rows.filter(row => row.field === 'text').length]. *)
Definition count_where (field text : string) (rows : list row) : Z :=
  Z.of_nat (length (List.filter (fun r => bool_decide (prop r field = JStr text)) rows)).

(** [incidents.filter(i => i.resolution_hours !== null).length]. *)
Definition resolvedCount (incidents : list row) : Z :=
  Z.of_nat (length (List.filter
                      (fun i => negb (bool_decide (prop i "resolution_hours" = JNull)))
                      incidents)).

(** The counts of the summary of the maintenance report. *)
Record maintenance_counts := {
  totalMaintenances : Z;
  maintenances_byType : gmap string entry;
  maintenances_byStatus : gmap string entry;
  completedCount : Z
}.

Definition maintenance_summary (maintenances : list row) : maintenance_counts :=
  {| totalMaintenances := Z.of_nat (length maintenances);
     maintenances_byType := count_by "type" maintenances;
     maintenances_byStatus := count_by "status" maintenances;
     completedCount := count_where "status" "completed" maintenances |}.

(** The counts of the summary of the report of the responsive forms. *)
Record forms_counts := {
  totalForms : Z;
  forms_byStatus : gmap string entry;
  approvedCount : Z;
  pendingCount : Z
}.

Definition forms_summary (forms : list row) : forms_counts :=
  {| totalForms := Z.of_nat (length forms);
     forms_byStatus := count_by "status" forms;
     approvedCount := count_where "status" "approved" forms;
     pendingCount := count_where "status" "pending" forms |}.

(** The counts of the summary of the inventory report. *)
Record inventory_counts := {
  totalAssets : Z;
  inventory_byCategory : gmap string entry;
  inventory_byStatus : gmap string entry
}.

Definition inventory_summary (assets : list row) : inventory_counts :=
  {| totalAssets := Z.of_nat (length assets);
     inventory_byCategory := byCategory assets;
     inventory_byStatus := count_by "status" assets |}.

(** The counts of the summary of the incidents report. *)
Record incidents_counts := {
  totalIncidents : Z;
  incidents_byStatus : gmap string entry;
  incidents_byPriority : gmap string entry;
  incidents_resolvedCount : Z
}.

Definition incidents_summary (incidents : list row) : incidents_counts :=
  {| totalIncidents := Z.of_nat (length incidents);
     incidents_byStatus := count_by "status" incidents;
     incidents_byPriority := count_by "priority" incidents;
     incidents_resolvedCount := resolvedCount incidents |}.

(** The counts of the summary of the requisitions report. *)
Record requisitions_counts := {
  totalRequisitions : Z;
  requisitions_byStatus : gmap string entry;
  requisitions_byType : gmap string entry
}.

Definition requisitions_summary (requisitions : list row) : requisitions_counts :=
  {| totalRequisitions := Z.of_nat (length requisitions);
     requisitions_byStatus := count_by "status" requisitions;
     requisitions_byType := count_by "type" requisitions |}.

End Summaries.

(** ** Reports: the activity of a user (GET /user-activity)

    Five COUNT queries on the rows a user reported, was assigned or approved,
    each with the same parameters. A COUNT without GROUP BY answers with one
    row or fails, so the store of these queries is a function to a row or an
    error. *)

Module UserActivity.

(** [const queries]: the template literals, with their two optional date
    clauses. *)
Definition queries (dateFrom dateTo : jsval) : list (string * string) :=
  [ ("incidents_reported",
     "
            SELECT COUNT(*) as count FROM incidents 
            WHERE reported_by = ? 
            "
     +:+ (if truthy dateFrom then "AND reported_date >= ?" else "")
     +:+ "
            "
     +:+ (if truthy dateTo then "AND reported_date <= ?" else "")
     +:+ "
        ");
    ("incidents_assigned",
     "
            SELECT COUNT(*) as count FROM incidents 
            WHERE assigned_to = ?
            "
     +:+ (if truthy dateFrom then "AND reported_date >= ?" else "")
     +:+ "
            "
     +:+ (if truthy dateTo then "AND reported_date <= ?" else "")
     +:+ "
        ");
    ("maintenances_assigned",
     "
            SELECT COUNT(*) as count FROM maintenances 
            WHERE technician_id = ?
            "
     +:+ (if truthy dateFrom then "AND scheduled_date >= ?" else "")
     +:+ "
            "
     +:+ (if truthy dateTo then "AND scheduled_date <= ?" else "")
     +:+ "
        ");
    ("requisitions_made",
     "
            SELECT COUNT(*) as count FROM requisitions 
            WHERE requested_by = ?
            "
     +:+ (if truthy dateFrom then "AND created_at >= ?" else "")
     +:+ "
            "
     +:+ (if truthy dateTo then "AND created_at <= ?" else "")
     +:+ "
        ");
    ("forms_approved",
     "
            SELECT COUNT(*) as count FROM responsive_forms 
            WHERE approved_by = ?
            "
     +:+ (if truthy dateFrom then "AND created_at >= ?" else "")
     +:+ "
            "
     +:+ (if truthy dateTo then "AND created_at <= ?" else "")
     +:+ "
        ") ].

(** [let params = [user_id]; if (dateFrom) params.push(dateFrom); if (dateTo)
    params.push(dateTo + ' 23:59:59')]: built anew, and the same, for every
    query. *)
Definition params (user_id dateFrom dateTo : jsval) : list jsval :=
  ([user_id] ++ (if truthy dateFrom then [dateFrom] else []))
  ++ (if truthy dateTo then [JStr (to_string dateTo +:+ " 23:59:59")] else []).

Section Handler.
Variable db_get : string -> list jsval -> result row.

(** The shared [activity] object and the first rejection, if any. *)
Definition batch_state : Type := row * option string.

(** The callback of [db.get(queries[key], params, ...)]: it rejects, or
    stores [result.count] under the key. *)
Definition callback (q : gmap string string) (st : batch_state) (key : string)
    : batch_state :=
  let user_id := qparam q "user_id" in
  let dateFrom := qparam q "dateFrom" in
  let dateTo := qparam q "dateTo" in
  match (list_to_map (queries dateFrom dateTo) : gmap string string) !! key with
  | None => st
  | Some sql =>
      match db_get sql (params user_id dateFrom dateTo) with
      | Err e => (st.1, match st.2 with Some e0 => Some e0 | None => Some e end)
      | Ok result => (<[key := prop result "count"]> st.1, st.2)
      end
  end.

(** GET /user-activity; the callbacks run in the order the store completes
    the queries, the [schedule]. *)
Definition get (q : gmap string string) (schedule : list string) : outcome :=
  let user_id := qparam q "user_id" in
  let dateFrom := qparam q "dateFrom" in
  let dateTo := qparam q "dateTo" in
  if negb (truthy user_id) then message 400 "ID de usuario requerido" else
  let st := foldl (callback q) (∅, None) schedule in
  match st.2 with
  | Some _ => message 500 "Error al generar reporte de actividad"
  | None =>
      ok [ ("title", JV (JStr "Reporte de Actividad de Usuario"));
           ("user_id", JV user_id);
           ("dateFrom", JV dateFrom);
           ("dateTo", JV dateTo);
           ("activity", JRow st.1) ]
  end.
End Handler.

End UserActivity.

(** * The specification's vocabulary *)

(** ** The filtered query builder, as the specification words it *)

(** A declared filter: the request parameter, the predicate it contributes
    and the parameters it binds for a value of the request. *)
Record filter := {
  f_param : string;
  f_predicate : string;
  f_values : string -> list jsval
}.

(** Exact match on one column. *)
Definition exact (param predicate : string) : filter :=
  {| f_param := param; f_predicate := predicate; f_values := fun v => [JStr v] |}.

(** Upper date bound made inclusive of the whole day. *)
Definition end_of_day (param predicate : string) : filter :=
  {| f_param := param; f_predicate := predicate;
     f_values := fun v => [JStr (v +:+ " 23:59:59")] |}.

(** The value of a filter when the request applies it: present and not the
    empty string. *)
Definition applied (q : gmap string string) (f : filter) : option string :=
  match q !! f_param f with
  | Some v => if String.eqb v "" then None else Some v
  | None => None
  end.

(** The predicates of the applied filters, in declaration order. *)
Fixpoint where_clause (fs : list filter) (q : gmap string string) : string :=
  match fs with
  | [] => ""
  | f :: fs' =>
      match applied q f with
      | Some _ => f_predicate f +:+ where_clause fs' q
      | None => where_clause fs' q
      end
  end.

(** The parameters of the applied filters, in declaration order. *)
Fixpoint where_params (fs : list filter) (q : gmap string string) : list jsval :=
  match fs with
  | [] => []
  | f :: fs' =>
      match applied q f with
      | Some v => f_values f v ++ where_params fs' q
      | None => where_params fs' q
      end
  end.

Definition forms_filters : list filter :=
  [ exact "status" " AND rf.status = ?";
    exact "asset_id" " AND rf.asset_id = ?";
    exact "new_responsible_id" " AND rf.new_responsible_id = ?" ].

Definition maintenances_filters : list filter :=
  [ exact "status" " AND m.status = ?";
    exact "type" " AND m.type = ?";
    exact "asset_id" " AND m.asset_id = ?";
    exact "technician_id" " AND m.technician_id = ?" ].

Definition incidents_filters : list filter :=
  [ exact "status" " AND i.status = ?";
    exact "priority" " AND i.priority = ?";
    exact "asset_id" " AND i.asset_id = ?";
    exact "assigned_to" " AND i.assigned_to = ?" ].

Definition assets_filters : list filter :=
  [ exact "category" " AND a.category_id = ?";
    exact "status" " AND a.status = ?";
    {| f_param := "search";
       f_predicate :=
         " AND (a.name LIKE ? OR a.asset_code LIKE ? OR a.brand LIKE ? OR a.model LIKE ?)";
       f_values := fun v => let t := JStr ("%" +:+ v +:+ "%") in [t; t; t; t] |} ].

Definition inventory_report_filters : list filter :=
  [ exact "category" " AND a.category_id = ?";
    exact "status" " AND a.status = ?";
    exact "responsible" " AND a.responsible_user_id = ?";
    exact "dateFrom" " AND a.created_at >= ?";
    end_of_day "dateTo" " AND a.created_at <= ?" ].

Definition incidents_report_filters : list filter :=
  [ exact "status" " AND i.status = ?";
    exact "priority" " AND i.priority = ?";
    exact "asset_id" " AND i.asset_id = ?";
    exact "dateFrom" " AND i.reported_date >= ?";
    end_of_day "dateTo" " AND i.reported_date <= ?" ].

Definition maintenance_report_filters : list filter :=
  [ exact "type" " AND m.type = ?";
    exact "status" " AND m.status = ?";
    exact "asset_id" " AND m.asset_id = ?";
    exact "dateFrom" " AND m.scheduled_date >= ?";
    exact "dateTo" " AND m.scheduled_date <= ?" ].

Definition forms_report_filters : list filter :=
  [ exact "status" " AND rf.status = ?";
    exact "asset_id" " AND rf.asset_id = ?";
    exact "dateFrom" " AND rf.transfer_date >= ?";
    exact "dateTo" " AND rf.transfer_date <= ?" ].

Definition requisitions_report_filters : list filter :=
  [ exact "status" " AND r.status = ?";
    exact "type" " AND r.type = ?";
    exact "department" " AND r.department = ?";
    exact "dateFrom" " AND r.created_at >= ?";
    end_of_day "dateTo" " AND r.created_at <= ?" ].

(** The number of [?] placeholders of a query text. *)
Fixpoint placeholders (s : string) : nat :=
  match s with
  | EmptyString => 0
  | String c s' => (if Ascii.eqb c "?" then 1 else 0) + placeholders s'
  end.

(** [LIMIT ? OFFSET ?] of a list request. *)
Definition limit_offset (q : gmap string string) : list jsval :=
  let page := or_default (JNum (Int 1)) (qparam q "page") in
  let limit := or_default (JNum (Int 10)) (qparam q "limit") in
  [JNum (parseInt limit); JNum (mul (sub (to_number page) (Int 1)) (to_number limit))].

(** Every declared filter binds as many parameters as its predicate has
    placeholders. *)
Definition aligned (f : filter) : Prop :=
  forall v, placeholders (f_predicate f) = length (f_values f v).


(** The request value [v] is read as the integer [n] by both coercions the
    list handlers apply to it: ToNumber (in [page - 1], [* limit], [/ limit])
    and parseInt. *)
Definition numeral (v : jsval) (n : Z) : Prop :=
  to_number v = Int n /\ parseInt v = Int n.



(** All-or-nothing for one aggregate batch, whatever order the store
    completes the queries in: one failing query makes the response the error
    message alone; when every query answers, the response is the object of
    all the results under the names of the queries. *)
Definition all_or_nothing (db_all : string -> list jsval -> result (list row))
    (handler : list string -> outcome) (queries : list (string * string))
    (envelope error_message : string) : Prop :=
  forall schedule : list string,
    schedule ≡ₚ queries.*1 ->
    ((exists key sql e, (key, sql) ∈ queries /\ db_all sql [] = Err e) ->
     handler schedule
     = Sent {| status := 500; body := [("message", JV (JStr error_message))] |})
    /\ ((forall key sql, (key, sql) ∈ queries -> exists rows, db_all sql [] = Ok rows) ->
        exists stats : gmap string (list row),
          handler schedule = Sent {| status := 200; body := [(envelope, JStats stats)] |}
          /\ (forall key sql, (key, sql) ∈ queries ->
              exists rows, db_all sql [] = Ok rows /\ stats !! key = Some rows)
          /\ (forall key, key ∉ queries.*1 -> stats !! key = None)).

(** A store of the examples that is busy for the count of approved forms and
    answers every other query with no row. *)
Definition busy_for_approved (sql : string) (params : list jsval) : result (list row) :=
  if String.eqb sql "SELECT COUNT(*) as count FROM responsive_forms WHERE status = 'approved'"
  then Err "SQLITE_BUSY"
  else Ok [].

(** The row is the one the route parameter [id] names. *)
Definition named (t : string) (id : jsval) (r : row) : Prop :=
  col_eq t "id" id r = true.


(** Test doubles of the collaborators, to run the handlers on concrete
    requests: the validators as validator.js decides the plain values of the
    examples (dates as YYYY-MM-DD), a password check that compares with a
    prefixed copy (cost 10 or 12), a token made of the id and the role. *)
Definition field_text (v : jsval) : string :=
  match v with
  | JUndefined | JNull => ""
  | _ => to_string v
  end.

Definition plain_date (s : string) : bool :=
  match list_ascii_of_string s with
  | [y1; y2; y3; y4; d1; m1; m2; d2; a1; a2] =>
      forallb is_digit [y1; y2; y3; y4; m1; m2; a1; a2]
      && Ascii.eqb d1 "-" && Ascii.eqb d2 "-"
  | _ => false
  end.

Definition test_validators : Validators :=
  {| notEmpty := fun v => negb (String.eqb (field_text v) "");
     isInt := fun v => bool_decide (is_Some (integer_literal (field_text v)));
     isBoolean := fun v => bool_decide (field_text v ∈ ["true"; "false"; "1"; "0"]);
     isISO8601 := fun v => plain_date (field_text v);
     isEmail := fun v => bool_decide ("@"%char ∈ list_ascii_of_string (field_text v));
     isIn := fun allowed v => bool_decide (field_text v ∈ allowed);
     isLength := fun n v => (n <=? String.length (field_text v))%nat |}.

Definition test_credentials : Credentials :=
  {| bcrypt_compare := fun password hash =>
       Ok (bool_decide (hash = JStr ("$2a$10$" +:+ to_string password))
           || bool_decide (hash = JStr ("$2a$12$" +:+ to_string password)));
     bcrypt_hash := fun password => Ok ("$2a$10$" +:+ to_string password);
     generateToken := fun u =>
       "token." +:+ to_string (prop u "id") +:+ "." +:+ to_string (prop u "role");
     authorizeRole := fun roles u =>
       if bool_decide (to_string (prop u "role") ∈ roles) then None
       else Some (message 403 "No tienes permisos para realizar esta acción") |}.

(** A request environment of the examples. *)
Definition test_env (now : string) : env :=
  {| now := now;
     today := {| getFullYear := 2024; getMonth := 1; getDate := 2 |};
     random := 7 # 1000;
     req_user := {[ "id" := JNum (Int 1); "role" := JStr "admin" ]} |}.



(** A small store of the examples: one user, one asset with its responsible,
    a pending transfer form for it, a scheduled and a completed maintenance,
    and an incident resolved on the first of January. *)
Definition test_store : db :=
  {| tables :=
       {[ "users" :=
            [ {[ "id" := JNum (Int 1); "username" := JStr "ana";
                 "email" := JStr "ana@beachscape.com";
                 "password" := JStr "$2a$10$secret"; "full_name" := JStr "Ana";
                 "role" := JStr "admin"; "department" := JStr "Sistemas";
                 "created_at" := JStr "2024-01-01 08:00:00";
                 "updated_at" := JStr "2024-01-01 08:00:00";
                 "active" := JNum (Int 1) ]} ];
          "assets" :=
            [ {[ "id" := JNum (Int 3); "asset_code" := JStr "PC-001";
                 "name" := JStr "Laptop"; "category_id" := JNum (Int 1);
                 "status" := JStr "active"; "responsible_user_id" := JNum (Int 4);
                 "updated_at" := JStr "2024-01-01 08:00:00" ]} ];
          "responsive_forms" :=
            [ {[ "id" := JNum (Int 1); "form_code" := JStr "FR-240101-123";
                 "asset_id" := JNum (Int 3); "previous_responsible_id" := JNum (Int 4);
                 "new_responsible_id" := JNum (Int 7);
                 "transfer_date" := JStr "2024-01-05"; "status" := JStr "pending";
                 "approved_by" := JNull; "observations" := JNull;
                 "updated_at" := JStr "2024-01-01 08:00:00" ]} ];
          "maintenances" :=
            [ {[ "id" := JNum (Int 1); "maintenance_code" := JStr "MNT-240101-001";
                 "asset_id" := JNum (Int 3); "title" := JStr "Limpieza";
                 "status" := JStr "scheduled"; "completed_date" := JNull;
                 "updated_at" := JStr "2024-01-01 08:00:00" ]};
              {[ "id" := JNum (Int 2); "maintenance_code" := JStr "MNT-240101-002";
                 "asset_id" := JNum (Int 3); "title" := JStr "Ventilador";
                 "status" := JStr "completed";
                 "completed_date" := JStr "2024-01-02 09:00:00";
                 "updated_at" := JStr "2024-01-02 09:00:00" ]} ];
          "incidents" :=
            [ {[ "id" := JNum (Int 1); "incident_code" := JStr "INC-240101-555";
                 "title" := JStr "Sin red"; "description" := JStr "No hay red";
                 "status" := JStr "resolved"; "solution" := JStr "Cable";
                 "reported_date" := JStr "2024-01-01 08:00:00";
                 "resolved_date" := JStr "2024-01-01 10:00:00";
                 "updated_at" := JStr "2024-01-01 10:00:00" ]} ] ]};
     faults := [] |}.

(** The example store after every password was hashed again at cost 12. *)
Definition test_store_rehashed : db :=
  with_table "users"
    (List.map (fun u : row => <["password" := JStr "$2a$12$secret"]> u)
       (table "users" test_store))
    test_store.





(** The transfer form the request names is pending. *)
Definition pending (id : jsval) (f : row) : Prop :=
  named "responsive_forms" id f /\ prop f "status" = JStr "pending".

(** Two stores that differ at most in the password hashes of their users. *)
Definition same_but_hashes (s1 s2 : db) : Prop :=
  faults s1 = faults s2
  /\ Forall2 (fun u1 u2 : row => delete "password" u1 = delete "password" u2)
       (table "users" s1) (table "users" s2).

(** The token does not depend on the password hash of the user it is issued
    for (it carries the user id and the role). *)
Definition token_ignores_hash {C : Credentials} : Prop :=
  forall u1 u2 : row,
    delete "password" u1 = delete "password" u2 -> generateToken u1 = generateToken u2.

(** The user the login identifier names, active, with a matching password. *)
Definition may_log_in {C : Credentials} (ident : string) (password : jsval) (u : row) : Prop :=
  prop u "active" = JNum (Int 1)
  /\ (prop u "username" = JStr ident \/ prop u "email" = JStr ident)
  /\ bcrypt_compare password (prop u "password") = Ok true.

(** The body of a successful login for the user row [u]. *)
Definition login_body (token : string) (u : row) : json :=
  [ ("message", JV (JStr "Login exitoso"));
    ("token", JV (JStr token));
    ("user", JO [ ("id", prop u "id");
                  ("username", prop u "username");
                  ("email", prop u "email");
                  ("full_name", prop u "full_name");
                  ("role", prop u "role");
                  ("department", prop u "department") ]) ].

(** The WHERE clause of the login query, for a string identifier. *)
Definition login_where (ident : string) (u : row) : bool :=
  (col_eq "users" "username" (JStr ident) u || col_eq "users" "email" (JStr ident) u)
  && col_is "active" (JNum (Int 1)) u.




(** ** What the write endpoints assign *)

(** The values of column [c] in table [t], in table order. *)
Definition values_of (t c : string) (s : db) : list jsval :=
  List.map (fun r => prop r c) (table t s).

(** Every row of [t] in [s] is still there in [s'], at its place and with
    the value of [c] it had; [s'] may hold more rows after them. *)
Definition keeps_column (t c : string) (s s' : db) : Prop :=
  values_of t c s `prefix_of` values_of t c s'.

Definition of_table (t : string) (columns : list string) : list (string * string) :=
  List.map (fun c => (t, c)) columns.

(** The columns the SET clauses of the UPDATE statements of an endpoint
    name (for the complete and the incident update endpoints, with the
    clauses they add on a condition). The endpoints that only INSERT assign
    nothing in an existing row. *)
Definition writes (op : operation) : list (string * string) :=
  match op with
  | Login _ => of_table "users" ["updated_at"]
  | ChangePassword _ => of_table "users" ["password"; "updated_at"]
  | IncidentUpdate _ _ =>
      of_table "incidents"
        ["title"; "description"; "priority"; "status"; "assigned_to"; "solution";
         "updated_at"; "resolved_date"]
  | IncidentAssign _ _ => of_table "incidents" ["assigned_to"; "status"; "updated_at"]
  | IncidentResolve _ _ =>
      of_table "incidents" ["solution"; "status"; "resolved_date"; "updated_at"]
  | AssetUpdate _ _ =>
      of_table "assets"
        ["name"; "description"; "category_id"; "brand"; "model"; "serial_number";
         "purchase_date"; "purchase_price"; "supplier"; "location"; "status";
         "responsible_user_id"; "warranty_expiry"; "notes"; "updated_at"]
  | AssetDelete _ => of_table "assets" ["status"; "updated_at"]
  | FormApprove _ _ =>
      of_table "responsive_forms" ["status"; "approved_by"; "observations"; "updated_at"]
      ++ of_table "assets" ["responsible_user_id"; "updated_at"]
  | MaintenanceUpdate _ _ =>
      of_table "maintenances"
        ["type"; "title"; "description"; "scheduled_date"; "technician_id"; "cost";
         "supplier"; "notes"; "status"; "updated_at"]
  | MaintenanceStart _ => of_table "maintenances" ["status"; "updated_at"]
  | MaintenanceComplete _ _ =>
      of_table "maintenances" ["status"; "completed_date"; "updated_at"; "notes"; "cost"]
  | Register _ | IncidentCreate _ | AssetCreate _ | CategoryCreate _ | FormCreate _
  | MaintenanceCreate _ => []
  end.

(** The columns no endpoint assigns once the row exists: the key of every
    table, the identity and the standing of a user, the codes, what a
    transfer form asks for, who reported an incident and when. *)
Definition write_once : list (string * string) :=
  of_table "users" ["id"; "username"; "email"; "full_name"; "role"; "department";
                    "active"; "created_at"]
  ++ of_table "asset_categories" ["id"; "name"; "description"; "created_at"]
  ++ of_table "assets" ["id"; "asset_code"; "created_at"]
  ++ of_table "incidents" ["id"; "incident_code"; "asset_id"; "reported_by";
                           "reported_date"; "created_at"]
  ++ of_table "maintenances" ["id"; "maintenance_code"; "asset_id"; "created_at"]
  ++ of_table "responsive_forms"
       ["id"; "form_code"; "asset_id"; "previous_responsible_id"; "new_responsible_id";
        "transfer_date"; "reason"; "conditions"; "created_at"].

(** The [n]-th row of [t] keeps its value of [c] from [s] to [s']. *)
Definition row_keeps (t c : string) (n : nat) (s s' : db) : Prop :=
  forall r, table t s !! n = Some r ->
            exists r', table t s' !! n = Some r' /\ prop r' c = prop r c.

(** The example store once its transfer form has been rejected. *)
Definition rejected_form : row :=
  <["status" := JStr "rejected"]> {[ "id" := JNum (Int 1); "asset_id" := JNum (Int 3) ]}.

Definition decided_store : db := with_table "responsive_forms" [rejected_form] test_store.

(** The store answers the next [n] statements. *)
Fixpoint answers_for (n : nat) (s : db) : Prop :=
  match n with
  | O => True
  | S n' => answers s /\ answers_for n' (next s)
  end.

(** The first row of [t] the route parameter [id] names: the row, when ids
    are unique. *)
Definition first_named (t : string) (id : jsval) (s : db) : option row :=
  List.find (col_eq t "id" id) (table t s).

(** The example store when its third statement from now fails. *)
Definition failing_third : db :=
  {| tables := tables test_store; faults := [false; false; true] |}.

(** The pending transfer form of the example store. *)
Definition test_form : row :=
  {[ "id" := JNum (Int 1); "form_code" := JStr "FR-240101-123";
     "asset_id" := JNum (Int 3); "previous_responsible_id" := JNum (Int 4);
     "new_responsible_id" := JNum (Int 7);
     "transfer_date" := JStr "2024-01-05"; "status" := JStr "pending";
     "approved_by" := JNull; "observations" := JNull;
     "updated_at" := JStr "2024-01-01 08:00:00" ]}.

(** A request of the first of January 2024 with the given draw, the day the
    rows of the example store were created. *)
Definition first_of_january (draw : Z) : env :=
  {| now := "2024-01-01 12:00:00";
     today := {| getFullYear := 2024; getMonth := 0; getDate := 1 |};
     random := draw # 1000;
     req_user := {[ "id" := JNum (Int 1); "role" := JStr "admin" ]} |}.

(** The row the bootstrap script inserts for the administrator. *)
Definition admin_row (now hash : string) (s : db) : row :=
  <["id" := JNum (Int (next_id (table "users" s)))]>
    (assign "users" (InitDatabase.admin_values hash) (blank "users" now)).

(** A store that holds the administrator and one category. *)
Definition bootstrapped_once : db :=
  {| tables :=
       {[ "users" := [ {[ "id" := JNum (Int 1); "username" := JStr "admin";
                          "email" := JStr "admin@beachscape.com" ]} ];
          "asset_categories" := [ {[ "id" := JNum (Int 1); "name" := JStr "Otros" ]} ] ]};
     faults := [] |}.

(** A store with no table yet. *)
Definition empty_store : db := {| tables := ∅; faults := [] |}.

(** The number of rows whose [field], as a property key, is [k]. *)
Definition occurrences (field k : string) (rows : list row) : Z :=
  Z.of_nat (length (List.filter (fun r => String.eqb (to_string (prop r field)) k) rows)).

(** The [field] of the row is not a number outside the tracked integers (the
    columns the reports count by have text affinity: they hold text or
    NULL). *)
Definition plain_key (field : string) (r : row) : Prop := prop r field <> JNum Untracked.

(** The count an object used as a dictionary holds for [k]; 0 when it has
    none. *)
Definition counted (m : gmap string Summaries.entry) (k : string) : Z :=
  match m !! k with
  | Some (Summaries.Count n) => n
  | _ => 0
  end.

(** Rows of a maintenance report, one of them with the status "constructor". *)
Definition odd_maintenances : list row :=
  [ {[ "id" := JNum (Int 1); "type" := JStr "preventive"; "status" := JStr "completed" ]};
    {[ "id" := JNum (Int 2); "type" := JStr "corrective"; "status" := JStr "constructor" ]};
    {[ "id" := JNum (Int 3); "type" := JStr "preventive"; "status" := JStr "completed" ]} ].

(** What the accumulator holds once [rows] have been counted by [key]. *)
Definition counts_rows (key : row -> jsval) (acc : gmap string Summaries.entry)
    (rows : list row) : Prop :=
  forall k,
    (k ∉ Summaries.inherited ->
     acc !! k
     = let n := Z.of_nat (length (List.filter (fun r => String.eqb (to_string (key r)) k)
                                    rows)) in
       if n =? 0 then None else Some (Summaries.Count n))
    /\ (k ∈ Summaries.inherited -> acc !! k = None \/ acc !! k = Some Summaries.NativeText).


(** A store of the examples that counts seven rows for every query. *)
Definition seven_each (sql : string) (values : list jsval) : result row :=
  Ok {[ "count" := JNum (Int 7) ]}.

(** * Properties *)

(** ** Strings *)

Lemma append_assoc (a b c : string) : (a +:+ b) +:+ c = a +:+ (b +:+ c).
Proof.
  induction a as [|x a IH]; [reflexivity|].
  change (String x ((a +:+ b) +:+ c) = String x (a +:+ (b +:+ c))).
  by rewrite IH.
Qed.

Lemma append_empty_r (a : string) : a +:+ "" = a.
Proof.
  induction a as [|x a IH]; [reflexivity|].
  change (String x (a +:+ "") = String x a). by rewrite IH.
Qed.

(** ** The code builds what the declared filters describe *)

(** One [if (x) { query += ...; params.push(...) }] step against one declared
    filter. *)
Lemma when_applied (q : gmap string string) (param pred : string)
    (fv : string -> list jsval) (vals : list jsval) (qp : string * list jsval) :
  (forall v, q !! param = Some v -> vals = fv v) ->
  when (qparam q param) pred vals qp =
  match applied q {| f_param := param; f_predicate := pred; f_values := fv |} with
  | Some v => (qp.1 +:+ pred, qp.2 ++ fv v)
  | None => qp
  end.
Proof.
  intros Hv. unfold when, applied, qparam in *. simpl.
  destruct (q !! param) as [v|]; simpl; [|done].
  destruct (String.eqb v ""); simpl; [done|].
  by rewrite (Hv v).
Qed.

Ltac filter_step k fv :=
  match goal with
  | |- context [when (qparam ?q k) ?sql ?vals ?qp] =>
      rewrite (when_applied q k sql fv vals qp) by
        (unfold qparam, to_string; intros ? ->; reflexivity)
  end.

Ltac exact_step k := filter_step k (fun v : string => [JStr v]).

Ltac close_builder :=
  unfold where_clause, where_params, exact, end_of_day;
  repeat case_match; simpl;
  rewrite ?append_assoc, ?append_empty_r, <- ?app_assoc, ?app_nil_r; reflexivity.

Lemma forms_page_query_spec q :
  ResponsiveForms.page_query q =
  (forms_select +:+ where_clause forms_filters q
     +:+ " ORDER BY rf.created_at DESC LIMIT ? OFFSET ?",
   where_params forms_filters q ++ limit_offset q).
Proof.
  unfold ResponsiveForms.page_query, limit_offset, forms_filters. cbv zeta.
  exact_step "status". exact_step "asset_id". exact_step "new_responsible_id".
  generalize forms_select. intros base. close_builder.
Qed.

Lemma forms_count_query_spec q :
  ResponsiveForms.count_query q =
  (forms_count_select +:+ where_clause forms_filters q, where_params forms_filters q).
Proof.
  unfold ResponsiveForms.count_query, forms_filters. cbv zeta.
  exact_step "status". exact_step "asset_id". exact_step "new_responsible_id".
  generalize forms_count_select. intros base. close_builder.
Qed.

Lemma maintenances_page_query_spec q :
  Maintenances.page_query q =
  (maintenances_select +:+ where_clause maintenances_filters q
     +:+ " ORDER BY m.scheduled_date DESC, m.created_at DESC LIMIT ? OFFSET ?",
   where_params maintenances_filters q ++ limit_offset q).
Proof.
  unfold Maintenances.page_query, limit_offset, maintenances_filters. cbv zeta.
  exact_step "status". exact_step "type". exact_step "asset_id". exact_step "technician_id".
  generalize maintenances_select. intros base. close_builder.
Qed.

Lemma maintenances_count_query_spec q :
  Maintenances.count_query q =
  (maintenances_count_select +:+ where_clause maintenances_filters q,
   where_params maintenances_filters q).
Proof.
  unfold Maintenances.count_query, maintenances_filters. cbv zeta.
  exact_step "status". exact_step "type". exact_step "asset_id". exact_step "technician_id".
  generalize maintenances_count_select. intros base. close_builder.
Qed.

Lemma incidents_page_query_spec q :
  Incidents.page_query q =
  (incidents_select +:+ where_clause incidents_filters q
     +:+ " ORDER BY i.created_at DESC LIMIT ? OFFSET ?",
   where_params incidents_filters q ++ limit_offset q).
Proof.
  unfold Incidents.page_query, limit_offset, incidents_filters. cbv zeta.
  exact_step "status". exact_step "priority". exact_step "asset_id". exact_step "assigned_to".
  generalize incidents_select. intros base. close_builder.
Qed.

Lemma incidents_count_query_spec q :
  Incidents.count_query q =
  (incidents_count_select +:+ where_clause incidents_filters q,
   where_params incidents_filters q).
Proof.
  unfold Incidents.count_query, incidents_filters. cbv zeta.
  exact_step "status". exact_step "priority". exact_step "asset_id". exact_step "assigned_to".
  generalize incidents_count_select. intros base. close_builder.
Qed.

Ltac search_step :=
  filter_step "search" (fun v : string => let t := JStr ("%" +:+ v +:+ "%") in [t; t; t; t]).

Lemma assets_page_query_spec q :
  Assets.page_query q =
  (assets_select +:+ where_clause assets_filters q
     +:+ " ORDER BY a.created_at DESC LIMIT ? OFFSET ?",
   where_params assets_filters q ++ limit_offset q).
Proof.
  unfold Assets.page_query, limit_offset, assets_filters. cbv zeta.
  exact_step "category". exact_step "status". search_step.
  generalize assets_select. intros base. close_builder.
Qed.

Lemma assets_count_query_spec q :
  Assets.count_query q =
  (assets_count_select +:+ where_clause assets_filters q, where_params assets_filters q).
Proof.
  unfold Assets.count_query, assets_filters. cbv zeta.
  exact_step "category". exact_step "status". search_step.
  generalize assets_count_select. intros base. close_builder.
Qed.

Ltac end_of_day_step := filter_step "dateTo" (fun v : string => [JStr (v +:+ " 23:59:59")]).

Lemma inventory_query_spec q :
  Reports.inventory_query q =
  (inventory_report_select +:+ where_clause inventory_report_filters q
     +:+ " ORDER BY a.created_at DESC",
   where_params inventory_report_filters q).
Proof.
  unfold Reports.inventory_query, inventory_report_filters. cbv zeta.
  exact_step "category". exact_step "status". exact_step "responsible".
  exact_step "dateFrom". end_of_day_step.
  generalize inventory_report_select. intros base. close_builder.
Qed.

Lemma incidents_report_query_spec q :
  Reports.incidents_query q =
  (incidents_report_select +:+ where_clause incidents_report_filters q
     +:+ " ORDER BY i.reported_date DESC",
   where_params incidents_report_filters q).
Proof.
  unfold Reports.incidents_query, incidents_report_filters. cbv zeta.
  exact_step "status". exact_step "priority". exact_step "asset_id".
  exact_step "dateFrom". end_of_day_step.
  generalize incidents_report_select. intros base. close_builder.
Qed.

Lemma maintenance_report_query_spec q :
  Reports.maintenance_query q =
  (maintenance_report_select +:+ where_clause maintenance_report_filters q
     +:+ " ORDER BY m.scheduled_date DESC",
   where_params maintenance_report_filters q).
Proof.
  unfold Reports.maintenance_query, maintenance_report_filters. cbv zeta.
  exact_step "type". exact_step "status". exact_step "asset_id".
  exact_step "dateFrom". exact_step "dateTo".
  generalize maintenance_report_select. intros base. close_builder.
Qed.

Lemma forms_report_query_spec q :
  Reports.forms_query q =
  (forms_report_select +:+ where_clause forms_report_filters q
     +:+ " ORDER BY rf.transfer_date DESC",
   where_params forms_report_filters q).
Proof.
  unfold Reports.forms_query, forms_report_filters. cbv zeta.
  exact_step "status". exact_step "asset_id". exact_step "dateFrom". exact_step "dateTo".
  generalize forms_report_select. intros base. close_builder.
Qed.

Lemma requisitions_report_query_spec q :
  Reports.requisitions_query q =
  (requisitions_report_select +:+ where_clause requisitions_report_filters q
     +:+ " ORDER BY r.created_at DESC",
   where_params requisitions_report_filters q).
Proof.
  unfold Reports.requisitions_query, requisitions_report_filters. cbv zeta.
  exact_step "status". exact_step "type". exact_step "department".
  exact_step "dateFrom". end_of_day_step.
  generalize requisitions_report_select. intros base. close_builder.
Qed.

(** ** Placeholders and parameters *)

Lemma placeholders_app (a b : string) :
  placeholders (a +:+ b) = (placeholders a + placeholders b)%nat.
Proof.
  induction a as [|x a IH]; [reflexivity|].
  change (placeholders (String x (a +:+ b)) =
          (placeholders (String x a) + placeholders b)%nat).
  simpl. rewrite IH. lia.
Qed.

Lemma where_aligned (fs : list filter) (q : gmap string string) :
  Forall aligned fs ->
  placeholders (where_clause fs q) = length (where_params fs q).
Proof.
  induction 1 as [|f fs Hf _ IH]; [reflexivity|].
  simpl. destruct (applied q f) as [v|]; [|done].
  rewrite placeholders_app, length_app, IH. by rewrite (Hf v).
Qed.

Lemma query_aligned (base tail : string) (fs : list filter) (q : gmap string string)
    (extra : list jsval) :
  Forall aligned fs ->
  placeholders base = 0%nat ->
  placeholders tail = length extra ->
  placeholders (base +:+ where_clause fs q +:+ tail)
  = length (where_params fs q ++ extra).
Proof.
  intros Hfs Hbase Htail.
  rewrite !placeholders_app, length_app, Hbase, Htail, (where_aligned fs q Hfs). lia.
Qed.

Ltac aligned_filters := repeat constructor; intros ?; reflexivity.

(** ** C1: the count query and the page query carry the same predicates *)

(** C1. For every combination of the optional filters of a list endpoint
    (responsive forms, assets, maintenances, incidents), the COUNT query and
    the page query append the same predicate text to their WHERE 1=1 and bind
    the same parameter values in the same order; the page query carries in
    addition only its ORDER BY ... LIMIT ? OFFSET ? and the two values bound to
    it. *)
Theorem count_and_page_queries_share_predicates (q : gmap string string) :
  (exists preds ps,
     ResponsiveForms.page_query q
     = (forms_select +:+ preds +:+ " ORDER BY rf.created_at DESC LIMIT ? OFFSET ?",
        ps ++ limit_offset q)
     /\ ResponsiveForms.count_query q = (forms_count_select +:+ preds, ps))
  /\ (exists preds ps,
     Assets.page_query q
     = (assets_select +:+ preds +:+ " ORDER BY a.created_at DESC LIMIT ? OFFSET ?",
        ps ++ limit_offset q)
     /\ Assets.count_query q = (assets_count_select +:+ preds, ps))
  /\ (exists preds ps,
     Maintenances.page_query q
     = (maintenances_select +:+ preds
          +:+ " ORDER BY m.scheduled_date DESC, m.created_at DESC LIMIT ? OFFSET ?",
        ps ++ limit_offset q)
     /\ Maintenances.count_query q = (maintenances_count_select +:+ preds, ps))
  /\ (exists preds ps,
     Incidents.page_query q
     = (incidents_select +:+ preds +:+ " ORDER BY i.created_at DESC LIMIT ? OFFSET ?",
        ps ++ limit_offset q)
     /\ Incidents.count_query q = (incidents_count_select +:+ preds, ps)).
Proof.
  repeat split.
  - exists (where_clause forms_filters q), (where_params forms_filters q).
    split; [apply forms_page_query_spec | apply forms_count_query_spec].
  - exists (where_clause assets_filters q), (where_params assets_filters q).
    split; [apply assets_page_query_spec | apply assets_count_query_spec].
  - exists (where_clause maintenances_filters q), (where_params maintenances_filters q).
    split; [apply maintenances_page_query_spec | apply maintenances_count_query_spec].
  - exists (where_clause incidents_filters q), (where_params incidents_filters q).
    split; [apply incidents_page_query_spec | apply incidents_count_query_spec].
Qed.

(** ** C7: filters apply when present and non-empty, in declaration order *)

(** C7. The query of every list and report handler is its base SELECT
    followed by the predicates of exactly the declared filters whose request
    value is present and non-empty, in declaration order, and its parameter
    list is the values of those same filters in the same order; the text has
    as many placeholders as the list has parameters. *)
Theorem filters_apply_in_declaration_order (q : gmap string string) :
  (ResponsiveForms.page_query q
   = (forms_select +:+ where_clause forms_filters q
        +:+ " ORDER BY rf.created_at DESC LIMIT ? OFFSET ?",
      where_params forms_filters q ++ limit_offset q)
   /\ placeholders (ResponsiveForms.page_query q).1
      = length (ResponsiveForms.page_query q).2)
  /\ (Reports.inventory_query q
      = (inventory_report_select +:+ where_clause inventory_report_filters q
           +:+ " ORDER BY a.created_at DESC",
         where_params inventory_report_filters q)
      /\ placeholders (Reports.inventory_query q).1
         = length (Reports.inventory_query q).2)
  /\ (Maintenances.page_query q
      = (maintenances_select +:+ where_clause maintenances_filters q
           +:+ " ORDER BY m.scheduled_date DESC, m.created_at DESC LIMIT ? OFFSET ?",
         where_params maintenances_filters q ++ limit_offset q)
      /\ placeholders (Maintenances.page_query q).1
         = length (Maintenances.page_query q).2)
  /\ (Incidents.page_query q
      = (incidents_select +:+ where_clause incidents_filters q
           +:+ " ORDER BY i.created_at DESC LIMIT ? OFFSET ?",
         where_params incidents_filters q ++ limit_offset q)
      /\ placeholders (Incidents.page_query q).1 = length (Incidents.page_query q).2)
  /\ (Assets.page_query q
      = (assets_select +:+ where_clause assets_filters q
           +:+ " ORDER BY a.created_at DESC LIMIT ? OFFSET ?",
         where_params assets_filters q ++ limit_offset q)
      /\ placeholders (Assets.page_query q).1 = length (Assets.page_query q).2)
  /\ (Reports.incidents_query q
      = (incidents_report_select +:+ where_clause incidents_report_filters q
           +:+ " ORDER BY i.reported_date DESC",
         where_params incidents_report_filters q)
      /\ placeholders (Reports.incidents_query q).1
         = length (Reports.incidents_query q).2)
  /\ (Reports.maintenance_query q
      = (maintenance_report_select +:+ where_clause maintenance_report_filters q
           +:+ " ORDER BY m.scheduled_date DESC",
         where_params maintenance_report_filters q)
      /\ placeholders (Reports.maintenance_query q).1
         = length (Reports.maintenance_query q).2)
  /\ (Reports.forms_query q
      = (forms_report_select +:+ where_clause forms_report_filters q
           +:+ " ORDER BY rf.transfer_date DESC",
         where_params forms_report_filters q)
      /\ placeholders (Reports.forms_query q).1 = length (Reports.forms_query q).2)
  /\ (Reports.requisitions_query q
      = (requisitions_report_select +:+ where_clause requisitions_report_filters q
           +:+ " ORDER BY r.created_at DESC",
         where_params requisitions_report_filters q)
      /\ placeholders (Reports.requisitions_query q).1
         = length (Reports.requisitions_query q).2).
Proof.
  repeat apply conj.
  - apply forms_page_query_spec.
  - rewrite forms_page_query_spec. cbn [fst snd].
    apply query_aligned; [aligned_filters | reflexivity..].
  - apply inventory_query_spec.
  - rewrite inventory_query_spec. cbn [fst snd].
    rewrite <- (app_nil_r (where_params _ _)).
    apply query_aligned; [aligned_filters | reflexivity..].
  - apply maintenances_page_query_spec.
  - rewrite maintenances_page_query_spec. cbn [fst snd].
    apply query_aligned; [aligned_filters | reflexivity..].
  - apply incidents_page_query_spec.
  - rewrite incidents_page_query_spec. cbn [fst snd].
    apply query_aligned; [aligned_filters | reflexivity..].
  - apply assets_page_query_spec.
  - rewrite assets_page_query_spec. cbn [fst snd].
    apply query_aligned; [aligned_filters | reflexivity..].
  - apply incidents_report_query_spec.
  - rewrite incidents_report_query_spec. cbn [fst snd].
    rewrite <- (app_nil_r (where_params _ _)).
    apply query_aligned; [aligned_filters | reflexivity..].
  - apply maintenance_report_query_spec.
  - rewrite maintenance_report_query_spec. cbn [fst snd].
    rewrite <- (app_nil_r (where_params _ _)).
    apply query_aligned; [aligned_filters | reflexivity..].
  - apply forms_report_query_spec.
  - rewrite forms_report_query_spec. cbn [fst snd].
    rewrite <- (app_nil_r (where_params _ _)).
    apply query_aligned; [aligned_filters | reflexivity..].
  - apply requisitions_report_query_spec.
  - rewrite requisitions_report_query_spec. cbn [fst snd].
    rewrite <- (app_nil_r (where_params _ _)).
    apply query_aligned; [aligned_filters | reflexivity..].
Qed.

(** ** C6: pagination *)






(** ** Decimal numerals are read back by both coercions *)

Lemma digit_value_char (d : Z) : 0 <= d <= 9 -> digit_value (digit_char d) = d.
Proof.
  intros Hd. unfold digit_value, digit_char. rewrite nat_ascii_embedding by lia. lia.
Qed.

Lemma digit_char_digit (d : Z) : 0 <= d <= 9 -> is_digit (digit_char d) = true.
Proof.
  intros Hd. unfold is_digit, digit_char. rewrite nat_ascii_embedding by lia.
  apply andb_true_iff. split; apply Nat.leb_le; lia.
Qed.

Lemma digits_value_snoc (acc : Z) (l : list ascii) (c : ascii) :
  is_digit c = true ->
  digits_value acc (l ++ [c]) = (fun v => 10 * v + digit_value c) <$> digits_value acc l.
Proof.
  intros Hc. revert acc. induction l as [|a l IH]; intros acc; simpl.
  - by rewrite Hc.
  - destruct (is_digit a); [apply IH|done].
Qed.

Lemma digits_lsb_digits (fuel : nat) (n : Z) :
  0 <= n -> Forall (fun c => is_digit c = true) (digits_lsb fuel n).
Proof.
  revert n. induction fuel as [|f IH]; intros n Hn; cbn [digits_lsb]; [constructor|].
  destruct (Z.ltb_spec n 10).
  - repeat constructor. apply digit_char_digit. lia.
  - constructor.
    + apply digit_char_digit. pose proof (Z.mod_pos_bound n 10 ltac:(lia)). lia.
    + apply IH. apply Z.div_pos; lia.
Qed.

Lemma digits_lsb_value (fuel : nat) (n : Z) :
  0 <= n -> (Z.to_nat n < fuel)%nat ->
  digits_value 0 (rev (digits_lsb fuel n)) = Some n.
Proof.
  revert n. induction fuel as [|f IH]; intros n Hn Hfuel; [lia|]. cbn [digits_lsb].
  destruct (Z.ltb_spec n 10) as [Hlt|Hge].
  - cbn [rev app digits_value].
    rewrite digit_char_digit, digit_value_char by lia. f_equal; lia.
  - cbn [rev]. rewrite digits_value_snoc.
    2:{ apply digit_char_digit. pose proof (Z.mod_pos_bound n 10 ltac:(lia)). lia. }
    assert (Hq : 0 <= n / 10 < n).
    { split; [apply Z.div_pos; lia|apply Z.div_lt; lia]. }
    rewrite IH by lia. cbn [fmap option_fmap option_map]. f_equal.
    rewrite digit_value_char by (pose proof (Z.mod_pos_bound n 10 ltac:(lia)); lia).
    pose proof (Z.div_mod n 10 ltac:(lia)). lia.
Qed.

Lemma digits_lsb_nonempty (fuel : nat) (n : Z) : digits_lsb (S fuel) n <> [].
Proof. cbn [digits_lsb]. by destruct (n <? 10). Qed.

Lemma prefix_value_digits (l : list ascii) (acc : Z) (seen : bool) :
  Forall (fun c => is_digit c = true) l ->
  seen = true \/ l <> [] ->
  prefix_value 10 acc seen l = digits_value acc l.
Proof.
  intros Hl. revert acc seen. induction Hl as [|c l Hc _ IH]; intros acc seen Hseen; simpl.
  - by destruct Hseen as [->|].
  - unfold radix_digit. simpl. rewrite Hc. apply IH. by left.
Qed.

(** What the coercions look at in front of a numeral: a digit is no white
    space, no sign and no [x]. *)
Lemma digit_is_plain (c : ascii) :
  is_digit c = true ->
  is_space c = false
  /\ Ascii.eqb c "-" = false /\ Ascii.eqb c "+" = false
  /\ Ascii.eqb c "x" = false /\ Ascii.eqb c "X" = false.
Proof.
  unfold is_digit, is_space. intros [Hlo Hhi]%andb_true_iff.
  apply Nat.leb_le in Hlo, Hhi.
  assert (Hne : forall k : ascii, (nat_of_ascii k < 48 \/ 57 < nat_of_ascii k)%nat ->
                                  Ascii.eqb c k = false).
  { intros k Hk. apply Ascii.eqb_neq. intros ->. lia. }
  repeat split; try (apply Hne; vm_compute; lia).
  apply orb_false_iff. split; [apply Nat.eqb_neq; lia|].
  apply andb_false_iff. right. apply Nat.leb_gt. lia.
Qed.

Lemma unsigned_numeral (l : list ascii) (n : Z) :
  Forall (fun c => is_digit c = true) l -> l <> [] ->
  digits_value 0 l = Some n ->
  string_to_number (string_of_list_ascii l) = Int n
  /\ parseInt_string (string_of_list_ascii l) = Int n.
Proof.
  intros Hl Hne Hval. destruct l as [|c l]; [done|].
  apply Forall_cons in Hl as Hcl. destruct Hcl as [Hc Htail].
  destruct (digit_is_plain c Hc) as (Hsp & Hminus & Hplus & Hx & _).
  split.
  - unfold string_to_number, integer_literal. simpl String.eqb.
    rewrite list_ascii_of_string_of_list_ascii, Hminus, Hplus.
    unfold unsigned_decimal. by rewrite Hval.
  - unfold parseInt_string. rewrite list_ascii_of_string_of_list_ascii.
    simpl skip_spaces. rewrite Hsp, Hminus, Hplus.
    assert (Hhex : strip_hex_prefix (c :: l) = (10, c :: l)).
    { unfold strip_hex_prefix. destruct l as [|c' l]; [done|].
      apply Forall_cons in Htail as [Hc' _].
      destruct (digit_is_plain c' Hc') as (_ & _ & _ & Hx' & HX').
      by rewrite Hx', HX', andb_false_r. }
    rewrite Hhex, prefix_value_digits by (done || by right). rewrite Hval. f_equal. lia.
Qed.

(** The decimal numeral of a natural number is read as that number by
    ToNumber and by parseInt. *)
Lemma decimal_numeral (n : Z) : 0 <= n -> numeral (JStr (toString n)) n.
Proof.
  intros Hn. unfold numeral, to_number, parseInt, toString.
  destruct (Z.ltb_spec n 0); [lia|].
  apply unsigned_numeral.
  - unfold nat_toString. apply Forall_rev. by apply digits_lsb_digits.
  - unfold nat_toString. intros Hnil. apply (f_equal (@rev ascii)) in Hnil.
    rewrite rev_involutive in Hnil. by apply digits_lsb_nonempty in Hnil.
  - unfold nat_toString. apply digits_lsb_value; lia.
Qed.

(** ** C5: aggregate batches are all-or-nothing *)

Section BatchFacts.
Variable db_all : string -> list jsval -> result (list row).
Variable queries : list (string * string).

Let step := Aggregate.callback db_all queries.

Lemma rejected_stays (schedule : list string) (st : Aggregate.batch_state) :
  is_Some st.2 -> is_Some (foldl step st schedule).2.
Proof.
  revert st. induction schedule as [|key schedule IH]; intros st Hst; [done|].
  simpl. apply IH. unfold step, Aggregate.callback.
  destruct (list_to_map queries !! key) as [sql|]; [|done].
  destruct (db_all sql []); [done|]. simpl. by destruct st.2.
Qed.

Lemma one_failure_rejects (schedule : list string) (st : Aggregate.batch_state)
    (key sql e : string) :
  key ∈ schedule ->
  (list_to_map queries : gmap string string) !! key = Some sql ->
  db_all sql [] = Err e ->
  is_Some (foldl step st schedule).2.
Proof.
  intros Hin Hsql Herr. revert st.
  induction schedule as [|k schedule IH]; intros st; [by apply elem_of_nil in Hin|].
  simpl. apply elem_of_cons in Hin as [<-|Hin]; [|by apply IH].
  apply rejected_stays. unfold step, Aggregate.callback.
  rewrite Hsql, Herr. simpl. by destruct st.2.
Qed.

Lemma all_answers_collects (schedule : list string) (st : Aggregate.batch_state) :
  (forall key, key ∈ schedule ->
     exists sql rows, (list_to_map queries : gmap string string) !! key = Some sql
                      /\ db_all sql [] = Ok rows) ->
  (foldl step st schedule).2 = st.2
  /\ (forall key, key ∉ schedule -> (foldl step st schedule).1 !! key = st.1 !! key)
  /\ (forall key sql rows, key ∈ schedule ->
        (list_to_map queries : gmap string string) !! key = Some sql ->
        db_all sql [] = Ok rows ->
        (foldl step st schedule).1 !! key = Some rows).
Proof.
  revert st. induction schedule as [|k schedule IH]; intros st Hall.
  { split; [done|]. split; [done|]. intros key ? ? Hin. by apply elem_of_nil in Hin. }
  destruct (Hall k) as (sqlk & rowsk & Hk & Hokk); [by left|].
  assert (Hstep : step st k = (<[k := rowsk]> st.1, st.2)).
  { unfold step, Aggregate.callback. by rewrite Hk, Hokk. }
  destruct (IH (step st k)) as (Hrej & Hout & Hin).
  { intros key Hkey. apply Hall. by right. }
  simpl. rewrite Hstep in *. simpl in *. split; [|split].
  - exact Hrej.
  - intros key Hnot. apply not_elem_of_cons in Hnot as [Hne Hnot].
    rewrite (Hout key Hnot). by apply lookup_insert_ne.
  - intros key sql rows Hkey Hsql Hok.
    destruct (decide (key ∈ schedule)) as [Hmem|Hnot]; [by eapply Hin|].
    apply elem_of_cons in Hkey as [->|?]; [|done].
    rewrite (Hout k Hnot), lookup_insert_eq. congruence.
Qed.
End BatchFacts.

Lemma respond_all_or_nothing (db_all : string -> list jsval -> result (list row))
    (queries : list (string * string)) (envelope error_message : string) :
  NoDup queries.*1 ->
  all_or_nothing db_all (Aggregate.respond db_all queries envelope error_message)
    queries envelope error_message.
Proof.
  intros Hnodup schedule Hperm.
  assert (Hlookup : forall key sql, (key, sql) ∈ queries ->
            (list_to_map queries : gmap string string) !! key = Some sql).
  { intros key sql. by apply elem_of_list_to_map_1. }
  assert (Hkeys : forall key sql, (key, sql) ∈ queries -> key ∈ schedule).
  { intros key sql Hin. rewrite Hperm. apply list_elem_of_fmap. by exists (key, sql). }
  split.
  - intros (key & sql & e & Hin & Herr). unfold Aggregate.respond, Aggregate.run.
    destruct (one_failure_rejects db_all queries schedule (∅, None) key sql e)
      as [e0 He0]; eauto.
    by rewrite He0.
  - intros Hall.
    destruct (all_answers_collects db_all queries schedule (∅, None))
      as (Hrej & Hout & Hin).
    { intros key Hkey. rewrite Hperm in Hkey.
      apply list_elem_of_fmap in Hkey as ([k sql] & -> & Hmem).
      destruct (Hall k sql Hmem) as [rows Hrows]. exists sql, rows. eauto. }
    exists (Aggregate.run db_all queries schedule).1. split; [|split].
    + unfold Aggregate.respond. unfold Aggregate.run in *. by rewrite Hrej.
    + intros key sql Hmem. destruct (Hall key sql Hmem) as [rows Hrows].
      exists rows. split; [done|]. eapply Hin; eauto.
    + intros key Hnot. unfold Aggregate.run. rewrite Hout; [done|].
      by rewrite Hperm.
Qed.

Ltac distinct_keys :=
  match goal with
  | |- NoDup ?l => apply (bool_decide_unpack (NoDup l)); vm_compute; constructor
  end.

(** C5. For the dashboard and for each stats/overview batch, in whatever
    order the queries complete: if at least one query of the batch fails, the
    response is the server error holding the message alone; if every query
    answers, the response holds each query's rows under the name of the
    query, and nothing else. *)
Theorem aggregate_batches_all_or_nothing
    (db_all : string -> list jsval -> result (list row)) :
  all_or_nothing db_all (Aggregate.dashboard db_all) dashboard_queries
    "dashboard" "Error al obtener estadísticas del dashboard"
  /\ all_or_nothing db_all (Aggregate.forms_stats db_all) forms_stats_queries
       "stats" "Error al obtener estadísticas"
  /\ all_or_nothing db_all (Aggregate.maintenances_stats db_all) maintenances_stats_queries
       "stats" "Error al obtener estadísticas"
  /\ all_or_nothing db_all (Aggregate.incidents_stats db_all) incidents_stats_queries
       "stats" "Error al obtener estadísticas"
  /\ all_or_nothing db_all (Aggregate.assets_stats db_all) assets_stats_queries
       "stats" "Error al obtener estadísticas".
Proof.
  repeat apply conj; apply respond_all_or_nothing; distinct_keys.
Qed.


(** The stats of the responsive forms when the count of approved forms fails
    and the queries complete in the reverse of their order. *)
Lemma aggregate_batches_witness :
  Aggregate.forms_stats busy_for_approved (reverse forms_stats_queries.*1)
  = message 500 "Error al obtener estadísticas".
Proof.
  destruct (aggregate_batches_all_or_nothing busy_for_approved) as (_ & Hforms & _).
  apply (Hforms (reverse forms_stats_queries.*1)); [apply reverse_Permutation|].
  exists "approved",
    "SELECT COUNT(*) as count FROM responsive_forms WHERE status = 'approved'",
    "SQLITE_BUSY".
  split; [|reflexivity]. do 3 right. left.
Defined.

(** ** The store: statements *)

Lemma attempt_answers {A : Type} (f : db -> result A * db) (s : db) :
  answers s -> attempt f s = f (next s).
Proof.
  unfold answers, attempt. destruct (head (faults s)) as [[]|]; by intros.
Qed.

Lemma attempt_fault {A : Type} (f : db -> result A * db) (s : db) :
  ~ answers s -> attempt f s = (Err "SQLITE_ERROR", next s).
Proof.
  unfold answers, attempt. destruct (head (faults s)) as [[]|]; [done|..];
    intros H; by destruct H.
Qed.

Lemma attempt_cases {A : Type} (f : db -> result A * db) (s : db) :
  attempt f s = f (next s) \/ attempt f s = (Err "SQLITE_ERROR", next s).
Proof.
  unfold attempt. destruct (head (faults s)) as [[]|]; auto.
Qed.

Lemma table_with_table (t : string) (rows : list row) (s : db) :
  table t (with_table t rows s) = rows.
Proof. unfold table, with_table. simpl. by rewrite lookup_insert_eq. Qed.

Lemma table_with_table_ne (t t' : string) (rows : list row) (s : db) :
  t <> t' -> table t (with_table t' rows s) = table t s.
Proof. intros Hne. unfold table, with_table. simpl. by rewrite lookup_insert_ne. Qed.

Lemma assign_snoc (t : string) (sets : list (string * jsval)) (c : string) (v : jsval)
    (r : row) :
  assign t (sets ++ [(c, v)]) r = <[c := coerce (affinity_of t c) v]> (assign t sets r).
Proof. unfold assign. by rewrite foldl_app. Qed.

Lemma assign_other (t : string) (sets : list (string * jsval)) (r : row) (c : string) :
  c ∉ sets.*1 -> assign t sets r !! c = r !! c.
Proof.
  induction sets as [|[k v] sets IH] using rev_ind; [done|].
  rewrite fmap_app, not_elem_of_app. simpl. intros [Hnot Hk].
  rewrite assign_snoc, lookup_insert_ne; [by apply IH|].
  intros ->. apply Hk. by left.
Qed.

Lemma assign_set (t : string) (sets : list (string * jsval)) (r : row) (c : string)
    (v : jsval) :
  NoDup sets.*1 -> (c, v) ∈ sets ->
  assign t sets r !! c = Some (coerce (affinity_of t c) v).
Proof.
  induction sets as [|[k w] sets IH] using rev_ind; [by intros _ ?%elem_of_nil|].
  rewrite fmap_app. simpl. intros Hnodup Hin.
  apply NoDup_app in Hnodup as (Hnodup & Hfresh & _).
  rewrite assign_snoc. apply elem_of_app in Hin as [Hin|Hin].
  - rewrite lookup_insert_ne; [by apply IH|].
    intros ->. apply (Hfresh c); [|by left].
    apply list_elem_of_fmap. by exists (c, v).
  - apply list_elem_of_singleton in Hin. simplify_eq. by rewrite lookup_insert_eq.
Qed.

Lemma prop_assign_other (t : string) (sets : list (string * jsval)) (r : row) (c : string) :
  c ∉ sets.*1 -> prop (assign t sets r) c = prop r c.
Proof. intros H. unfold prop. by rewrite assign_other. Qed.

Lemma prop_assign_set (t : string) (sets : list (string * jsval)) (r : row) (c : string)
    (v : jsval) :
  NoDup sets.*1 -> (c, v) ∈ sets ->
  prop (assign t sets r) c = coerce (affinity_of t c) v.
Proof. intros H1 H2. unfold prop. by rewrite (assign_set t sets r c v). Qed.

Lemma col_is_text (c x : string) (r : row) :
  col_is c (JStr x) r = true <-> prop r c = JStr x.
Proof.
  unfold col_is, sql_eq. destruct (prop r c) as [| | |[]|y]; try (split; [done|congruence]).
  destruct (String.eqb_spec y x); split; congruence.
Qed.

(** An UPDATE that assigns no NULL to a NOT NULL column, on a store that
    answers. *)
Lemma sql_update_answers (t : string) (sets : list (string * jsval)) (cond : row -> bool)
    (s : db) :
  answers s -> violates_not_null t sets = false ->
  sql_update t sets cond s
  = (Ok (Z.of_nat (length (List.filter cond (table t s)))),
     with_table t (List.map (fun r => if cond r then assign t sets r else r) (table t s))
       (next s)).
Proof.
  intros Hs Hsets. unfold sql_update. rewrite attempt_answers by done.
  rewrite Hsets, andb_false_r. reflexivity.
Qed.

Lemma no_row_selected (cond : row -> bool) (rows : list row) :
  Z.of_nat (length (List.filter cond rows)) = 0 <-> Forall (fun r => cond r = false) rows.
Proof.
  induction rows as [|r rows IH]; simpl; [by split|].
  destruct (cond r) eqn:Hr; simpl.
  - split; [lia|]. intros H. apply Forall_cons in H as [H _]. congruence.
  - rewrite IH. split; [by constructor|]. by intros [_ ?]%Forall_cons.
Qed.

Lemma no_row_changed (cond : row -> bool) (f : row -> row) (rows : list row) :
  Forall (fun r => cond r = false) rows ->
  List.map (fun r => if cond r then f r else r) rows = rows.
Proof.
  induction 1 as [|r rows Hr _ IH]; simpl; [done|]. by rewrite Hr, IH.
Qed.

Lemma Forall2_map_self {A : Type} (R : A -> A -> Prop) (f : A -> A) (l : list A) :
  (forall x, x ∈ l -> R x (f x)) -> Forall2 R l (List.map f l).
Proof.
  induction l as [|x l IH]; intros H; simpl; constructor.
  - apply H. by left.
  - apply IH. intros y Hy. apply H. by right.
Qed.

Lemma some_row_selected (cond : row -> bool) (rows : list row) :
  Z.of_nat (length (List.filter cond rows)) <> 0 <-> exists r, r ∈ rows /\ cond r = true.
Proof.
  rewrite no_row_selected. split.
  - intros H. apply not_Forall_Exists in H; [|intros r; apply _].
    apply Exists_exists in H as (r & Hin & Hr). exists r. split; [done|].
    destruct (cond r) eqn:E; [done|]. exfalso. by apply Hr.
  - intros (r & Hin & Hr) Hall. rewrite Forall_forall in Hall.
    specialize (Hall r Hin). congruence.
Qed.

(** ** C3: maintenance transitions *)






(** ** C4: the resolution date *)

Lemma sql_update_ok (t : string) (sets : list (string * jsval)) (cond : row -> bool)
    (s s' : db) (changes : Z) :
  sql_update t sets cond s = (Ok changes, s') ->
  changes = Z.of_nat (length (List.filter cond (table t s)))
  /\ s' = with_table t (List.map (fun r => if cond r then assign t sets r else r) (table t s))
            (next s).
Proof.
  unfold sql_update, attempt.
  destruct (head (faults s)) as [[]|]; [done|..];
    destruct (_ && _); intros; by simplify_eq.
Qed.

Lemma sql_update_err (t : string) (sets : list (string * jsval)) (cond : row -> bool)
    (s s' : db) (e : string) :
  sql_update t sets cond s = (Err e, s') -> s' = next s.
Proof.
  unfold sql_update, attempt.
  destruct (head (faults s)) as [[]|]; [by intros; simplify_eq|..];
    destruct (_ && _); intros; by simplify_eq.
Qed.





(** ** C2: who changes the responsible user of an asset *)





Lemma sql_get_state (t : string) (columns : option (list string)) (cond : row -> bool)
    (s : db) :
  (sql_get t columns cond s).2 = next s.
Proof. unfold sql_get, attempt. by destruct (head (faults s)) as [[]|]. Qed.

Lemma sql_update_state (t : string) (sets : list (string * jsval)) (cond : row -> bool)
    (s : db) :
  (sql_update t sets cond s).2 = next s
  \/ (sql_update t sets cond s).2
     = with_table t (List.map (fun r => if cond r then assign t sets r else r) (table t s))
         (next s).
Proof.
  unfold sql_update, attempt.
  destruct (head (faults s)) as [[]|]; [by left|..]; destruct (_ && _); auto.
Qed.

Lemma sql_insert_state (t now : string) (values : list (string * jsval)) (s : db) :
  (sql_insert t now values s).2 = next s
  \/ exists r, (sql_insert t now values s).2 = with_table t (table t s ++ [r]) (next s).
Proof.
  unfold sql_insert, attempt.
  destruct (head (faults s)) as [[]|]; [by left|..]; destruct (violates _ _ _); eauto.
Qed.






Section Frames.
Context {V : Validators} {C : Credentials}.
Variable e : env.
















End Frames.

Lemma reject_where (id : jsval) (f : row) :
  col_eq "responsive_forms" "id" id f && col_is "status" (JStr "pending") f = true
  <-> pending id f.
Proof. unfold pending, named. by rewrite andb_true_iff, col_is_text. Qed.







(** ** C9 and C10: login and profile *)

Lemma col_is_int (c : string) (n : Z) (r : row) :
  col_is c (JNum (Int n)) r = true <-> prop r c = JNum (Int n).
Proof.
  unfold col_is, sql_eq. destruct (prop r c) as [| | |[m|]|y]; try (split; [done|congruence]).
  destruct (Z.eqb_spec m n); split; congruence.
Qed.

Lemma login_where_spec (ident : string) (u : row) :
  login_where ident u = true
  <-> prop u "active" = JNum (Int 1)
      /\ (prop u "username" = JStr ident \/ prop u "email" = JStr ident).
Proof.
  unfold login_where.
  change (col_eq "users" "username" (JStr ident) u) with (col_is "username" (JStr ident) u).
  change (col_eq "users" "email" (JStr ident) u) with (col_is "email" (JStr ident) u).
  rewrite andb_true_iff, orb_true_iff, !col_is_text, col_is_int. tauto.
Qed.

Lemma sql_get_result (t : string) (columns : option (list string)) (cond : row -> bool)
    (s : db) (r : option row) (s' : db) :
  sql_get t columns cond s = (Ok r, s') ->
  r = match columns with
      | None => id
      | Some cs => fun u => list_to_map (List.map (fun c => (c, prop u c)) cs)
      end <$> List.find cond (table t s).
Proof.
  unfold sql_get, attempt. destruct (head (faults s)) as [[]|]; intros; by simplify_eq.
Qed.

Lemma sql_get_answers (t : string) (columns : option (list string)) (cond : row -> bool)
    (s : db) :
  answers s ->
  sql_get t columns cond s
  = (Ok (match columns with
         | None => id
         | Some cs => fun u => list_to_map (List.map (fun c => (c, prop u c)) cs)
         end <$> List.find cond (table t s)), next s).
Proof. intros Hs. unfold sql_get. by rewrite attempt_answers. Qed.

(** What a login that answers 200 went through. *)
Lemma login_success {V : Validators} {C : Credentials} (e : env) (rb : row) (s : db)
    (ident : string) (r : response) :
  prop rb "username" = JStr ident ->
  (Auth.login e rb s).1 = Sent r -> status r = 200 ->
  exists u,
    List.find (login_where ident) (table "users" s) = Some u
    /\ bcrypt_compare (prop rb "password") (prop u "password") = Ok true
    /\ body r = login_body (generateToken u) u.
Proof.
  intros Hident. unfold Auth.login, bad_request, message, ok.
  rewrite Hident. fold (login_where ident).
  destruct (negb (is_empty (failed _))); [by intros; simplify_eq/=|].
  destruct (sql_get _ _ _ s) as [[[u|]|err] s'] eqn:Hget;
    try (by intros; simplify_eq/=).
  apply sql_get_result in Hget. simpl in Hget.
  destruct (bcrypt_compare _ _) as [[]|] eqn:Hpw; try (by intros; simplify_eq/=).
  destruct (sql_update _ _ _ s') as [? ?]. intros Hr _. simplify_eq/=.
  exists u. split; [|done].
  destruct (List.find _ _) as [u'|]; by simplify_eq/=.
Qed.

(** C9. A login with a string identifier answers 200 only if the users table
    holds a row whose active flag is 1, whose username or email equals the
    identifier and whose stored hash the password matches. When no such row
    exists (the identifier is unknown, the user is inactive, or the password
    is wrong), a well-formed request on a store that answers gets the one
    401 response "Credenciales inválidas", which carries no token. *)
Theorem login_only_for_active_matching_user {V : Validators} {C : Credentials}
    (e : env) (body : row) (s : db) (ident : string) :
  prop body "username" = JStr ident ->
  (forall r, (Auth.login e body s).1 = Sent r -> status r = 200 ->
             exists u, u ∈ table "users" s /\ may_log_in ident (prop body "password") u)
  /\ (notEmpty (prop body "username") = true ->
      notEmpty (prop body "password") = true ->
      answers s ->
      (forall u, u ∈ table "users" s -> ~ may_log_in ident (prop body "password") u) ->
      (Auth.login e body s).1 = message 401 "Credenciales inválidas").
Proof.
  intros Hident. split.
  - intros r Hr Hstatus.
    destruct (login_success e body s ident r Hident Hr Hstatus) as (u & Hfind & Hpw & _).
    apply find_some in Hfind as [Hin Hwhere]. apply login_where_spec in Hwhere.
    exists u. split; [by apply list_elem_of_In|]. unfold may_log_in. tauto.
  - intros Hu Hp Hs Hnone. unfold Auth.login. rewrite Hu, Hp, Hident. simpl negb. cbv iota.
    fold (login_where ident).
    rewrite (sql_get_answers "users" None (login_where ident) s Hs).
    destruct (List.find (login_where ident) (table "users" s)) as [u|] eqn:Hfind; [|done].
    simpl. apply find_some in Hfind as [Hin Hwhere]. apply login_where_spec in Hwhere.
    destruct (bcrypt_compare _ _) as [[]|] eqn:Hpw; try done.
    exfalso. apply (Hnone u); [by apply list_elem_of_In|]. unfold may_log_in. tauto.
Qed.

(** On the example store: "ana" with a wrong password. *)
Lemma login_only_for_active_matching_user_witness :
  let rb : row := {[ "username" := JStr "ana"; "password" := JStr "wrong" ]} in
  (Auth.login (V:=test_validators) (C:=test_credentials) (test_env "2024-02-02 12:00:00")
     rb test_store).1
  = message 401 "Credenciales inválidas".
Proof.
  intros rb.
  assert (Hident : prop rb "username" = JStr "ana") by reflexivity.
  apply (proj2 (login_only_for_active_matching_user (V:=test_validators)
                  (C:=test_credentials) (test_env "2024-02-02 12:00:00") rb
                  test_store "ana" Hident)); [reflexivity|reflexivity| |].
  - vm_compute. discriminate.
  - intros u Hu (_ & _ & Hpw).
    apply list_elem_of_singleton in Hu as ->. vm_compute in Hpw. discriminate.
Defined.

Lemma prop_ignores_password (c : string) (u1 u2 : row) :
  c <> "password" ->
  delete "password" u1 = delete "password" u2 ->
  prop u1 c = prop u2 c.
Proof.
  intros Hc Heq. unfold prop.
  rewrite <- (lookup_delete_ne u1 "password" c), <- (lookup_delete_ne u2 "password" c)
    by done.
  by rewrite Heq.
Qed.

Lemma find_related {A : Type} (R : A -> A -> Prop) (cond : A -> bool) (l1 l2 : list A) :
  Forall2 R l1 l2 ->
  (forall x y, R x y -> cond x = cond y) ->
  option_Forall2 R (List.find cond l1) (List.find cond l2).
Proof.
  intros Hl Hcond. induction Hl as [|x y l1 l2 Hxy _ IH]; simpl; [constructor|].
  rewrite <- (Hcond x y Hxy). destruct (cond x); [by constructor|done].
Qed.

Lemma login_where_ignores_hash (ident : string) (u1 u2 : row) :
  delete "password" u1 = delete "password" u2 ->
  login_where ident u1 = login_where ident u2.
Proof.
  intros Heq. unfold login_where, col_eq, col_is.
  by rewrite (prop_ignores_password "username" u1 u2),
    (prop_ignores_password "email" u1 u2), (prop_ignores_password "active" u1 u2).
Qed.

Lemma login_body_ignores_hash {C : Credentials} (u1 u2 : row) :
  token_ignores_hash ->
  delete "password" u1 = delete "password" u2 ->
  login_body (generateToken u1) u1 = login_body (generateToken u2) u2.
Proof.
  intros Htoken Heq. unfold login_body. rewrite (Htoken u1 u2 Heq).
  by rewrite (prop_ignores_password "id" u1 u2),
    (prop_ignores_password "username" u1 u2), (prop_ignores_password "email" u1 u2),
    (prop_ignores_password "full_name" u1 u2), (prop_ignores_password "role" u1 u2),
    (prop_ignores_password "department" u1 u2).
Qed.

(** The columns GET /profile selects. *)
Lemma profile_row (u : row) :
  let user : row :=
    list_to_map (List.map (fun c => (c, prop u c))
                   ["id"; "username"; "email"; "full_name"; "role"; "department";
                    "created_at"]) in
  user !! "password" = None
  /\ dom user = list_to_set ["id"; "username"; "email"; "full_name"; "role"; "department";
                             "created_at"].
Proof.
  simpl. split.
  - by rewrite !lookup_insert_ne.
  - rewrite !dom_insert_L, dom_empty_L. set_solver.
Qed.

Lemma profile_ignores_hash (e : env) (s1 s2 : db) :
  same_but_hashes s1 s2 -> (Auth.profile e s1).1 = (Auth.profile e s2).1.
Proof.
  intros [Hfaults Husers]. unfold Auth.profile, sql_get, attempt. rewrite Hfaults.
  destruct (head (faults s2)) as [[]|]; [done|..];
    change (table "users" (next s1)) with (table "users" s1);
    change (table "users" (next s2)) with (table "users" s2);
    (destruct (find_related _ (col_eq "users" "id" (prop (req_user e) "id")) _ _ Husers)
       as [u1 u2 Hu|];
     [ intros u1 u2 Hu; unfold col_eq; by rewrite (prop_ignores_password "id" u1 u2)
     | simpl;
       by rewrite (prop_ignores_password "id" u1 u2),
         (prop_ignores_password "username" u1 u2), (prop_ignores_password "email" u1 u2),
         (prop_ignores_password "full_name" u1 u2), (prop_ignores_password "role" u1 u2),
         (prop_ignores_password "department" u1 u2),
         (prop_ignores_password "created_at" u1 u2)
     | done ]).
Qed.

(** C10. A successful login answers with the message, the token and the six
    fields id, username, email, full_name, role and department of the user
    row; a successful profile answers with the seven columns it selects, the
    password not among them. For two stores that differ only in the stored
    password hashes, and a token that does not depend on the hash, two
    successful logins of the same request get the same response, and the
    profile responses are the same. *)
Theorem password_hash_stays_out_of_responses {V : Validators} {C : Credentials}
    (e : env) (rb : row) (ident : string) (s1 s2 : db) :
  same_but_hashes s1 s2 ->
  token_ignores_hash ->
  prop rb "username" = JStr ident ->
  (forall r, (Auth.login e rb s1).1 = Sent r -> status r = 200 ->
             exists u, u ∈ table "users" s1 /\ body r = login_body (generateToken u) u)
  /\ (forall r, (Auth.profile e s1).1 = Sent r -> status r = 200 ->
                exists user : row,
                  body r = [ ("user", JRow user) ]
                  /\ user !! "password" = None
                  /\ dom user = list_to_set ["id"; "username"; "email"; "full_name"; "role";
                                             "department"; "created_at"])
  /\ (forall r1 r2,
        (Auth.login e rb s1).1 = Sent r1 -> status r1 = 200 ->
        (Auth.login e rb s2).1 = Sent r2 -> status r2 = 200 ->
        r1 = r2)
  /\ (Auth.profile e s1).1 = (Auth.profile e s2).1.
Proof.
  intros Hsame Htoken Hident. split; [|split; [|split]].
  - intros r Hr Hstatus.
    destruct (login_success e rb s1 ident r Hident Hr Hstatus) as (u & Hfind & _ & Hbody).
    apply find_some in Hfind as [Hin _]. exists u. split; [by apply list_elem_of_In|done].
  - intros r. unfold Auth.profile, message, ok.
    destruct (sql_get _ _ _ s1) as [[[user|]|err] s'] eqn:Hget;
      try (by intros; simplify_eq/=).
    apply sql_get_result in Hget.
    destruct (List.find _ _) as [u|]; [|done]. simpl in Hget.
    intros Hr _. simplify_eq/=. eexists. split; [done|]. apply profile_row.
  - intros r1 r2 Hr1 Hst1 Hr2 Hst2.
    destruct (login_success e rb s1 ident r1 Hident Hr1 Hst1) as (u1 & Hf1 & _ & Hb1).
    destruct (login_success e rb s2 ident r2 Hident Hr2 Hst2) as (u2 & Hf2 & _ & Hb2).
    destruct Hsame as [_ Husers].
    pose proof (find_related _ (login_where ident) _ _ Husers
                  (login_where_ignores_hash ident)) as Hrel.
    rewrite Hf1, Hf2 in Hrel. inversion Hrel as [? ? Hu|]; subst.
    destruct r1 as [st1 b1], r2 as [st2 b2]. simpl in *. subst.
    f_equal. by apply login_body_ignores_hash.
  - by apply profile_ignores_hash.
Qed.

Lemma test_token_ignores_hash : token_ignores_hash (C:=test_credentials).
Proof.
  intros u1 u2 Heq. simpl.
  by rewrite (prop_ignores_password "id" u1 u2), (prop_ignores_password "role" u1 u2).
Qed.

(** "ana" logs in and reads her profile on the example store and on the
    store whose hashes were computed again. *)
Lemma password_hash_stays_out_of_responses_witness :
  let e := test_env "2024-02-02 12:00:00" in
  let rb : row := {[ "username" := JStr "ana"; "password" := JStr "secret" ]} in
  (Auth.login (V:=test_validators) (C:=test_credentials) e rb test_store).1
  = (Auth.login (V:=test_validators) (C:=test_credentials) e rb test_store_rehashed).1
  /\ (Auth.profile e test_store).1 = (Auth.profile e test_store_rehashed).1.
Proof.
  intros e rb.
  assert (Hsame : same_but_hashes test_store test_store_rehashed).
  { split; [reflexivity|]. unfold test_store_rehashed. rewrite table_with_table.
    apply Forall2_map_self. intros u _. by rewrite delete_insert_eq. }
  assert (Hident : prop rb "username" = JStr "ana") by reflexivity.
  destruct (password_hash_stays_out_of_responses (V:=test_validators) (C:=test_credentials)
              e rb "ana" test_store test_store_rehashed Hsame test_token_ignores_hash Hident)
    as (_ & _ & Hlogin & Hprofile).
  split; [|exact Hprofile].
  destruct (Auth.login e rb test_store).1 as [r1|] eqn:H1;
    [|vm_compute in H1; discriminate].
  destruct (Auth.login e rb test_store_rehashed).1 as [r2|] eqn:H2;
    [|vm_compute in H2; discriminate].
  f_equal. apply Hlogin; [reflexivity| |reflexivity|].
  - vm_compute in H1. by injection H1 as <-.
  - vm_compute in H2. by injection H2 as <-.
Defined.

(** ** C8: domain codes *)

















(** ** Frames: what a statement keeps *)

Lemma keeps_column_refl (t c : string) (s : db) : keeps_column t c s s.
Proof. unfold keeps_column. reflexivity. Qed.

Lemma keeps_column_trans (t c : string) (s1 s2 s3 : db) :
  keeps_column t c s1 s2 -> keeps_column t c s2 s3 -> keeps_column t c s1 s3.
Proof. unfold keeps_column. by etrans. Qed.

Lemma keeps_column_same (t c : string) (s s' : db) :
  table t s' = table t s -> keeps_column t c s s'.
Proof. intros E. unfold keeps_column, values_of. by rewrite E. Qed.

Lemma sql_get_keeps_column (t c : string) (t' : string) (columns : option (list string))
    (cond : row -> bool) (s : db) :
  keeps_column t c s (sql_get t' columns cond s).2.
Proof. rewrite sql_get_state. by apply keeps_column_same. Qed.

Lemma sql_insert_keeps_column (t c : string) (t' now : string)
    (values : list (string * jsval)) (s : db) :
  keeps_column t c s (sql_insert t' now values s).2.
Proof.
  destruct (sql_insert_state t' now values s) as [->|[r ->]];
    [by apply keeps_column_same|].
  destruct (decide (t = t')) as [->|Hne].
  - unfold keeps_column, values_of. rewrite table_with_table.
    change (table t' (next s)) with (table t' s).
    rewrite map_app. by apply prefix_app_r.
  - apply keeps_column_same. by rewrite table_with_table_ne.
Qed.

Lemma sql_update_keeps_column (t c : string) (t' : string) (sets : list (string * jsval))
    (cond : row -> bool) (s : db) :
  (t = t' -> c ∉ sets.*1) ->
  keeps_column t c s (sql_update t' sets cond s).2.
Proof.
  intros Hside. destruct (sql_update_state t' sets cond s) as [->| ->];
    [by apply keeps_column_same|].
  destruct (decide (t = t')) as [->|Hne].
  - unfold keeps_column, values_of. rewrite table_with_table.
    change (table t' (next s)) with (table t' s).
    rewrite List.map_map.
    erewrite (List.map_ext (fun a => prop (if cond a then _ else a) c)); [done|].
    intros a. simpl. destruct (cond a); [|done]. apply prop_assign_other. by apply Hside.
  - apply keeps_column_same. by rewrite table_with_table_ne.
Qed.

(** [(t, c)] is none of the pairs of [of_table t' columns], so if [t] is
    [t'] then [c] is none of [columns]. *)
Lemma outside_of_table (t c t' : string) (columns : list string) :
  (t, c) ∉ of_table t' columns -> t = t' -> c ∉ columns.
Proof.
  intros Hnot -> Hin. apply Hnot. unfold of_table.
  apply list_elem_of_In, in_map_iff. exists c. by rewrite <- list_elem_of_In.
Qed.

Ltac column_statements t c :=
  repeat match goal with
    | H : sql_get ?t' ?cs ?w ?s = (_, ?s') |- _ =>
        assert (keeps_column t c s s')
          by (replace s' with (sql_get t' cs w s).2 by (by rewrite H);
              apply sql_get_keeps_column);
        clear H
    | H : sql_insert ?t' ?n ?v ?s = (_, ?s') |- _ =>
        assert (keeps_column t c s s')
          by (replace s' with (sql_insert t' n v s).2 by (by rewrite H);
              apply sql_insert_keeps_column);
        clear H
    | H : sql_update ?t' ?v ?w ?s = (_, ?s') |- _ =>
        assert (keeps_column t c s s')
          by (replace s' with (sql_update t' v w s).2 by (by rewrite H);
              apply sql_update_keeps_column; intros Heq;
              first [ discriminate Heq
                    | eapply (outside_of_table t c); [|exact Heq];
                      let Hin := fresh in
                      intros Hin; match goal with Hw : _ ∉ _ |- _ => apply Hw end;
                      revert Hin; unfold of_table; simpl;
                      rewrite ?elem_of_app, ?elem_of_cons, ?elem_of_nil; tauto ]);
        clear H
    end;
  eauto using keeps_column_refl, keeps_column_trans.

Ltac frame_handler t c := repeat case_match; simplify_eq/=; column_statements t c.

Lemma run_frame {V : Validators} {C : Credentials} (e : env) (op : operation) (s : db)
    (t c : string) :
  (t, c) ∉ writes op -> keeps_column t c s (run e op s).2.
Proof.
  intros Hw. destruct op; simpl in Hw; simpl run.
  - unfold Auth.login. frame_handler t c.
  - unfold Auth.register. frame_handler t c.
  - unfold Auth.change_password. frame_handler t c.
  - unfold Incidents.create. frame_handler t c.
  - unfold Incidents.update. frame_handler t c.
  - unfold Incidents.assign_to. frame_handler t c.
  - unfold Incidents.resolve. frame_handler t c.
  - unfold Assets.create. frame_handler t c.
  - unfold Assets.update. frame_handler t c.
  - unfold Assets.soft_delete. frame_handler t c.
  - unfold Assets.create_category. frame_handler t c.
  - unfold ResponsiveForms.create. frame_handler t c.
  - unfold ResponsiveForms.approve. frame_handler t c.
  - unfold Maintenances.create. frame_handler t c.
  - unfold Maintenances.update. frame_handler t c.
  - unfold Maintenances.start. frame_handler t c.
  - unfold Maintenances.complete. frame_handler t c.
Qed.
(** X1. An endpoint changes, in the rows that exist, only the columns its
    UPDATE statements name: for every other column of every table, each row
    is still at its place with the value it had (new rows come after). *)
Theorem endpoints_write_only_the_columns_they_set {V : Validators} {C : Credentials}
    (e : env) (op : operation) (s : db) (t c : string) :
  (t, c) ∉ writes op -> keeps_column t c s (run e op s).2.
Proof. apply run_frame. Qed.

(** Completing the scheduled maintenance of the example store keeps every
    title. *)
Lemma endpoints_write_only_the_columns_they_set_witness :
  let op := MaintenanceComplete (JNum (Int 1)) {[ "notes" := JStr "Hecho" ]} in
  (("maintenances", "title") ∉ writes op)
  /\ keeps_column "maintenances" "title" test_store
       (run (V:=test_validators) (C:=test_credentials)
          (test_env "2024-02-02 12:00:00") op test_store).2.
Proof.
  intros op.
  assert (Hout : ("maintenances", "title") ∉ writes op)
    by (apply (bool_decide_unpack _); vm_compute; constructor).
  split; [exact Hout|].
  exact (endpoints_write_only_the_columns_they_set
           (V:=test_validators) (C:=test_credentials) _ op test_store _ _ Hout).
Defined.

Lemma keeps_column_length (t c : string) (s s' : db) :
  keeps_column t c s s' -> (length (table t s) <= length (table t s'))%nat.
Proof.
  intros H%prefix_length. unfold values_of in H. by rewrite !length_map in H.
Qed.

Lemma keeps_column_row (t c : string) (s s' : db) (n : nat) :
  keeps_column t c s s' -> row_keeps t c n s s'.
Proof.
  intros Hk r Hr.
  assert (Hv : values_of t c s !! n = Some (prop r c)).
  { unfold values_of. change (List.map ?f ?l) with (f <$> l).
    by rewrite list_lookup_fmap, Hr. }
  apply (prefix_lookup_Some _ _ _ _ Hv) in Hk. unfold values_of in Hk.
  change (List.map ?f ?l) with (f <$> l) in Hk. rewrite list_lookup_fmap in Hk.
  destruct (table t s' !! n) as [r'|]; [|done]. exists r'. split; [done|].
  simpl in Hk. congruence.
Qed.

(** X2. No endpoint removes a row or moves it: whatever the request, every
    table has at least the rows it had, each at its place with its id. The
    DELETE endpoint of the assets is no exception. *)
Theorem no_endpoint_removes_a_row {V : Validators} {C : Credentials}
    (e : env) (op : operation) (s : db) (t : string) :
  (length (table t s) <= length (table t (run e op s).2))%nat
  /\ keeps_column t "id" s (run e op s).2.
Proof.
  assert (Hid : keeps_column t "id" s (run e op s).2).
  { apply run_frame. destruct op; simpl; unfold of_table; simpl;
      rewrite ?elem_of_app, ?elem_of_cons, ?elem_of_nil;
      intros H; repeat destruct H as [H|H]; try done; discriminate H. }
  split; [by eapply keeps_column_length|done].
Qed.

(** X3. No endpoint rewrites what is set when a row is created: a user's
    username, e-mail, name, role, department and active flag, the codes of
    assets, incidents, maintenances and forms, the asset and the responsibles
    a transfer form names, the reporter of an incident. *)
Theorem creation_columns_are_never_rewritten {V : Validators} {C : Credentials}
    (e : env) (op : operation) (s : db) (t c : string) :
  (t, c) ∈ write_once -> keeps_column t c s (run e op s).2.
Proof.
  intros Hin. apply run_frame. intros Hw.
  assert (Hdisjoint : forall p, p ∈ write_once -> p ∉ writes op).
  { apply Forall_forall. destruct op;
      apply (bool_decide_unpack (Forall _ _)); vm_compute; constructor. }
  by apply (Hdisjoint _ Hin).
Qed.

(** Approving the pending form of the example store leaves the role of every
    user as it was. *)
Lemma creation_columns_are_never_rewritten_witness :
  let op := FormApprove (JNum (Int 1)) {[ "approved" := JBool true ]} in
  ("users", "role") ∈ write_once
  /\ keeps_column "users" "role" test_store
       (run (V:=test_validators) (C:=test_credentials)
          (test_env "2024-02-02 12:00:00") op test_store).2.
Proof.
  intros op.
  assert (Hin : ("users", "role") ∈ write_once)
    by (apply (bool_decide_unpack _); vm_compute; constructor).
  split; [exact Hin|].
  exact (creation_columns_are_never_rewritten
           (V:=test_validators) (C:=test_credentials) _ op test_store _ _ Hin).
Defined.

(** X4. The stored password hash of an existing user changes through the
    change-password endpoint only. *)
Theorem only_change_password_rewrites_a_hash {V : Validators} {C : Credentials}
    (e : env) (op : operation) (s : db) :
  (forall body, op <> ChangePassword body) ->
  keeps_column "users" "password" s (run e op s).2.
Proof.
  intros Hop. apply run_frame. destruct op; simpl; unfold of_table; simpl;
    rewrite ?elem_of_app, ?elem_of_cons, ?elem_of_nil;
    intros H; repeat destruct H as [H|H]; try done; try discriminate H.
  by eapply Hop.
Qed.

(** A login on the example store keeps the hash. *)
Lemma only_change_password_rewrites_a_hash_witness :
  let op := Login {[ "username" := JStr "ana"; "password" := JStr "secret" ]} in
  (forall body, op <> ChangePassword body)
  /\ keeps_column "users" "password" test_store
       (run (V:=test_validators) (C:=test_credentials)
          (test_env "2024-02-02 12:00:00") op test_store).2.
Proof.
  intros op.
  assert (Hop : forall body, op <> ChangePassword body) by (intros body; discriminate).
  split; [exact Hop|].
  exact (only_change_password_rewrites_a_hash
           (V:=test_validators) (C:=test_credentials) _ op test_store Hop).
Defined.
(** ** A decided form stays decided *)

Lemma approve_forms_table {V : Validators} (e : env) (id : jsval) (body : row) (s : db) :
  table "responsive_forms" (ResponsiveForms.approve e id body s).2
  = table "responsive_forms" s
  \/ exists sets,
       table "responsive_forms" (ResponsiveForms.approve e id body s).2
       = List.map (fun f => if col_eq "responsive_forms" "id" id f
                               && col_is "status" (JStr "pending") f
                            then assign "responsive_forms" sets f else f)
           (table "responsive_forms" s).
Proof.
  unfold ResponsiveForms.approve. cbv zeta.
  destruct (negb (is_empty (failed _))); [by left|].
  match goal with
  | |- context [sql_update "responsive_forms" ?sets ?cond s] =>
      pose proof (sql_update_state "responsive_forms" sets cond s) as Hstate;
      destruct (sql_update "responsive_forms" sets cond s) as [[changes|err] s1] eqn:Hrun;
      assert (Hforms : table "responsive_forms" s1 = table "responsive_forms" s
                       \/ table "responsive_forms" s1
                          = List.map (fun f => if cond f
                                               then assign "responsive_forms" sets f else f)
                              (table "responsive_forms" s))
        by (cbn [snd] in Hstate; destruct Hstate as [->| ->];
            [by left|right; by rewrite table_with_table]);
      assert (Hgoal : forall s', table "responsive_forms" s' = table "responsive_forms" s1 ->
                table "responsive_forms" s' = table "responsive_forms" s
                \/ exists sets',
                     table "responsive_forms" s'
                     = List.map (fun f => if cond f
                                          then assign "responsive_forms" sets' f else f)
                         (table "responsive_forms" s))
        by (intros s' ->; destruct Hforms as [->| ->]; [by left|right; by eexists])
  end; clear Hstate Hforms; [|by apply Hgoal].
  destruct (changes =? 0); [by apply Hgoal|].
  destruct (truthy (prop body "approved")); [|by apply Hgoal].
  match goal with
  | |- context [sql_get ?t ?cs ?cond s1] =>
      pose proof (sql_get_state t cs cond s1) as Hget;
      destruct (sql_get t cs cond s1) as [r s2]
  end.
  cbn [snd] in Hget. subst s2.
  destruct r as [[form|]|err]; try by apply Hgoal.
  match goal with
  | |- context [sql_update "assets" ?sets ?cond (next s1)] =>
      pose proof (sql_update_state "assets" sets cond (next s1)) as Hstate;
      destruct (sql_update "assets" sets cond (next s1)) as [r s3]
  end.
  cbn [snd] in Hstate.
  assert (table "responsive_forms" s3 = table "responsive_forms" s1)
    by (destruct Hstate as [->| ->]; by rewrite ?table_with_table_ne).
  destruct r; by apply Hgoal.
Qed.

(** X5. A transfer form that has been decided stays as decided: no endpoint
    changes the status of a form whose status is not 'pending' (the approve
    endpoint selects pending forms only, and nothing else writes the
    status). *)
Theorem decided_forms_keep_their_status {V : Validators} {C : Credentials}
    (e : env) (op : operation) (s : db) (n : nat) (f : row) :
  table "responsive_forms" s !! n = Some f ->
  prop f "status" <> JStr "pending" ->
  exists f', table "responsive_forms" (run e op s).2 !! n = Some f'
             /\ prop f' "status" = prop f "status".
Proof.
  intros Hf Hdecided.
  assert (Hframe : ("responsive_forms", "status") ∉ writes op ->
            exists f', table "responsive_forms" (run e op s).2 !! n = Some f'
                       /\ prop f' "status" = prop f "status").
  { intros Hw. by apply (keeps_column_row _ _ _ _ n (run_frame e op s _ _ Hw)). }
  destruct op as [b|b|b|b|i b|i b|i b|b|i b|i|b|b|i b|b|i b|i|i b];
    try (apply Hframe; apply (bool_decide_unpack _); vm_compute; constructor).
  simpl run. destruct (approve_forms_table e i b s) as [->|[sets ->]].
  - by exists f.
  - change (List.map ?g ?l) with (g <$> l). rewrite list_lookup_fmap, Hf. simpl.
    destruct (col_eq _ _ _ _ && _) eqn:Hcond; [|by exists f].
    apply reject_where in Hcond as [_ Hp]. congruence.
Qed.

(** Approving the form of the example store once it has been rejected. *)
Lemma decided_forms_keep_their_status_witness :
  let op := FormApprove (JNum (Int 1)) {[ "approved" := JBool true ]} in
  table "responsive_forms" decided_store !! 0%nat = Some rejected_form
  /\ prop rejected_form "status" <> JStr "pending"
  /\ exists f', table "responsive_forms"
                  (run (V:=test_validators) (C:=test_credentials)
                     (test_env "2024-02-02 12:00:00") op decided_store).2 !! 0%nat
                = Some f'
                /\ prop f' "status" = prop rejected_form "status".
Proof.
  intros op.
  assert (Hf : table "responsive_forms" decided_store !! 0%nat = Some rejected_form)
    by (unfold decided_store; by rewrite table_with_table).
  assert (Hdecided : prop rejected_form "status" <> JStr "pending")
    by (unfold rejected_form, prop; by rewrite lookup_insert_eq).
  split; [exact Hf|]. split; [exact Hdecided|].
  exact (decided_forms_keep_their_status (V:=test_validators) (C:=test_credentials)
           _ op decided_store 0 rejected_form Hf Hdecided).
Defined.
(** ** Refusals change nothing *)

Lemma sql_get_tables (t' : string) (columns : option (list string)) (cond : row -> bool)
    (s s' : db) (r : result (option row)) (t : string) :
  sql_get t' columns cond s = (r, s') -> table t s' = table t s.
Proof.
  intros H. pose proof (sql_get_state t' columns cond s) as Hs. rewrite H in Hs.
  simpl in Hs. by subst.
Qed.

Lemma sql_update_none (t' : string) (sets : list (string * jsval)) (cond : row -> bool)
    (s s' : db) (t : string) :
  sql_update t' sets cond s = (Ok 0, s') -> table t s' = table t s.
Proof.
  intros [Hchanges ->]%sql_update_ok.
  symmetry in Hchanges. apply no_row_selected in Hchanges.
  rewrite (no_row_changed _ _ _ Hchanges).
  destruct (decide (t = t')) as [->|Hne];
    by rewrite ?table_with_table, ?table_with_table_ne.
Qed.

Ltac refused t :=
  repeat match goal with
    | H : (_ =? 0) = true |- _ => apply Z.eqb_eq in H; subst
    | H : sql_get _ _ _ ?s = (_, ?s') |- _ =>
        assert (table t s' = table t s) by apply (sql_get_tables _ _ _ _ _ _ t H); clear H
    | H : sql_update _ _ _ ?s = (Ok 0, ?s') |- _ =>
        assert (table t s' = table t s) by apply (sql_update_none _ _ _ _ _ t H); clear H
    end;
  congruence.

Ltac refusal t := repeat case_match; simplify_eq/=; try lia; try done; refused t.

(** X6. A request that is refused changes nothing: whenever an endpoint
    answers with a status from 400 to 499 (validation errors, wrong
    credentials, missing rights, no such row, row already processed), every
    table is as it was. *)
Theorem refused_requests_change_nothing {V : Validators} {C : Credentials}
    (e : env) (op : operation) (s : db) (r : response) (t : string) :
  (run e op s).1 = Sent r -> 400 <= status r < 500 ->
  table t (run e op s).2 = table t s.
Proof.
  destruct (run e op s) as [o s'] eqn:Hrun. simpl. intros -> Hstatus.
  destruct op; simpl run in Hrun.
  - unfold Auth.login, bad_request, message, ok in Hrun. refusal t.
  - unfold Auth.register, bad_request, message, created in Hrun. refusal t.
  - unfold Auth.change_password, bad_request, message, ok in Hrun. refusal t.
  - unfold Incidents.create, bad_request, message, created in Hrun. refusal t.
  - unfold Incidents.update, bad_request, message, ok in Hrun. refusal t.
  - unfold Incidents.assign_to, bad_request, message, ok in Hrun. refusal t.
  - unfold Incidents.resolve, bad_request, message, ok in Hrun. refusal t.
  - unfold Assets.create, bad_request, message, created in Hrun. refusal t.
  - unfold Assets.update, bad_request, message, ok in Hrun. refusal t.
  - unfold Assets.soft_delete, bad_request, message, ok in Hrun. refusal t.
  - unfold Assets.create_category, bad_request, message, created in Hrun. refusal t.
  - unfold ResponsiveForms.create, bad_request, message, created in Hrun. refusal t.
  - unfold ResponsiveForms.approve, bad_request, message, ok in Hrun. refusal t.
  - unfold Maintenances.create, bad_request, message, created in Hrun. refusal t.
  - unfold Maintenances.update, bad_request, message, ok in Hrun. refusal t.
  - unfold Maintenances.start, bad_request, message, ok in Hrun. refusal t.
  - unfold Maintenances.complete, bad_request, message, ok in Hrun. refusal t.
Qed.

(** A login with a wrong password on the example store. *)
Lemma refused_requests_change_nothing_witness :
  let e := test_env "2024-02-02 12:00:00" in
  let op := Login {[ "username" := JStr "ana"; "password" := JStr "wrong" ]} in
  let r := {| status := 401; body := [("message", JV (JStr "Credenciales inválidas"))] |} in
  (run (V:=test_validators) (C:=test_credentials) e op test_store).1 = Sent r
  /\ 400 <= status r < 500
  /\ table "users" (run (V:=test_validators) (C:=test_credentials) e op test_store).2
     = table "users" test_store.
Proof.
  intros e op r.
  assert (Hr : (run (V:=test_validators) (C:=test_credentials) e op test_store).1 = Sent r)
    by (vm_compute; reflexivity).
  assert (Hstatus : 400 <= status r < 500) by (simpl; lia).
  split; [exact Hr|]. split; [exact Hstatus|].
  exact (refused_requests_change_nothing (V:=test_validators) (C:=test_credentials)
           e op test_store r "users" Hr Hstatus).
Defined.

(** ** Approving a transfer form *)

Lemma find_map_same {A : Type} (p : A -> bool) (g : A -> A) (l : list A) :
  (forall x, p (g x) = p x) -> List.find p (List.map g l) = g <$> List.find p l.
Proof.
  intros Hp. induction l as [|x l IH]; simpl; [done|].
  rewrite Hp. by destruct (p x).
Qed.

Lemma col_eq_assign_other (t c : string) (v : jsval) (sets : list (string * jsval))
    (r : row) :
  c ∉ sets.*1 -> col_eq t c v (assign t sets r) = col_eq t c v r.
Proof. intros H. unfold col_eq. by rewrite prop_assign_other. Qed.

(** The columns a SELECT names carry the values of the row. *)
Lemma prop_selected (cs : list string) (r : row) (c : string) :
  c ∈ cs -> prop (list_to_map (List.map (fun k => (k, prop r k)) cs) : row) c = prop r c.
Proof.
  induction cs as [|k cs IH]; [by intros ?%elem_of_nil|].
  intros Hin. unfold prop at 1. cbn [List.map list_to_map foldr fst snd uncurry].
  destruct (decide (k = c)) as [->|Hne].
  - by rewrite lookup_insert_eq.
  - rewrite lookup_insert_ne by done. apply elem_of_cons in Hin as [->|Hin]; [done|].
    by apply IH.
Qed.

(** An approval of a pending form, as far as the statement on the asset:
    the form is approved, and the asset and the new responsible are read
    back from it. *)
Lemma approval_reaches_the_asset {V : Validators} (e : env) (id : jsval) (body : row)
    (s : db) (f : row) :
  isBoolean (prop body "approved") = true ->
  truthy (prop body "approved") = true ->
  answers s -> answers (next s) ->
  first_named "responsive_forms" id s = Some f ->
  prop f "status" = JStr "pending" ->
  let sets := [ ("status", JStr "approved"); ("approved_by", prop (req_user e) "id");
                ("observations", prop body "comments"); ("updated_at", JStr (now e)) ] in
  let s2 :=
    next (with_table "responsive_forms"
            (List.map (fun g => if col_eq "responsive_forms" "id" id g
                                   && col_is "status" (JStr "pending") g
                                then assign "responsive_forms" sets g else g)
               (table "responsive_forms" s))
            (next s)) in
  ResponsiveForms.approve e id body s
  = let '(r, s3) :=
      sql_update "assets"
        [ ("responsible_user_id", prop f "new_responsible_id");
          ("updated_at", JStr (now e)) ]
        (col_eq "assets" "id" (prop f "asset_id")) s2 in
    match r with
    | Err _ => (message 500 "Error al actualizar responsable del activo", s3)
    | Ok _ => (ok [ ("message", JV (JStr "Formato responsivo aprobado exitosamente")) ], s3)
    end.
Proof.
  intros Hvalid Htruthy Hs Hs' Hfind Hpending sets s2.
  unfold ResponsiveForms.approve. rewrite Hvalid, Htruthy. cbv zeta. simpl negb. cbv iota.
  set (cond := fun g : row =>
         col_eq "responsive_forms" "id" id g && col_is "status" (JStr "pending") g).
  fold sets.
  rewrite (sql_update_answers "responsive_forms" sets cond s Hs eq_refl).
  unfold first_named in Hfind.
  pose proof (find_some _ _ Hfind) as [Hin Hid].
  assert (Hcond : cond f = true).
  { unfold cond. rewrite Hid. by apply col_is_text. }
  assert (Hsome : Z.of_nat (length (List.filter cond (table "responsive_forms" s))) <> 0).
  { apply some_row_selected. exists f. split; [by apply list_elem_of_In|done]. }
  apply Z.eqb_neq in Hsome as ->.
  set (g := fun r : row => if cond r then assign "responsive_forms" sets r else r).
  assert (Hfresh : "id" ∉ sets.*1)
    by (apply (bool_decide_unpack _); vm_compute; constructor).
  rewrite sql_get_answers by done. rewrite table_with_table.
  rewrite (find_map_same _ g).
  2:{ intros r. unfold g. destruct (cond r); [|done]. by apply col_eq_assign_other. }
  rewrite Hfind. cbn [fmap option_fmap option_map].
  rewrite !prop_selected by (apply (bool_decide_unpack _); vm_compute; constructor).
  assert (Hgf : g f = assign "responsive_forms" sets f) by (unfold g; by rewrite Hcond).
  rewrite Hgf.
  rewrite !(prop_assign_other "responsive_forms" sets f)
    by (apply (bool_decide_unpack _); vm_compute; constructor).
  subst s2 g cond. cbv beta.
  by destruct (sql_update "assets" _ _ _) as [[changes|err] s3].
Qed.
Lemma sql_update_fault (t : string) (sets : list (string * jsval)) (cond : row -> bool)
    (s : db) :
  ~ answers s -> sql_update t sets cond s = (Err "SQLITE_ERROR", next s).
Proof. intros Hs. unfold sql_update. by apply attempt_fault. Qed.

(** Reads a table through the statements that came after. *)
Ltac read_tables :=
  repeat first [ rewrite table_with_table
               | rewrite table_with_table_ne by done
               | progress change (table ?t (next ?x)) with (table t x) ].

(** The forms after the UPDATE of an approval. *)
Lemma approved_forms (e : env) (id : jsval) (body : row) (rows : list row) :
  let sets := [ ("status", JStr "approved"); ("approved_by", prop (req_user e) "id");
                ("observations", prop body "comments"); ("updated_at", JStr (now e)) ] in
  Forall2 (fun g g' => (pending id g -> prop g' "status" = JStr "approved")
                       /\ (~ pending id g -> g' = g))
    rows
    (List.map (fun g => if col_eq "responsive_forms" "id" id g
                           && col_is "status" (JStr "pending") g
                        then assign "responsive_forms" sets g else g) rows).
Proof.
  intros sets. apply Forall2_map_self. intros g _.
  destruct (col_eq _ _ _ _ && _) eqn:Hg.
  - split; [intros _|intros Hnot; exfalso; apply Hnot; by apply reject_where].
    rewrite (prop_assign_set _ _ _ "status" (JStr "approved")); [done| |by left].
    apply (bool_decide_unpack (NoDup _)); vm_compute; constructor.
  - split; [intros Hp%reject_where; congruence|done].
Qed.

(** What an approval of a pending form does when the three statements are
    answered. *)
Lemma approval_effect {V : Validators} (e : env) (id : jsval) (body : row)
    (s : db) (f : row) :
  isBoolean (prop body "approved") = true ->
  truthy (prop body "approved") = true ->
  answers_for 3 s ->
  first_named "responsive_forms" id s = Some f ->
  prop f "status" = JStr "pending" ->
  let out := ResponsiveForms.approve e id body s in
  out.1 = ok [ ("message", JV (JStr "Formato responsivo aprobado exitosamente")) ]
  /\ Forall2 (fun a a' =>
                (named "assets" (prop f "asset_id") a ->
                 prop a' "responsible_user_id"
                 = coerce Numeric (prop f "new_responsible_id"))
                /\ (~ named "assets" (prop f "asset_id") a -> a' = a))
       (table "assets" s) (table "assets" out.2)
  /\ Forall2 (fun g g' => (pending id g -> prop g' "status" = JStr "approved")
                          /\ (~ pending id g -> g' = g))
       (table "responsive_forms" s) (table "responsive_forms" out.2).
Proof.
  intros Hvalid Htruthy (Hs1 & Hs2 & Hs3 & _) Hfind Hpending out. subst out.
  rewrite (approval_reaches_the_asset e id body s f) by done. cbv zeta.
  rewrite sql_update_answers; [|exact Hs3|reflexivity].
  cbv beta iota. cbn [fst snd]. split; [done|].
  read_tables.
  split; [|by apply approved_forms].
  apply Forall2_map_self. intros a _. unfold named.
  destruct (col_eq "assets" "id" (prop f "asset_id") a); [|by split].
  split; [intros _|done].
  by rewrite (prop_assign_set _ _ _ "responsible_user_id" (prop f "new_responsible_id"));
    [| apply (bool_decide_unpack (NoDup _)); vm_compute; constructor | left].
Qed.

(** X7. Approving a pending transfer form, when the store answers: the
    response is the success message, the form is approved, and every asset
    the form names gets the form's new responsible; the other assets are
    left alone. *)
Theorem approval_hands_the_asset_over {V : Validators} (e : env) (id : jsval) (body : row)
    (s : db) (f : row) :
  isBoolean (prop body "approved") = true ->
  truthy (prop body "approved") = true ->
  answers_for 3 s ->
  first_named "responsive_forms" id s = Some f ->
  prop f "status" = JStr "pending" ->
  let out := ResponsiveForms.approve e id body s in
  out.1 = ok [ ("message", JV (JStr "Formato responsivo aprobado exitosamente")) ]
  /\ Forall2 (fun a a' =>
                (named "assets" (prop f "asset_id") a ->
                 prop a' "responsible_user_id"
                 = coerce Numeric (prop f "new_responsible_id"))
                /\ (~ named "assets" (prop f "asset_id") a -> a' = a))
       (table "assets" s) (table "assets" out.2)
  /\ Forall2 (fun g g' => (pending id g -> prop g' "status" = JStr "approved")
                          /\ (~ pending id g -> g' = g))
       (table "responsive_forms" s) (table "responsive_forms" out.2).
Proof. apply approval_effect. Qed.

(** X9. The approve endpoint reads [approved] by its truthiness. The
    strings "false" and "0", which the boolean validator of the route lets
    through, are not empty: a request with one of them approves the form and
    hands the asset over, as [true] does. *)
Theorem the_string_false_approves {V : Validators} (e : env) (id : jsval) (body : row)
    (s : db) (f : row) :
  prop body "approved" = JStr "false" \/ prop body "approved" = JStr "0" ->
  isBoolean (prop body "approved") = true ->
  answers_for 3 s ->
  first_named "responsive_forms" id s = Some f ->
  prop f "status" = JStr "pending" ->
  let out := ResponsiveForms.approve e id body s in
  out.1 = ok [ ("message", JV (JStr "Formato responsivo aprobado exitosamente")) ]
  /\ Forall2 (fun a a' =>
                named "assets" (prop f "asset_id") a ->
                prop a' "responsible_user_id"
                = coerce Numeric (prop f "new_responsible_id"))
       (table "assets" s) (table "assets" out.2)
  /\ Forall2 (fun g g' => pending id g -> prop g' "status" = JStr "approved")
       (table "responsive_forms" s) (table "responsive_forms" out.2).
Proof.
  intros Hstring Hvalid Hs Hfind Hpending out.
  assert (Htruthy : truthy (prop body "approved") = true)
    by (by destruct Hstring as [-> | ->]).
  destruct (approval_effect e id body s f Hvalid Htruthy Hs Hfind Hpending)
    as (Hok & Hassets & Hforms).
  split; [done|]. split.
  - eapply Forall2_impl; [exact Hassets|]. by intros a a' [H _].
  - eapply Forall2_impl; [exact Hforms|]. by intros g g' [H _].
Qed.

(** With no pending form under that id, an approval neither succeeds nor
    touches an asset. *)
Lemma approve_nothing_pending {V : Validators} (e : env) (id : jsval) (body : row) (s : db) :
  Forall (fun g => col_eq "responsive_forms" "id" id g
                   && col_is "status" (JStr "pending") g = false)
    (table "responsive_forms" s) ->
  (exists r, (ResponsiveForms.approve e id body s).1 = Sent r /\ status r <> 200)
  /\ table "assets" (ResponsiveForms.approve e id body s).2 = table "assets" s.
Proof.
  intros Hnone. unfold ResponsiveForms.approve. cbv zeta.
  destruct (negb (is_empty (failed _))); [split; [eexists; by split|done]|].
  match goal with
  | |- context [sql_update "responsive_forms" ?sets ?cond s] =>
      destruct (sql_update "responsive_forms" sets cond s) as [[changes|err] s1] eqn:Hrun
  end.
  - apply sql_update_ok in Hrun as [-> ->].
    apply no_row_selected in Hnone. rewrite Hnone. simpl Z.eqb. cbv iota. cbn [fst snd].
    split; [eexists; by split|]. by read_tables.
  - apply sql_update_err in Hrun as ->. cbn [fst snd].
    split; [eexists; by split|]. by read_tables.
Qed.

Lemma approved_not_pending (e : env) (id : jsval) (body : row) (rows : list row) :
  let sets := [ ("status", JStr "approved"); ("approved_by", prop (req_user e) "id");
                ("observations", prop body "comments"); ("updated_at", JStr (now e)) ] in
  Forall (fun g => col_eq "responsive_forms" "id" id g
                   && col_is "status" (JStr "pending") g = false)
    (List.map (fun g => if col_eq "responsive_forms" "id" id g
                           && col_is "status" (JStr "pending") g
                        then assign "responsive_forms" sets g else g) rows).
Proof.
  intros sets. apply Forall_forall. intros g' Hin.
  apply list_elem_of_In, in_map_iff in Hin as (g & <- & _).
  destruct (col_eq _ _ _ g && _) eqn:Hg; [|done].
  apply andb_false_iff. right. apply not_true_iff_false. intros Hp%col_is_text.
  rewrite (prop_assign_set _ _ _ "status" (JStr "approved")) in Hp; [done| |by left].
  apply (bool_decide_unpack (NoDup _)); vm_compute; constructor.
Qed.

(** X8. An approval is not atomic. When the form has been approved and the
    statement on the asset then fails, the response is the 500 of that
    statement, the form stays approved and no asset has changed: the
    transfer is recorded as approved without having taken place. Approving
    the form again does not repair it: the form is no longer pending, so the
    second request is not answered with 200 and changes no asset either. *)
Theorem failed_handover_leaves_the_form_approved {V : Validators} (e : env) (id : jsval)
    (body : row) (s : db) (f : row) :
  isBoolean (prop body "approved") = true ->
  truthy (prop body "approved") = true ->
  answers_for 2 s -> ~ answers (next (next s)) ->
  first_named "responsive_forms" id s = Some f ->
  prop f "status" = JStr "pending" ->
  let out := ResponsiveForms.approve e id body s in
  out.1 = message 500 "Error al actualizar responsable del activo"
  /\ table "assets" out.2 = table "assets" s
  /\ Forall2 (fun g g' => (pending id g -> prop g' "status" = JStr "approved")
                          /\ (~ pending id g -> g' = g))
       (table "responsive_forms" s) (table "responsive_forms" out.2)
  /\ (exists r, (ResponsiveForms.approve e id body out.2).1 = Sent r /\ status r <> 200)
  /\ table "assets" (ResponsiveForms.approve e id body out.2).2 = table "assets" s.
Proof.
  intros Hvalid Htruthy (Hs1 & Hs2 & _) Hs3 Hfind Hpending out.
  assert (Hout : out
                 = (message 500 "Error al actualizar responsable del activo",
                    next (next (with_table "responsive_forms"
                      (List.map (fun g => if col_eq "responsive_forms" "id" id g
                                             && col_is "status" (JStr "pending") g
                                          then assign "responsive_forms"
                                                 [ ("status", JStr "approved");
                                                   ("approved_by", prop (req_user e) "id");
                                                   ("observations", prop body "comments");
                                                   ("updated_at", JStr (now e)) ] g
                                          else g)
                         (table "responsive_forms" s))
                      (next s))))).
  { subst out. rewrite (approval_reaches_the_asset e id body s f) by done. cbv zeta.
    by rewrite sql_update_fault by exact Hs3. }
  rewrite Hout. cbn [fst snd]. split; [done|]. read_tables.
  split; [done|]. split; [by apply approved_forms|].
  match goal with
  | |- context [ResponsiveForms.approve e id body ?s'] =>
      destruct (approve_nothing_pending e id body s') as [Hrefused Hassets]
  end.
  { read_tables. apply approved_not_pending. }
  split; [done|]. rewrite Hassets. by read_tables.
Qed.
(** Approving the pending form of the example store. *)
Lemma approval_hands_the_asset_over_witness :
  let e := test_env "2024-02-02 12:00:00" in
  let body : row := {[ "approved" := JBool true ]} in
  let out := ResponsiveForms.approve (V:=test_validators) e (JNum (Int 1)) body test_store in
  out.1 = ok [ ("message", JV (JStr "Formato responsivo aprobado exitosamente")) ]
  /\ Forall2 (fun a a' =>
                (named "assets" (prop test_form "asset_id") a ->
                 prop a' "responsible_user_id"
                 = coerce Numeric (prop test_form "new_responsible_id"))
                /\ (~ named "assets" (prop test_form "asset_id") a -> a' = a))
       (table "assets" test_store) (table "assets" out.2)
  /\ Forall2 (fun g g' => (pending (JNum (Int 1)) g -> prop g' "status" = JStr "approved")
                          /\ (~ pending (JNum (Int 1)) g -> g' = g))
       (table "responsive_forms" test_store) (table "responsive_forms" out.2).
Proof.
  intros e body.
  apply (approval_hands_the_asset_over (V:=test_validators) e (JNum (Int 1)) body
           test_store test_form).
  - reflexivity.
  - reflexivity.
  - repeat split; vm_compute; discriminate.
  - vm_cast_no_check (eq_refl (Some test_form)).
  - vm_cast_no_check (eq_refl (JStr "pending")).
Defined.

(** The pending form of the example store, with "false" for [approved]. *)
Lemma the_string_false_approves_witness :
  let e := test_env "2024-02-02 12:00:00" in
  let body : row := {[ "approved" := JStr "false" ]} in
  let out := ResponsiveForms.approve (V:=test_validators) e (JNum (Int 1)) body test_store in
  out.1 = ok [ ("message", JV (JStr "Formato responsivo aprobado exitosamente")) ]
  /\ Forall2 (fun a a' =>
                named "assets" (prop test_form "asset_id") a ->
                prop a' "responsible_user_id"
                = coerce Numeric (prop test_form "new_responsible_id"))
       (table "assets" test_store) (table "assets" out.2)
  /\ Forall2 (fun g g' => pending (JNum (Int 1)) g -> prop g' "status" = JStr "approved")
       (table "responsive_forms" test_store) (table "responsive_forms" out.2).
Proof.
  intros e body.
  apply (the_string_false_approves (V:=test_validators) e (JNum (Int 1)) body
           test_store test_form).
  - by left.
  - reflexivity.
  - repeat split; vm_compute; discriminate.
  - vm_cast_no_check (eq_refl (Some test_form)).
  - vm_cast_no_check (eq_refl (JStr "pending")).
Defined.

(** The same approval when the statement on the asset fails. *)
Lemma failed_handover_leaves_the_form_approved_witness :
  let e := test_env "2024-02-02 12:00:00" in
  let body : row := {[ "approved" := JBool true ]} in
  let out := ResponsiveForms.approve (V:=test_validators) e (JNum (Int 1)) body
               failing_third in
  out.1 = message 500 "Error al actualizar responsable del activo"
  /\ table "assets" out.2 = table "assets" failing_third
  /\ Forall2 (fun g g' => (pending (JNum (Int 1)) g -> prop g' "status" = JStr "approved")
                          /\ (~ pending (JNum (Int 1)) g -> g' = g))
       (table "responsive_forms" failing_third) (table "responsive_forms" out.2)
  /\ (exists r, (ResponsiveForms.approve (V:=test_validators) e (JNum (Int 1)) body
                   out.2).1 = Sent r /\ status r <> 200)
  /\ table "assets"
       (ResponsiveForms.approve (V:=test_validators) e (JNum (Int 1)) body out.2).2
     = table "assets" failing_third.
Proof.
  intros e body.
  apply (failed_handover_leaves_the_form_approved (V:=test_validators) e (JNum (Int 1))
           body failing_third test_form).
  - reflexivity.
  - reflexivity.
  - repeat split; vm_compute; discriminate.
  - vm_compute. intros H. by apply H.
  - vm_cast_no_check (eq_refl (Some test_form)).
  - vm_cast_no_check (eq_refl (JStr "pending")).
Defined.

(** ** Creating rows *)

Lemma sql_insert_ok (t now : string) (values : list (string * jsval)) (s s' : db) (id : Z) :
  sql_insert t now values s = (Ok id, s') ->
  id = next_id (table t s)
  /\ violates t (<["id" := JNum (Int id)]> (assign t values (blank t now))) (table t s) = false
  /\ s' = with_table t
            (table t s ++ [<["id" := JNum (Int id)]> (assign t values (blank t now))])
            (next s).
Proof.
  unfold sql_insert, attempt.
  destruct (head (faults s)) as [[]|]; [done|..];
    change (table t (next s)) with (table t s);
    destruct (violates _ _ _) eqn:Hv; intros; simplify_eq; by rewrite ?Hv.
Qed.

Lemma sql_insert_err (t now : string) (values : list (string * jsval)) (s s' : db)
    (err : string) :
  sql_insert t now values s = (Err err, s') -> s' = next s.
Proof.
  unfold sql_insert, attempt.
  destruct (head (faults s)) as [[]|]; [by intros; simplify_eq|..];
    destruct (violates _ _ _); intros; by simplify_eq.
Qed.

(** The value an INSERT gives a column it lists. *)
Lemma prop_inserted (t now : string) (values : list (string * jsval)) (id : Z)
    (c : string) (v : jsval) :
  c <> "id" -> NoDup values.*1 -> (c, v) ∈ values ->
  prop (<["id" := JNum (Int id)]> (assign t values (blank t now))) c
  = coerce (affinity_of t c) v.
Proof.
  intros Hc Hnodup Hin. unfold prop. rewrite lookup_insert_ne by done.
  by rewrite (assign_set t values _ c v).
Qed.

Lemma prop_insert_eq (r : row) (k : string) (v : jsval) : prop (<[k := v]> r) k = v.
Proof. unfold prop. by rewrite lookup_insert_eq. Qed.

Ltac listed := repeat first [ by left | right ].

Ltac distinct_columns := apply (bool_decide_unpack (NoDup _)); vm_compute; constructor.

(** X10. A transfer form that is created (201) names an asset that exists,
    and records as previous responsible the responsible the asset has at
    that moment; it is appended to the forms as 'pending' under the generated
    code, and no asset changes. *)
Theorem a_new_form_records_the_current_responsible {V : Validators} (e : env) (body : row)
    (s : db) (r : response) :
  (ResponsiveForms.create e body s).1 = Sent r -> status r = 201 ->
  exists a f,
    first_named "assets" (prop body "asset_id") s = Some a
    /\ table "responsive_forms" (ResponsiveForms.create e body s).2
       = table "responsive_forms" s ++ [f]
    /\ prop f "previous_responsible_id" = coerce Numeric (prop a "responsible_user_id")
    /\ prop f "new_responsible_id" = coerce Numeric (prop body "new_responsible_id")
    /\ prop f "status" = JStr "pending"
    /\ prop f "form_code" = JStr (generateFormCode (today e) (random e))
    /\ table "assets" (ResponsiveForms.create e body s).2 = table "assets" s.
Proof.
  unfold ResponsiveForms.create, bad_request, message, created. cbv zeta.
  destruct (negb (is_empty (failed _))); [by intros; simplify_eq/=|].
  destruct (sql_get "assets" _ _ s) as [got s1] eqn:Hget.
  pose proof (sql_get_state "assets" (Some ["responsible_user_id"])
                (col_eq "assets" "id" (prop body "asset_id")) s) as Hs1.
  rewrite Hget in Hs1. cbn [snd] in Hs1. subst s1.
  destruct got as [[asset|]|err]; try by intros; simplify_eq/=.
  apply sql_get_result in Hget.
  destruct (List.find _ (table "assets" s)) as [a|] eqn:Hfind; [|done].
  cbn [fmap option_fmap option_map] in Hget. injection Hget as ->.
  rewrite ?prop_selected by (by left). rewrite ?prop_insert_eq.
  match goal with
  | |- context [sql_insert "responsive_forms" ?n ?values (next s)] =>
      destruct (sql_insert "responsive_forms" n values (next s)) as [[lastID|err] s2]
        eqn:Hins; [|by intros; simplify_eq/=];
      apply sql_insert_ok in Hins as (_ & _ & ->);
      set (f := <["id" := JNum (Int lastID)]>
                  (assign "responsive_forms" values (blank "responsive_forms" n)));
      assert (Hprev : prop f "previous_responsible_id"
                      = coerce Numeric (prop a "responsible_user_id"))
        by (apply prop_inserted; [done|distinct_columns|listed]);
      assert (Hnew : prop f "new_responsible_id"
                     = coerce Numeric (prop body "new_responsible_id"))
        by (apply prop_inserted; [done|distinct_columns|listed]);
      assert (Hstatus : prop f "status" = JStr "pending")
        by (transitivity (coerce (affinity_of "responsive_forms" "status") (JStr "pending"));
            [apply prop_inserted; [done|distinct_columns|listed]|reflexivity]);
      assert (Hcode : prop f "form_code" = JStr (generateFormCode (today e) (random e)))
        by (transitivity (coerce (affinity_of "responsive_forms" "form_code")
                            (JStr (generateFormCode (today e) (random e))));
            [apply prop_inserted; [done|distinct_columns|listed]|reflexivity])
  end.
  intros _ _. exists a, f. cbn [snd]. read_tables. unfold first_named.
  split; [exact Hfind|]. split; [reflexivity|]. split; [exact Hprev|].
  split; [exact Hnew|]. split; [exact Hstatus|]. split; [exact Hcode|reflexivity].
Qed.
(** Creating a form for the asset of the example store. *)
Lemma a_new_form_records_the_current_responsible_witness :
  let e := test_env "2024-02-02 12:00:00" in
  let body : row := {[ "asset_id" := JNum (Int 3); "new_responsible_id" := JNum (Int 7);
                       "transfer_date" := JStr "2024-03-01"; "reason" := JStr "Cambio" ]} in
  exists a f,
    first_named "assets" (prop body "asset_id") test_store = Some a
    /\ table "responsive_forms" (ResponsiveForms.create (V:=test_validators) e body
                                   test_store).2
       = table "responsive_forms" test_store ++ [f]
    /\ prop f "previous_responsible_id" = coerce Numeric (prop a "responsible_user_id")
    /\ prop f "new_responsible_id" = coerce Numeric (prop body "new_responsible_id")
    /\ prop f "status" = JStr "pending"
    /\ prop f "form_code" = JStr (generateFormCode (today e) (random e))
    /\ table "assets" (ResponsiveForms.create (V:=test_validators) e body test_store).2
       = table "assets" test_store.
Proof.
  intros e body.
  apply (a_new_form_records_the_current_responsible (V:=test_validators) e body test_store
           {| status := 201;
              body := [ ("message", JV (JStr "Formato responsivo creado exitosamente"));
                        ("form", JO [ ("id", JNum (Int 2));
                                      ("form_code", JStr "FR-240202-007");
                                      ("asset_id", JNum (Int 3));
                                      ("new_responsible_id", JNum (Int 7));
                                      ("transfer_date", JStr "2024-03-01");
                                      ("status", JStr "pending") ]) ] |}).
  - vm_compute. reflexivity.
  - reflexivity.
Defined.

(** ** Codes that are taken *)

(** A new row that repeats a value of a UNIQUE text column breaks the
    constraint. *)
Lemma taken_violates (t now : string) (values : list (string * jsval)) (rows : list row)
    (k : column) (code : string) (r' : row) (id : Z) :
  In k (schema t) -> col_unique k = true -> affinity_of t (col_name k) = Text ->
  col_name k <> "id" -> NoDup values.*1 -> (col_name k, JStr code) ∈ values ->
  r' ∈ rows -> prop r' (col_name k) = JStr code ->
  violates t (<["id" := JNum (Int id)]> (assign t values (blank t now))) rows = true.
Proof.
  intros Hk Hunique Htext Hname Hnodup Hin Hr' Hcode.
  unfold violates. apply existsb_exists. exists k. split; [done|].
  rewrite Hunique. apply orb_true_iff. right. simpl.
  apply existsb_exists. exists r'. split; [by apply list_elem_of_In|].
  rewrite (prop_inserted _ _ _ _ _ (JStr code)) by done.
  rewrite Htext, Hcode. simpl. apply String.eqb_refl.
Qed.

(** An INSERT whose value for a UNIQUE text column is already in the table
    fails, with no effect. *)
Lemma sql_insert_taken (t now : string) (values : list (string * jsval)) (s : db)
    (k : column) (code : string) (r' : row) :
  In k (schema t) -> col_unique k = true -> affinity_of t (col_name k) = Text ->
  col_name k <> "id" -> NoDup values.*1 -> (col_name k, JStr code) ∈ values ->
  r' ∈ table t s -> prop r' (col_name k) = JStr code ->
  exists err, sql_insert t now values s = (Err err, next s).
Proof.
  intros Hk Hunique Htext Hname Hnodup Hin Hr' Hcode.
  unfold sql_insert, attempt. destruct (head (faults s)) as [[]|]; [by eexists|..];
    change (table t (next s)) with (table t s);
    rewrite (taken_violates t now values (table t s) k code r') by done; by eexists.
Qed.

Ltac in_schema := vm_compute; repeat first [ left; reflexivity | right ].

(** X11. The codes are drawn from a thousand per day and are UNIQUE. When
    the code generated for a new incident, maintenance or transfer form is
    the code of an existing row, the create endpoint adds no row and does not
    answer 201; for incidents and maintenances that pass validation the
    response is the 500 of the INSERT. *)
Theorem a_taken_code_refuses_the_row {V : Validators} (e : env) (body : row) (s : db) :
  ((exists i, i ∈ table "incidents" s
              /\ prop i "incident_code"
                 = JStr (generateIncidentCode (today e) (random e))) ->
   table "incidents" (Incidents.create e body s).2 = table "incidents" s
   /\ (forall r, (Incidents.create e body s).1 = Sent r -> status r = 400 \/ status r = 500))
  /\ ((exists m, m ∈ table "maintenances" s
                 /\ prop m "maintenance_code"
                    = JStr (generateMaintenanceCode (today e) (random e))) ->
      table "maintenances" (Maintenances.create e body s).2 = table "maintenances" s
      /\ (forall r, (Maintenances.create e body s).1 = Sent r ->
                    status r = 400 \/ status r = 500))
  /\ ((exists f, f ∈ table "responsive_forms" s
                 /\ prop f "form_code" = JStr (generateFormCode (today e) (random e))) ->
      table "responsive_forms" (ResponsiveForms.create e body s).2
      = table "responsive_forms" s
      /\ (forall r, (ResponsiveForms.create e body s).1 = Sent r ->
                    status r = 400 \/ status r = 404 \/ status r = 500)).
Proof.
  split; [|split].
  - intros (i & Hin & Hcode). unfold Incidents.create, bad_request, message. cbv zeta.
    destruct (negb (is_empty (failed _))); [split; [done|]; intros; simplify_eq/=; by left|].
    match goal with
    | |- context [sql_insert "incidents" ?n ?values s] =>
        destruct (sql_insert_taken "incidents" n values s
                    (col "incident_code" Text true true DNull)
                    (generateIncidentCode (today e) (random e)) i) as [err ->];
          [in_schema|done|done|done|distinct_columns|listed|done|done|]
    end.
    split; [by read_tables|]. intros; simplify_eq/=; by right.
  - intros (m & Hin & Hcode). unfold Maintenances.create, bad_request, message. cbv zeta.
    destruct (negb (is_empty (failed _))); [split; [done|]; intros; simplify_eq/=; by left|].
    match goal with
    | |- context [sql_insert "maintenances" ?n ?values s] =>
        destruct (sql_insert_taken "maintenances" n values s
                    (col "maintenance_code" Text true true DNull)
                    (generateMaintenanceCode (today e) (random e)) m) as [err ->];
          [in_schema|done|done|done|distinct_columns|listed|done|done|]
    end.
    split; [by read_tables|]. intros; simplify_eq/=; by right.
  - intros (f & Hin & Hcode). unfold ResponsiveForms.create, bad_request, message. cbv zeta.
    destruct (negb (is_empty (failed _))); [split; [done|]; intros; simplify_eq/=; by left|].
    destruct (sql_get "assets" _ _ s) as [got s1] eqn:Hget.
    pose proof (sql_get_state "assets" (Some ["responsible_user_id"])
                  (col_eq "assets" "id" (prop body "asset_id")) s) as Hs1.
    rewrite Hget in Hs1. cbn [snd] in Hs1. subst s1.
    destruct got as [[asset|]|err];
      [|split; [by read_tables|]; intros; simplify_eq/=; auto..].
    match goal with
    | |- context [sql_insert "responsive_forms" ?n ?values (next s)] =>
        destruct (sql_insert_taken "responsive_forms" n values (next s)
                    (col "form_code" Text true true DNull)
                    (generateFormCode (today e) (random e)) f) as [err ->];
          [in_schema|done|done|done|distinct_columns|listed|done|done|]
    end.
    split; [by read_tables|]. intros; simplify_eq/=; auto.
Qed.

Lemma first_is_member {A : Type} (l : list A) (x : A) :
  List.find (fun _ => true) l = Some x -> x ∈ l.
Proof. intros H. apply list_elem_of_In. by apply find_some in H as [H _]. Qed.

(** On the example store, with the draws of its incident, its first
    maintenance and its form. *)
Lemma a_taken_code_refuses_the_row_witness :
  let body : row := {[ "title" := JStr "Sin red"; "description" := JStr "Otra vez";
                       "priority" := JStr "high" ]} in
  (table "incidents" (Incidents.create (V:=test_validators) (first_of_january 555) body
                        test_store).2
   = table "incidents" test_store
   /\ (forall r, (Incidents.create (V:=test_validators) (first_of_january 555) body
                    test_store).1 = Sent r -> status r = 400 \/ status r = 500))
  /\ (table "maintenances" (Maintenances.create (V:=test_validators) (first_of_january 1)
                              body test_store).2
      = table "maintenances" test_store
      /\ (forall r, (Maintenances.create (V:=test_validators) (first_of_january 1) body
                       test_store).1 = Sent r -> status r = 400 \/ status r = 500))
  /\ (table "responsive_forms" (ResponsiveForms.create (V:=test_validators)
                                  (first_of_january 123) body test_store).2
      = table "responsive_forms" test_store
      /\ (forall r, (ResponsiveForms.create (V:=test_validators) (first_of_january 123) body
                       test_store).1 = Sent r ->
                    status r = 400 \/ status r = 404 \/ status r = 500)).
Proof.
  intros body. split; [|split].
  - apply (proj1 (a_taken_code_refuses_the_row (V:=test_validators)
                    (first_of_january 555) body test_store)).
    exists (List.hd ∅ (table "incidents" test_store)).
    split; [apply first_is_member|].
    + vm_cast_no_check (eq_refl (Some (List.hd (∅ : row) (table "incidents" test_store)))).
    + vm_cast_no_check (eq_refl (JStr "INC-240101-555")).
  - apply (proj1 (proj2 (a_taken_code_refuses_the_row (V:=test_validators)
                           (first_of_january 1) body test_store))).
    exists (List.hd ∅ (table "maintenances" test_store)).
    split; [apply first_is_member|].
    + vm_cast_no_check (eq_refl (Some (List.hd (∅ : row) (table "maintenances" test_store)))).
    + vm_cast_no_check (eq_refl (JStr "MNT-240101-001")).
  - apply (proj2 (proj2 (a_taken_code_refuses_the_row (V:=test_validators)
                           (first_of_january 123) body test_store))).
    exists (List.hd ∅ (table "responsive_forms" test_store)).
    split; [apply first_is_member|].
    + vm_cast_no_check (eq_refl (Some (List.hd (∅ : row) (table "responsive_forms" test_store)))).
    + vm_cast_no_check (eq_refl (JStr "FR-240101-123")).
Defined.

(** ** Maintenances: what complete records, and reopening *)

Lemma sql_update_values (t c : string) (t' : string) (sets : list (string * jsval))
    (cond : row -> bool) (s : db) :
  (t = t' -> c ∉ sets.*1) ->
  values_of t c (sql_update t' sets cond s).2 = values_of t c s.
Proof.
  intros Hside. unfold values_of.
  destruct (sql_update_state t' sets cond s) as [->| ->]; [done|].
  destruct (decide (t = t')) as [->|Hne]; read_tables; [|done].
  rewrite List.map_map. apply List.map_ext. intros a. simpl.
  destruct (cond a); [|done]. apply prop_assign_other. by apply Hside.
Qed.

(** X12. The complete endpoint records notes and cost by their truthiness:
    a cost of 0 (or an absent one) leaves the cost of every maintenance as it
    was, and empty notes leave the notes. *)
Theorem complete_skips_a_zero_cost (e : env) (id : jsval) (body : row) (s : db) :
  (truthy (prop body "cost") = false ->
   values_of "maintenances" "cost" (Maintenances.complete e id body s).2
   = values_of "maintenances" "cost" s)
  /\ (truthy (prop body "notes") = false ->
      values_of "maintenances" "notes" (Maintenances.complete e id body s).2
      = values_of "maintenances" "notes" s).
Proof.
  split; intros Hfalsy; unfold Maintenances.complete; cbv zeta; rewrite Hfalsy.
  - transitivity (values_of "maintenances" "cost"
                    (sql_update "maintenances"
                       (if truthy (prop body "notes")
                        then [ ("status", JStr "completed"); ("completed_date", JStr (now e));
                               ("updated_at", JStr (now e)) ] ++ [("notes", prop body "notes")]
                        else [ ("status", JStr "completed"); ("completed_date", JStr (now e));
                               ("updated_at", JStr (now e)) ])
                       (fun m => col_eq "maintenances" "id" id m
                                 && (col_is "status" (JStr "scheduled") m
                                     || col_is "status" (JStr "in_progress") m)) s).2).
    + by destruct (sql_update _ _ _ s) as [[changes|err] s']; [destruct (changes =? 0)|].
    + apply sql_update_values. intros _.
      destruct (truthy (prop body "notes")); apply (bool_decide_unpack _); vm_compute;
        constructor.
  - transitivity (values_of "maintenances" "notes"
                    (sql_update "maintenances"
                       (if truthy (prop body "cost")
                        then [ ("status", JStr "completed"); ("completed_date", JStr (now e));
                               ("updated_at", JStr (now e)) ] ++ [("cost", prop body "cost")]
                        else [ ("status", JStr "completed"); ("completed_date", JStr (now e));
                               ("updated_at", JStr (now e)) ])
                       (fun m => col_eq "maintenances" "id" id m
                                 && (col_is "status" (JStr "scheduled") m
                                     || col_is "status" (JStr "in_progress") m)) s).2).
    + by destruct (sql_update _ _ _ s) as [[changes|err] s']; [destruct (changes =? 0)|].
    + apply sql_update_values. intros _.
      destruct (truthy (prop body "cost")); apply (bool_decide_unpack _); vm_compute;
        constructor.
Qed.

(** Completing the scheduled maintenance of the example store at no cost. *)
Lemma complete_skips_a_zero_cost_witness :
  let body : row := {[ "cost" := JNum (Int 0); "notes" := JStr "" ]} in
  values_of "maintenances" "cost"
    (Maintenances.complete (test_env "2024-02-02 12:00:00") (JNum (Int 1)) body test_store).2
  = values_of "maintenances" "cost" test_store
  /\ values_of "maintenances" "notes"
       (Maintenances.complete (test_env "2024-02-02 12:00:00") (JNum (Int 1)) body
          test_store).2
     = values_of "maintenances" "notes" test_store.
Proof.
  intros body.
  destruct (complete_skips_a_zero_cost (test_env "2024-02-02 12:00:00") (JNum (Int 1)) body
              test_store) as [Hcost Hnotes].
  split; [apply Hcost|apply Hnotes]; reflexivity.
Defined.

Lemma is_null_coerce (a : affinity) (v : jsval) : is_null (coerce a v) = is_null v.
Proof.
  unfold coerce. destruct a, v as [| | |[]|]; try done; simpl.
  by destruct (integer_literal s).
Qed.

Lemma violates_not_null_none (t : string) (sets : list (string * jsval)) :
  Forall (fun cv => from_option col_not_null false (column_of t cv.1) = true ->
                    is_null cv.2 = false) sets ->
  violates_not_null t sets = false.
Proof.
  intros H. unfold violates_not_null. apply not_true_iff_false.
  intros (cv & Hin & Hcv)%existsb_exists. apply andb_true_iff in Hcv as [Hnn Hnull].
  rewrite Forall_forall in H. rewrite is_null_coerce in Hnull.
  apply list_elem_of_In in Hin. specialize (H cv Hin Hnn). congruence.
Qed.

Ltac no_null_assigned :=
  apply violates_not_null_none; repeat constructor; cbn [fst snd]; intros Hnn;
  first [ by vm_compute in Hnn | done ].
(** X13. The update endpoint of the maintenances writes the status of the
    request without looking at the current one. An update with status
    'scheduled' therefore reopens a maintenance whatever its state, a
    completed one included: the start endpoint, which refuses a completed
    maintenance, accepts it afterwards. *)
Theorem an_update_reopens_a_maintenance {V : Validators} (e : env) (id : jsval)
    (body : row) (s : db) (m : row) :
  notEmpty (prop body "title") = true ->
  isIn ["preventive"; "corrective"; "predictive"] (prop body "type") = true ->
  is_null (prop body "title") = false ->
  prop body "status" = JStr "scheduled" ->
  answers_for 2 s ->
  m ∈ table "maintenances" s -> named "maintenances" id m ->
  (Maintenances.update e id body s).1
  = ok [ ("message", JV (JStr "Mantenimiento actualizado exitosamente")) ]
  /\ (Maintenances.start e id (Maintenances.update e id body s).2).1
     = ok [ ("message", JV (JStr "Mantenimiento iniciado exitosamente")) ].
Proof.
  intros Htitle Htype Hnull Hstatus (Hs1 & Hs2 & _) Hin Hnamed.
  unfold Maintenances.update. rewrite Htitle, Htype. cbv zeta. simpl negb. cbv iota.
  rewrite sql_update_answers; [|done|by no_null_assigned].
  assert (Hsome : Z.of_nat (length (List.filter (col_eq "maintenances" "id" id)
                                      (table "maintenances" s))) <> 0).
  { apply some_row_selected. by exists m. }
  apply Z.eqb_neq in Hsome as ->. cbn [fst snd]. split; [done|].
  unfold Maintenances.start.
  rewrite sql_update_answers; [|exact Hs2|reflexivity].
  read_tables.
  match goal with
  | |- context [List.filter ?cond (List.map ?g ?rows)] =>
      assert (Hstart : Z.of_nat (length (List.filter cond (List.map g rows))) <> 0)
  end.
  { apply some_row_selected. eexists. split.
    - apply list_elem_of_In, in_map. apply list_elem_of_In. exact Hin.
    - cbv beta. unfold named in Hnamed. rewrite Hnamed.
      rewrite col_eq_assign_other
        by (apply (bool_decide_unpack _); vm_compute; constructor).
      rewrite Hnamed. apply col_is_text.
      rewrite (prop_assign_set _ _ _ "status" (prop body "status"));
        [by rewrite Hstatus|distinct_columns|listed]. }
  by apply Z.eqb_neq in Hstart as ->.
Qed.

(** The completed maintenance of the example store, rescheduled and started. *)
Lemma an_update_reopens_a_maintenance_witness :
  let e := test_env "2024-02-02 12:00:00" in
  let body : row := {[ "title" := JStr "Ventilador"; "type" := JStr "corrective";
                       "status" := JStr "scheduled" ]} in
  (Maintenances.start e (JNum (Int 2)) test_store).1
  = message 404 "Mantenimiento no encontrado o ya iniciado"
  /\ (Maintenances.update (V:=test_validators) e (JNum (Int 2)) body test_store).1
     = ok [ ("message", JV (JStr "Mantenimiento actualizado exitosamente")) ]
  /\ (Maintenances.start e (JNum (Int 2))
        (Maintenances.update (V:=test_validators) e (JNum (Int 2)) body test_store).2).1
     = ok [ ("message", JV (JStr "Mantenimiento iniciado exitosamente")) ].
Proof.
  intros e body. split; [vm_compute; reflexivity|].
  apply (an_update_reopens_a_maintenance (V:=test_validators) e (JNum (Int 2)) body
           test_store (List.nth 1 (table "maintenances" test_store) ∅)).
  - reflexivity.
  - reflexivity.
  - reflexivity.
  - reflexivity.
  - repeat split; vm_compute; discriminate.
  - apply list_elem_of_In. vm_cast_no_check
      (@or_intror (List.hd (∅ : row) (table "maintenances" test_store)
                   = List.nth 1 (table "maintenances" test_store) ∅)
         (List.nth 1 (table "maintenances" test_store) (∅ : row)
          = List.nth 1 (table "maintenances" test_store) ∅ \/ False)
         (or_introl eq_refl)).
  - vm_cast_no_check (eq_refl true).
Defined.

(** ** Passwords *)

(** X14. A password is changed (200) only for a user whose current password
    matches the stored hash, and what is stored is the hash of the new
    password: the row of the requesting user gets it, the other users are
    left alone. *)
Theorem a_password_changes_after_the_current_one_matches
    {V : Validators} {C : Credentials} (e : env) (body : row) (s : db) (r : response) :
  (Auth.change_password e body s).1 = Sent r -> status r = 200 ->
  exists u hash,
    first_named "users" (prop (req_user e) "id") s = Some u
    /\ bcrypt_compare (prop body "currentPassword") (prop u "password") = Ok true
    /\ bcrypt_hash (prop body "newPassword") = Ok hash
    /\ Forall2 (fun v v' =>
                  (named "users" (prop (req_user e) "id") v -> prop v' "password" = JStr hash)
                  /\ (~ named "users" (prop (req_user e) "id") v -> v' = v))
         (table "users" s) (table "users" (Auth.change_password e body s).2).
Proof.
  unfold Auth.change_password, bad_request, message, ok. cbv zeta.
  destruct (negb (is_empty (failed _))); [by intros; simplify_eq/=|].
  destruct (sql_get "users" _ _ s) as [got s1] eqn:Hget.
  pose proof (sql_get_state "users" (Some ["password"])
                (col_eq "users" "id" (prop (req_user e) "id")) s) as Hs1.
  rewrite Hget in Hs1. cbn [snd] in Hs1. subst s1.
  destruct got as [[user|]|err]; try by intros; simplify_eq/=.
  apply sql_get_result in Hget.
  destruct (List.find _ (table "users" s)) as [u|] eqn:Hfind; [|done].
  cbn [fmap option_fmap option_map] in Hget. injection Hget as ->.
  rewrite ?prop_selected by (by left). rewrite ?prop_insert_eq.
  destruct (bcrypt_compare _ _) as [[]|] eqn:Hcompare; try by intros; simplify_eq/=.
  destruct (bcrypt_hash _) as [hash|] eqn:Hhash; [|by intros; simplify_eq/=].
  match goal with
  | |- context [sql_update "users" ?sets ?cond (next s)] =>
      destruct (sql_update "users" sets cond (next s)) as [[changes|err] s2] eqn:Hupd;
        [|by intros; simplify_eq/=];
      apply sql_update_ok in Hupd as [_ ->]
  end.
  intros _ _. exists u, hash. cbn [snd]. read_tables.
  split; [done|]. split; [done|]. split; [done|].
  apply Forall2_map_self. intros v _. unfold named.
  destruct (col_eq "users" "id" (prop (req_user e) "id") v); [|by split].
  split; [intros _|done].
  by rewrite (prop_assign_set _ _ _ "password" (JStr hash)); [|distinct_columns|listed].
Qed.

(** The user of the example store changes her password. *)
Lemma a_password_changes_after_the_current_one_matches_witness :
  let e := test_env "2024-02-02 12:00:00" in
  let body : row := {[ "currentPassword" := JStr "secret"; "newPassword" := JStr "secreto" ]} in
  exists u hash,
    first_named "users" (prop (req_user e) "id") test_store = Some u
    /\ bcrypt_compare (Credentials:=test_credentials)
         (prop body "currentPassword") (prop u "password") = Ok true
    /\ bcrypt_hash (Credentials:=test_credentials) (prop body "newPassword") = Ok hash
    /\ Forall2 (fun v v' =>
                  (named "users" (prop (req_user e) "id") v -> prop v' "password" = JStr hash)
                  /\ (~ named "users" (prop (req_user e) "id") v -> v' = v))
         (table "users" test_store)
         (table "users" (Auth.change_password (V:=test_validators) (C:=test_credentials)
                           e body test_store).2).
Proof.
  intros e body.
  apply (a_password_changes_after_the_current_one_matches
           (V:=test_validators) (C:=test_credentials) e body test_store
           {| status := 200;
              body := [ ("message", JV (JStr "Contraseña actualizada exitosamente")) ] |}).
  - vm_compute. reflexivity.
  - reflexivity.
Defined.
Lemma find_app_none {A : Type} (p : A -> bool) (l l' : list A) :
  Forall (fun x => p x = false) l -> List.find p (l ++ l') = List.find p l'.
Proof. induction 1 as [|x l Hx _ IH]; simpl; [done|]. by rewrite Hx. Qed.

Lemma find_none_all {A : Type} (p : A -> bool) (l : list A) :
  List.find p l = None -> Forall (fun x => p x = false) l.
Proof.
  intros H. apply Forall_forall. intros x Hx. apply list_elem_of_In in Hx.
  by apply (find_none _ _ H).
Qed.

(** A column an INSERT does not list holds its default. *)
Lemma prop_defaulted (t now : string) (values : list (string * jsval)) (id : Z)
    (c : string) :
  c <> "id" -> c ∉ values.*1 ->
  prop (<["id" := JNum (Int id)]> (assign t values (blank t now))) c
  = prop (blank t now) c.
Proof.
  intros Hc Hnot. unfold prop at 1. rewrite lookup_insert_ne by done.
  by rewrite assign_other.
Qed.

(** X15. A user that has been registered (201) can log in with the same
    name and password, when hashing and comparing agree and nobody has the
    new user name as e-mail address (the login looks an identifier up among
    user names and e-mail addresses, and takes the first row). *)
Theorem a_registered_user_can_log_in {V : Validators} {C : Credentials}
    (e e' : env) (body : row) (s : db) (r : response) (name : string) :
  (forall p h, bcrypt_hash p = Ok h -> bcrypt_compare p (JStr h) = Ok true) ->
  (Auth.register e body s).1 = Sent r -> status r = 201 ->
  prop body "username" = JStr name ->
  (forall u, u ∈ table "users" s -> prop u "email" <> JStr name) ->
  notEmpty (prop body "username") = true ->
  notEmpty (prop body "password") = true ->
  answers (Auth.register e body s).2 ->
  exists u token,
    (Auth.login e' body (Auth.register e body s).2).1 = ok (login_body token u)
    /\ u ∈ table "users" (Auth.register e body s).2
    /\ prop u "username" = JStr name.
Proof.
  intros Hagree Hr Hstatus Hname Hmail Hu Hp Hs'.
  unfold Auth.register, bad_request, message, created in Hr, Hs' |- *.
  cbv zeta in Hr, Hs' |- *.
  destruct (negb (bool_decide _)); [by simplify_eq/=|].
  destruct (negb (is_empty (failed _))); [by simplify_eq/=|].
  destruct (sql_get "users" _ _ s) as [got s1] eqn:Hget.
  pose proof (sql_get_state "users" None
                (fun u => col_eq "users" "username" (prop body "username") u
                          || col_eq "users" "email" (prop body "email") u) s) as Hs1.
  rewrite Hget in Hs1. cbn [snd] in Hs1. subst s1.
  destruct got as [[existing|]|err]; try by simplify_eq/=.
  apply sql_get_result in Hget. symmetry in Hget. apply fmap_None in Hget.
  apply find_none_all in Hget.
  destruct (bcrypt_hash _) as [hash|] eqn:Hhash; [|by simplify_eq/=].
  match type of Hr with
  | context [sql_insert "users" ?n ?values (next s)] =>
      destruct (sql_insert "users" n values (next s)) as [[lastID|err] s2] eqn:Hins;
        [|by simplify_eq/=];
      apply sql_insert_ok in Hins as (_ & _ & ->);
      set (u := <["id" := JNum (Int lastID)]> (assign "users" values (blank "users" n)))
        in *;
      assert (Husername : prop u "username" = JStr name)
        by (rewrite <- Hname;
            transitivity (coerce (affinity_of "users" "username") (prop body "username"));
            [apply prop_inserted; [done|distinct_columns|listed]|by rewrite Hname]);
      assert (Hpassword : prop u "password" = JStr hash)
        by (transitivity (coerce (affinity_of "users" "password") (JStr hash));
            [apply prop_inserted; [done|distinct_columns|listed]|reflexivity]);
      assert (Hactive : prop u "active" = JNum (Int 1))
        by (unfold u; rewrite prop_defaulted;
            [vm_compute; reflexivity|done
            |apply (bool_decide_unpack _); vm_compute; constructor])
  end.
  cbn [snd] in Hs' |- *. clear Hr.
  exists u, (generateToken u).
  split; [|split; [read_tables; apply elem_of_app; right; by left|done]].
  unfold Auth.login. rewrite Hu, Hp, Hname. simpl negb. cbv iota. cbv zeta.
  fold (login_where name).
  rewrite (sql_get_answers "users" None (login_where name) _ Hs'). read_tables.
  rewrite find_app_none.
  2:{ apply Forall_forall. intros v Hv. rewrite Forall_forall in Hget.
      specialize (Hget v Hv). rewrite Hname in Hget. apply orb_false_iff in Hget as [Hget _].
      apply not_true_iff_false. intros (_ & [Hv1|Hv2])%login_where_spec.
      - unfold col_eq in Hget. rewrite Hv1 in Hget. simpl in Hget.
        by rewrite String.eqb_refl in Hget.
      - by apply (Hmail v). }
  assert (Hwhere : login_where name u = true) by (apply login_where_spec; auto).
  cbn [List.find]. rewrite Hwhere. cbn [fmap option_fmap option_map id].
  rewrite Hpassword, (Hagree _ _ Hhash).
  by destruct (sql_update "users" _ _ _) as [? ?].
Qed.

(** Registering "luis" on the example store, then logging in. *)
Lemma a_registered_user_can_log_in_witness :
  let e := test_env "2024-02-02 12:00:00" in
  let body : row := {[ "username" := JStr "luis"; "email" := JStr "luis@beachscape.com";
                       "password" := JStr "clave123"; "full_name" := JStr "Luis" ]} in
  let s' := (Auth.register (V:=test_validators) (C:=test_credentials) e body test_store).2 in
  exists u token,
    (Auth.login (V:=test_validators) (C:=test_credentials) e body s').1
    = ok (login_body token u)
    /\ u ∈ table "users" s'
    /\ prop u "username" = JStr "luis".
Proof.
  intros e body s'.
  apply (a_registered_user_can_log_in (V:=test_validators) (C:=test_credentials)
           e e body test_store
           {| status := 201;
              body := [ ("message", JV (JStr "Usuario creado exitosamente"));
                        ("user", JO [ ("id", JNum (Int 2));
                                      ("username", JStr "luis");
                                      ("email", JStr "luis@beachscape.com");
                                      ("full_name", JStr "Luis");
                                      ("role", JStr "user");
                                      ("department", JUndefined) ]) ] |} "luis").
  - intros p h [= <-]. simpl. by rewrite bool_decide_true.
  - vm_compute. reflexivity.
  - reflexivity.
  - reflexivity.
  - intros u Hu. apply list_elem_of_singleton in Hu as ->. vm_compute. discriminate.
  - reflexivity.
  - reflexivity.
  - vm_compute. discriminate.
Defined.

(** ** The bootstrap script *)

Lemma answers_for_faults (n : nat) (s s' : db) :
  faults s = faults s' -> answers_for n s -> answers_for n s'.
Proof.
  revert s s'. induction n as [|n IH]; intros s s' Hf; [done|].
  simpl. intros [Hs Hn]. split.
  - unfold answers in *. by rewrite <- Hf.
  - apply (IH (next s)); [|done]. unfold next. simpl. by rewrite Hf.
Qed.

Lemma create_table_step (t : string) (s : db) :
  answers s ->
  InitDatabase.step (Some s) (InitDatabase.create_table_if_not_exists t) = Some (next s).
Proof.
  intros Hs. unfold InitDatabase.step, InitDatabase.create_table_if_not_exists.
  by rewrite attempt_answers.
Qed.

Lemma insert_or_ignore_step (t now : string) (values : list (string * jsval)) (s : db) :
  answers s ->
  InitDatabase.step (Some s) (InitDatabase.sql_insert_or_ignore t now values)
  = Some (let r := <["id" := JNum (Int (next_id (table t s)))]>
                     (assign t values (blank t now)) in
          if violates t r (table t s) then next s
          else with_table t (table t s ++ [r]) (next s)).
Proof.
  intros Hs. unfold InitDatabase.step, InitDatabase.sql_insert_or_ignore.
  rewrite attempt_answers by done. change (table t (next s)) with (table t s).
  cbv zeta. by destruct (violates _ _ _).
Qed.

(** A category row breaks no constraint: the name is not NULL and nothing
    is UNIQUE. *)
Lemma category_row_valid (now c : string) (id : Z) (rows : list row) :
  violates "asset_categories"
    (<["id" := JNum (Int id)]>
       (assign "asset_categories" [("name", JStr c)] (blank "asset_categories" now)))
    rows = false.
Proof.
  unfold violates.
  change (schema "asset_categories")
    with [ col "name" Text true false DNull; col "description" Text false false DNull;
           col "created_at" Numeric false false DCurrentTimestamp ].
  cbn [existsb col col_not_null col_unique col_name andb orb].
  rewrite (prop_inserted _ _ _ _ "name" (JStr c)); [done|done|distinct_columns|listed].
Qed.

Lemma categories_inserted (now : string) (cs : list string) (s : db) :
  answers_for (length cs) s ->
  exists s',
    foldl InitDatabase.step (Some s)
      (List.map (fun category =>
                   InitDatabase.sql_insert_or_ignore "asset_categories" now
                     [("name", JStr category)]) cs) = Some s'
    /\ values_of "asset_categories" "name" s'
       = values_of "asset_categories" "name" s ++ List.map JStr cs
    /\ (forall t, t <> "asset_categories" -> table t s' = table t s)
    /\ faults s' = drop (length cs) (faults s).
Proof.
  revert s. induction cs as [|c cs IH]; intros s Hs.
  - exists s. simpl. by rewrite app_nil_r.
  - destruct Hs as [Hs Hrest]. cbn [List.map foldl].
    rewrite insert_or_ignore_step by done. cbv zeta. rewrite category_row_valid.
    match goal with
    | |- context [foldl _ (Some ?s1) _] =>
        destruct (IH s1) as (s' & Hrun & Hnames & Hothers & Hfaults);
          [by apply (answers_for_faults _ (next s))|]
    end.
    exists s'. split; [done|]. split; [|split].
    + rewrite Hnames. unfold values_of at 1. read_tables.
      rewrite map_app, <- app_assoc. apply (f_equal (app _)). cbn [List.map app].
      apply (f_equal2 cons); [|done].
      by rewrite (prop_inserted _ _ _ _ "name" (JStr c))
        by first [ discriminate | distinct_columns | listed ].
    + intros t Ht. rewrite Hothers by done. by read_tables.
    + rewrite Hfaults. simpl. destruct (faults s); simpl; by rewrite ?drop_nil.
Qed.

Lemma tables_created_step (ts : list string) (s : db) :
  answers_for (length ts) s ->
  exists s',
    foldl InitDatabase.step (Some s) (List.map InitDatabase.create_table_if_not_exists ts)
    = Some s'
    /\ tables s' = tables s
    /\ faults s' = drop (length ts) (faults s).
Proof.
  revert s. induction ts as [|t ts IH]; intros s Hs.
  - by exists s.
  - destruct Hs as [Hs Hrest]. cbn [List.map foldl]. rewrite create_table_step by done.
    destruct (IH (next s) Hrest) as (s' & Hrun & Htables & Hfaults).
    exists s'. split; [done|]. split; [exact Htables|].
    rewrite Hfaults. simpl. destruct (faults s); simpl; by rewrite ?drop_nil.
Qed.

Lemma answers_for_split (n m : nat) (s s' : db) :
  faults s' = drop n (faults s) -> answers_for (n + m) s -> answers_for m s'.
Proof.
  revert s. induction n as [|n IH]; intros s Hf Hs.
  - simpl in *. by apply (answers_for_faults _ s).
  - destruct Hs as [_ Hs]. apply (IH (next s)); [|done].
    rewrite Hf. simpl. destruct (faults s); simpl; by rewrite ?drop_nil.
Qed.
Lemma answers_for_prefix (n m : nat) (s : db) :
  answers_for (n + m) s -> answers_for n s.
Proof.
  revert s. induction n as [|n IH]; intros s; [done|].
  simpl. intros [Hs Hrest]. split; [done|]. by apply IH.
Qed.

Lemma drop_tail_drop {A : Type} (l : list A) (n m : nat) :
  drop n (tail (drop m l)) = drop (m + 1 + n) l.
Proof.
  replace (tail (drop m l)) with (drop 1 (drop m l)) by (by destruct (drop m l)).
  rewrite !drop_drop. f_equal. lia.
Qed.

(** The script on a store that answers its seventeen statements. *)
Lemma init_runs {C : Credentials} (now : string) (s : db) (hash : string) :
  bcrypt_hash (JStr "admin123") = Ok hash ->
  answers_for 17 s ->
  exists s',
    InitDatabase.init now s = Some s'
    /\ values_of "asset_categories" "name" s'
       = values_of "asset_categories" "name" s ++ List.map JStr InitDatabase.categories
    /\ table "users" s'
       = (if violates "users" (admin_row now hash s) (table "users" s)
          then table "users" s else table "users" s ++ [admin_row now hash s])
    /\ faults s' = drop 17 (faults s).
Proof.
  intros Hhash Hs. unfold InitDatabase.init, InitDatabase.statements. rewrite Hhash.
  rewrite !foldl_app.
  destruct (tables_created_step InitDatabase.tables_created s) as (s1 & -> & Htables & Hf1);
    [by apply (answers_for_prefix 8 9)|].
  assert (Hs1 : answers_for 9 s1) by (by apply (answers_for_split 8 9 s)).
  destruct Hs1 as [Hs1 Hrest].
  assert (Hrows : forall t, table t s1 = table t s) by (intros t; unfold table; by rewrite Htables).
  cbn [foldl]. rewrite insert_or_ignore_step by done. cbv zeta.
  rewrite (Hrows "users"). fold (admin_row now hash s).
  set (s2 := if violates "users" (admin_row now hash s) (table "users" s)
             then next s1
             else with_table "users" (table "users" s ++ [admin_row now hash s]) (next s1)).
  assert (Hf2 : faults s2 = faults (next s1)) by (unfold s2; by destruct (violates _ _ _)).
  destruct (categories_inserted now InitDatabase.categories s2) as (s' & -> & Hnames & Hothers & Hf');
    [by apply (answers_for_faults _ (next s1))|].
  exists s'. split; [done|]. split; [|split].
  - rewrite Hnames. f_equal. unfold values_of. f_equal. unfold s2.
    destruct (violates _ _ _); read_tables; apply Hrows.
  - rewrite Hothers by done. unfold s2.
    destruct (violates _ _ _); by read_tables.
  - rewrite Hf', Hf2. unfold next at 1. cbn [faults]. rewrite Hf1.
    apply (drop_tail_drop (faults s) 8 8).
Qed.
(** X16. The bootstrap script is not idempotent. On a store that answers,
    every run appends the eight default categories again, in the order of
    the script (INSERT OR IGNORE has nothing to ignore: the category names
    are not UNIQUE), whereas the administrator is inserted once: when a user
    named admin or with its e-mail address exists, the users are left as
    they are. *)
Theorem the_bootstrap_script_repeats_its_categories {C : Credentials}
    (now : string) (s : db) (hash : string) :
  bcrypt_hash (JStr "admin123") = Ok hash ->
  answers_for 17 s ->
  exists s',
    InitDatabase.init now s = Some s'
    /\ values_of "asset_categories" "name" s'
       = values_of "asset_categories" "name" s ++ List.map JStr InitDatabase.categories
    /\ ((exists u, u ∈ table "users" s
                   /\ (prop u "username" = JStr "admin"
                       \/ prop u "email" = JStr "admin@beachscape.com")) ->
        table "users" s' = table "users" s).
Proof.
  intros Hhash Hs.
  destruct (init_runs now s hash Hhash Hs) as (s' & Hrun & Hnames & Husers & _).
  exists s'. split; [done|]. split; [done|].
  intros (u & Hin & Hsame). rewrite Husers.
  assert (Hv : violates "users" (admin_row now hash s) (table "users" s) = true);
    [|by rewrite Hv].
  unfold admin_row. destruct Hsame as [Hname|Hmail].
  - apply (taken_violates "users" now _ _ (col "username" Text true true DNull) "admin" u);
      [in_schema|done|done|done|distinct_columns|listed|done|done].
  - apply (taken_violates "users" now _ _ (col "email" Text true true DNull)
             "admin@beachscape.com" u);
      [in_schema|done|done|done|distinct_columns|listed|done|done].
Qed.

(** A second run, on a store that holds the administrator and a category. *)
Lemma the_bootstrap_script_repeats_its_categories_witness :
  exists s',
    InitDatabase.init (C:=test_credentials) "2024-02-02 12:00:00" bootstrapped_once = Some s'
    /\ values_of "asset_categories" "name" s'
       = values_of "asset_categories" "name" bootstrapped_once
         ++ List.map JStr InitDatabase.categories
    /\ table "users" s' = table "users" bootstrapped_once.
Proof.
  destruct (the_bootstrap_script_repeats_its_categories (C:=test_credentials)
              "2024-02-02 12:00:00" bootstrapped_once "$2a$10$admin123")
    as (s' & Hrun & Hnames & Husers).
  - reflexivity.
  - repeat split; vm_compute; discriminate.
  - exists s'. split; [exact Hrun|]. split; [exact Hnames|]. apply Husers.
    exists (List.hd ∅ (table "users" bootstrapped_once)). split; [apply first_is_member|left].
    + vm_cast_no_check (eq_refl (Some (List.hd (∅ : row) (table "users" bootstrapped_once)))).
    + vm_cast_no_check (eq_refl (JStr "admin")).
Defined.

(** The administrator row breaks no constraint when there is no user. *)
Lemma admin_row_valid (now hash : string) (s : db) :
  violates "users" (admin_row now hash s) [] = false.
Proof.
  unfold violates, admin_row.
  change (schema "users")
    with [ col "username" Text true true DNull;
           col "email" Text true true DNull;
           col "password" Text true false DNull;
           col "full_name" Text true false DNull;
           col "role" Text false false (DValue (JStr "user"));
           col "department" Text false false DNull;
           col "created_at" Numeric false false DCurrentTimestamp;
           col "updated_at" Numeric false false DCurrentTimestamp;
           col "active" Numeric false false (DValue (JNum (Int 1))) ].
  cbn [existsb col col_not_null col_unique col_name andb orb].
  rewrite (prop_inserted _ _ _ _ "username" (JStr "admin"))
    by first [ discriminate | distinct_columns | listed ].
  rewrite (prop_inserted _ _ _ _ "email" (JStr "admin@beachscape.com"))
    by first [ discriminate | distinct_columns | listed ].
  rewrite (prop_inserted _ _ _ _ "password" (JStr hash))
    by first [ discriminate | distinct_columns | listed ].
  rewrite (prop_inserted _ _ _ _ "full_name" (JStr "Administrador del Sistema"))
    by first [ discriminate | distinct_columns | listed ].
  reflexivity.
Qed.

(** X17. On a database with no user, the bootstrap script creates one: the
    administrator, active, with the hash of admin123 for password; and a
    login as admin with admin123 then succeeds (when hashing and comparing
    agree). *)
Theorem the_bootstrap_administrator_can_log_in {V : Validators} {C : Credentials}
    (now : string) (e : env) (body : row) (s : db) (hash : string) :
  (forall p h, bcrypt_hash p = Ok h -> bcrypt_compare p (JStr h) = Ok true) ->
  bcrypt_hash (JStr "admin123") = Ok hash ->
  prop body "username" = JStr "admin" -> prop body "password" = JStr "admin123" ->
  notEmpty (prop body "username") = true -> notEmpty (prop body "password") = true ->
  table "users" s = [] ->
  answers_for 18 s ->
  exists s' u token,
    InitDatabase.init now s = Some s'
    /\ table "users" s' = [u]
    /\ prop u "username" = JStr "admin"
    /\ prop u "role" = JStr "admin"
    /\ prop u "active" = JNum (Int 1)
    /\ prop u "password" = JStr hash
    /\ (Auth.login e body s').1 = ok (login_body token u).
Proof.
  intros Hagree Hhash Hname Hpass Hu Hp Hempty Hs.
  destruct (init_runs now s hash Hhash (answers_for_prefix 17 1 s Hs))
    as (s' & Hrun & _ & Husers & Hfaults).
  rewrite Hempty, admin_row_valid in Husers. simpl in Husers.
  set (u := admin_row now hash s) in *.
  assert (Hinserted : forall c v, c <> "id" -> (c, v) ∈ InitDatabase.admin_values hash ->
                        prop u c = coerce (affinity_of "users" c) v).
  { intros c v Hc Hin. apply prop_inserted; [done|distinct_columns|done]. }
  assert (Husername : prop u "username" = JStr "admin")
    by (rewrite (Hinserted _ (JStr "admin")); [done|done|listed]).
  assert (Hrole : prop u "role" = JStr "admin")
    by (rewrite (Hinserted _ (JStr "admin")); [done|done|listed]).
  assert (Hpassword : prop u "password" = JStr hash)
    by (rewrite (Hinserted _ (JStr hash)); [done|done|listed]).
  assert (Hactive : prop u "active" = JNum (Int 1))
    by (unfold u, admin_row; rewrite prop_defaulted;
        [vm_compute; reflexivity|done
        |apply (bool_decide_unpack _); vm_compute; constructor]).
  exists s', u, (generateToken u). repeat (split; [done|]).
  assert (Hs' : answers s').
  { destruct (answers_for_split 17 1 s s' Hfaults Hs) as [H _]. exact H. }
  unfold Auth.login. rewrite Hu, Hp, Hname, Hpass. simpl negb. cbv iota. cbv zeta.
  fold (login_where "admin").
  rewrite (sql_get_answers "users" None (login_where "admin") _ Hs'). rewrite Husers.
  assert (Hwhere : login_where "admin" u = true) by (apply login_where_spec; auto).
  cbn [List.find]. rewrite Hwhere. cbn [fmap option_fmap option_map id].
  rewrite Hpassword, (Hagree _ _ Hhash).
  by destruct (sql_update "users" _ _ _) as [? ?].
Qed.

(** On a store with no table yet. *)
Lemma the_bootstrap_administrator_can_log_in_witness :
  let body : row := {[ "username" := JStr "admin"; "password" := JStr "admin123" ]} in
  exists s' u token,
    InitDatabase.init (C:=test_credentials) "2024-02-02 12:00:00" empty_store = Some s'
    /\ table "users" s' = [u]
    /\ prop u "username" = JStr "admin"
    /\ prop u "role" = JStr "admin"
    /\ prop u "active" = JNum (Int 1)
    /\ prop u "password" = JStr "$2a$10$admin123"
    /\ (Auth.login (V:=test_validators) (C:=test_credentials)
          (test_env "2024-02-02 12:00:00") body s').1 = ok (login_body token u).
Proof.
  intros body.
  apply (the_bootstrap_administrator_can_log_in (V:=test_validators) (C:=test_credentials)
           "2024-02-02 12:00:00" (test_env "2024-02-02 12:00:00") body empty_store
           "$2a$10$admin123").
  - intros p h [= <-]. simpl. by rewrite bool_decide_true.
  - reflexivity.
  - reflexivity.
  - reflexivity.
  - reflexivity.
  - reflexivity.
  - reflexivity.
  - repeat split; vm_compute; discriminate.
Defined.

(** ** What the create endpoints store *)

Ltac stored := apply prop_inserted; [done|distinct_columns|listed].


(** X19. A registration that answers 201 was asked by an administrator, for
    a user name and an e-mail address that no user had; it appends one user,
    active, whose stored password is the bcrypt hash of the password of the
    request, with role 'user' when the request gives none; the response
    carries id, username, email, full_name, role and department, and no
    password. *)
Theorem a_registration_stores_the_hash {V : Validators} {C : Credentials}
    (e : env) (body : row) (s : db) (r : response) :
  (Auth.register e body s).1 = Sent r -> status r = 201 ->
  prop (req_user e) "role" = JStr "admin"
  /\ Forall (fun u => col_eq "users" "username" (prop body "username") u = false
                      /\ col_eq "users" "email" (prop body "email") u = false)
       (table "users" s)
  /\ exists hash u,
       bcrypt_hash (prop body "password") = Ok hash
       /\ table "users" (Auth.register e body s).2 = table "users" s ++ [u]
       /\ prop u "username" = coerce Text (prop body "username")
       /\ prop u "password" = JStr hash
       /\ prop u "role" = coerce Text (or_default (JStr "user") (prop body "role"))
       /\ prop u "active" = JNum (Int 1)
       /\ Sent r = created [ ("message", JV (JStr "Usuario creado exitosamente"));
                             ("user", JO [ ("id", prop u "id");
                                           ("username", prop body "username");
                                           ("email", prop body "email");
                                           ("full_name", prop body "full_name");
                                           ("role", or_default (JStr "user")
                                                      (prop body "role"));
                                           ("department", prop body "department") ]) ].
Proof.
  unfold Auth.register, bad_request, message. cbv zeta.
  destruct (bool_decide (prop (req_user e) "role" = JStr "admin")) eqn:Hadmin;
    [|by intros; simplify_eq/=].
  apply bool_decide_eq_true in Hadmin. simpl negb. cbv iota.
  destruct (negb (is_empty (failed _))); [by intros; simplify_eq/=|].
  destruct (sql_get "users" _ _ s) as [got s1] eqn:Hget.
  pose proof (sql_get_state "users" None
                (fun u => col_eq "users" "username" (prop body "username") u
                          || col_eq "users" "email" (prop body "email") u) s) as Hs1.
  rewrite Hget in Hs1. cbn [snd] in Hs1. subst s1.
  destruct got as [[existing|]|err]; try by intros; simplify_eq/=.
  apply sql_get_result in Hget. symmetry in Hget. apply fmap_None in Hget.
  apply find_none_all in Hget.
  destruct (bcrypt_hash _) as [hash|] eqn:Hhash; [|by intros; simplify_eq/=].
  match goal with
  | |- context [sql_insert "users" ?n ?values (next s)] =>
      destruct (sql_insert "users" n values (next s)) as [[lastID|err] s2] eqn:Hins;
        [|by intros; simplify_eq/=];
      apply sql_insert_ok in Hins as (_ & _ & ->);
      set (u := <["id" := JNum (Int lastID)]> (assign "users" values (blank "users" n)));
      assert (Husername : prop u "username" = coerce Text (prop body "username")) by stored;
      assert (Hpassword : prop u "password" = JStr hash)
        by (transitivity (coerce (affinity_of "users" "password") (JStr hash));
            [stored|reflexivity]);
      assert (Hrole : prop u "role"
                      = coerce Text (or_default (JStr "user") (prop body "role")))
        by stored;
      assert (Hactive : prop u "active" = JNum (Int 1))
        by (unfold u; rewrite prop_defaulted;
            [vm_compute; reflexivity|done
            |apply (bool_decide_unpack _); vm_compute; constructor]);
      assert (Hid : prop u "id" = JNum (Int lastID)) by apply prop_insert_eq
  end.
  intros Hr _. split; [done|]. split.
  - eapply Forall_impl; [exact Hget|]. intros v Hv. by apply orb_false_iff in Hv.
  - exists hash, u. cbn [snd]. read_tables. rewrite Hid. by repeat split.
Qed.

(** Registering "luis" on the example store. *)
Lemma a_registration_stores_the_hash_witness :
  let e := test_env "2024-02-02 12:00:00" in
  let body : row := {[ "username" := JStr "luis"; "email" := JStr "luis@beachscape.com";
                       "password" := JStr "clave123"; "full_name" := JStr "Luis" ]} in
  prop (req_user e) "role" = JStr "admin"
  /\ Forall (fun u => col_eq "users" "username" (prop body "username") u = false
                      /\ col_eq "users" "email" (prop body "email") u = false)
       (table "users" test_store)
  /\ exists hash u,
       bcrypt_hash (Credentials:=test_credentials) (prop body "password") = Ok hash
       /\ table "users" (Auth.register (V:=test_validators) (C:=test_credentials)
                           e body test_store).2
          = table "users" test_store ++ [u]
       /\ prop u "username" = coerce Text (prop body "username")
       /\ prop u "password" = JStr hash
       /\ prop u "role" = coerce Text (or_default (JStr "user") (prop body "role"))
       /\ prop u "active" = JNum (Int 1)
       /\ Sent {| status := 201;
                  body := [ ("message", JV (JStr "Usuario creado exitosamente"));
                            ("user", JO [ ("id", JNum (Int 2));
                                          ("username", JStr "luis");
                                          ("email", JStr "luis@beachscape.com");
                                          ("full_name", JStr "Luis");
                                          ("role", JStr "user");
                                          ("department", JUndefined) ]) ] |}
          = created [ ("message", JV (JStr "Usuario creado exitosamente"));
                      ("user", JO [ ("id", prop u "id");
                                    ("username", prop body "username");
                                    ("email", prop body "email");
                                    ("full_name", prop body "full_name");
                                    ("role", or_default (JStr "user") (prop body "role"));
                                    ("department", prop body "department") ]) ].
Proof.
  intros e body.
  apply (a_registration_stores_the_hash (V:=test_validators) (C:=test_credentials)
           e body test_store).
  - vm_compute. reflexivity.
  - reflexivity.
Defined.

(** X20. The reporter of an incident is the authenticated user: an incident
    that is created (201) is appended with reported_by the id of the user of
    the request, whatever the body carries, with status 'open' and under the
    generated code. *)
Theorem the_reporter_is_the_authenticated_user {V : Validators} (e : env) (body : row)
    (s : db) (r : response) :
  (Incidents.create e body s).1 = Sent r -> status r = 201 ->
  exists i,
    table "incidents" (Incidents.create e body s).2 = table "incidents" s ++ [i]
    /\ prop i "reported_by" = coerce Numeric (prop (req_user e) "id")
    /\ prop i "status" = JStr "open"
    /\ prop i "priority" = coerce Text (or_default (JStr "medium") (prop body "priority"))
    /\ prop i "incident_code" = JStr (generateIncidentCode (today e) (random e))
    /\ prop i "resolved_date" = JNull.
Proof.
  unfold Incidents.create, bad_request, message, created. cbv zeta.
  destruct (negb (is_empty (failed _))); [by intros; simplify_eq/=|].
  match goal with
  | |- context [sql_insert "incidents" ?n ?values s] =>
      destruct (sql_insert "incidents" n values s) as [[lastID|err] s2] eqn:Hins;
        [|by intros; simplify_eq/=];
      apply sql_insert_ok in Hins as (_ & _ & ->);
      set (i := <["id" := JNum (Int lastID)]>
                  (assign "incidents" values (blank "incidents" n)));
      assert (Hreporter : prop i "reported_by" = coerce Numeric (prop (req_user e) "id"))
        by stored;
      assert (Hstatus : prop i "status" = JStr "open")
        by (transitivity (coerce (affinity_of "incidents" "status") (JStr "open"));
            [stored|reflexivity]);
      assert (Hpriority : prop i "priority"
                          = coerce Text (or_default (JStr "medium") (prop body "priority")))
        by stored;
      assert (Hcode : prop i "incident_code"
                      = JStr (generateIncidentCode (today e) (random e)))
        by (transitivity (coerce (affinity_of "incidents" "incident_code")
                            (JStr (generateIncidentCode (today e) (random e))));
            [stored|reflexivity]);
      assert (Hresolved : prop i "resolved_date" = JNull)
        by (unfold i; rewrite prop_defaulted;
            [vm_compute; reflexivity|done
            |apply (bool_decide_unpack _); vm_compute; constructor])
  end.
  intros _ _. exists i. cbn [snd]. read_tables. by repeat split.
Qed.

(** An incident reported on the example store in the name of somebody else. *)
Lemma the_reporter_is_the_authenticated_user_witness :
  let e := test_env "2024-02-02 12:00:00" in
  let body : row := {[ "title" := JStr "Sin tinta"; "description" := JStr "Impresora";
                       "priority" := JStr "low"; "reported_by" := JNum (Int 99) ]} in
  exists i,
    table "incidents" (Incidents.create (V:=test_validators) e body test_store).2
    = table "incidents" test_store ++ [i]
    /\ prop i "reported_by" = coerce Numeric (prop (req_user e) "id")
    /\ prop i "status" = JStr "open"
    /\ prop i "priority" = coerce Text (or_default (JStr "medium") (prop body "priority"))
    /\ prop i "incident_code" = JStr (generateIncidentCode (today e) (random e))
    /\ prop i "resolved_date" = JNull.
Proof.
  intros e body.
  apply (the_reporter_is_the_authenticated_user (V:=test_validators) e body test_store
           {| status := 201;
              body := [ ("message", JV (JStr "Incidencia creada exitosamente"));
                        ("incident", JO [ ("id", JNum (Int 2));
                                          ("incident_code", JStr "INC-240202-007");
                                          ("title", JStr "Sin tinta");
                                          ("priority", JStr "low");
                                          ("status", JStr "open") ]) ] |}).
  - vm_compute. reflexivity.
  - reflexivity.
Defined.
(** ** Incidents: assigning *)

(** X21. The assign endpoint does not look at the state of the incident: on
    a store that answers, it sets every incident the request names to
    'assigned' with the given user, a resolved or closed incident included,
    which keeps its resolution date and its solution; the other incidents
    are left alone. *)
Theorem assigning_ignores_the_state_of_an_incident {V : Validators} (e : env) (id : jsval)
    (body : row) (s : db) :
  isInt (prop body "assigned_to") = true ->
  answers s ->
  (exists i, i ∈ table "incidents" s /\ named "incidents" id i) ->
  (Incidents.assign_to e id body s).1
  = ok [ ("message", JV (JStr "Incidencia asignada exitosamente")) ]
  /\ Forall2 (fun i i' =>
                (named "incidents" id i ->
                 prop i' "status" = JStr "assigned"
                 /\ prop i' "assigned_to" = coerce Numeric (prop body "assigned_to")
                 /\ prop i' "resolved_date" = prop i "resolved_date"
                 /\ prop i' "solution" = prop i "solution")
                /\ (~ named "incidents" id i -> i' = i))
       (table "incidents" s) (table "incidents" (Incidents.assign_to e id body s).2).
Proof.
  intros Hvalid Hs (i & Hin & Hnamed).
  unfold Incidents.assign_to. rewrite Hvalid. cbv zeta. simpl negb. cbv iota.
  rewrite sql_update_answers; [|done|reflexivity].
  assert (Hsome : Z.of_nat (length (List.filter (col_eq "incidents" "id" id)
                                      (table "incidents" s))) <> 0).
  { apply some_row_selected. by exists i. }
  apply Z.eqb_neq in Hsome as ->. cbn [fst snd]. split; [done|]. read_tables.
  apply Forall2_map_self. intros j _. unfold named.
  destruct (col_eq "incidents" "id" id j); [|by split].
  split; [intros _|done]. split; [|split; [|split]].
  - by rewrite (prop_assign_set _ _ _ "status" (JStr "assigned"));
      [|distinct_columns|listed].
  - by rewrite (prop_assign_set _ _ _ "assigned_to" (prop body "assigned_to"));
      [|distinct_columns|listed].
  - apply prop_assign_other. apply (bool_decide_unpack _). vm_compute. constructor.
  - apply prop_assign_other. apply (bool_decide_unpack _). vm_compute. constructor.
Qed.

(** The resolved incident of the example store, assigned to user 7. *)
Lemma assigning_ignores_the_state_of_an_incident_witness :
  let e := test_env "2024-02-02 12:00:00" in
  let body : row := {[ "assigned_to" := JNum (Int 7) ]} in
  (Incidents.assign_to (V:=test_validators) e (JNum (Int 1)) body test_store).1
  = ok [ ("message", JV (JStr "Incidencia asignada exitosamente")) ]
  /\ Forall2 (fun i i' =>
                (named "incidents" (JNum (Int 1)) i ->
                 prop i' "status" = JStr "assigned"
                 /\ prop i' "assigned_to" = coerce Numeric (prop body "assigned_to")
                 /\ prop i' "resolved_date" = prop i "resolved_date"
                 /\ prop i' "solution" = prop i "solution")
                /\ (~ named "incidents" (JNum (Int 1)) i -> i' = i))
       (table "incidents" test_store)
       (table "incidents"
          (Incidents.assign_to (V:=test_validators) e (JNum (Int 1)) body test_store).2).
Proof.
  intros e body.
  apply (assigning_ignores_the_state_of_an_incident (V:=test_validators) e (JNum (Int 1))
           body test_store).
  - reflexivity.
  - vm_compute. discriminate.
  - exists (List.hd ∅ (table "incidents" test_store)). split; [apply first_is_member|].
    + vm_cast_no_check (eq_refl (Some (List.hd (∅ : row) (table "incidents" test_store)))).
    + vm_cast_no_check (eq_refl true).
Defined.
(** ** Assets: the soft delete *)

(** X26. Deleting an asset is a soft delete that can be repeated. For a
    user the role check lets through, on a store that answers: every asset
    the request names gets status 'inactive' and keeps its code and its
    responsible, the other assets are left alone, the response is the
    success message; and the same request made again is answered with the
    same success, not with the 404, since the row is still there. *)
Theorem deleting_an_asset_twice_succeeds_twice {C : Credentials} (e : env) (id : jsval)
    (s : db) :
  authorizeRole ["admin"] (req_user e) = None ->
  answers_for 2 s ->
  (exists a, a ∈ table "assets" s /\ named "assets" id a) ->
  let deleted := Assets.soft_delete e id s in
  deleted.1 = ok [ ("message", JV (JStr "Activo eliminado exitosamente")) ]
  /\ Forall2 (fun a a' =>
                (named "assets" id a ->
                 prop a' "status" = JStr "inactive"
                 /\ prop a' "asset_code" = prop a "asset_code"
                 /\ prop a' "responsible_user_id" = prop a "responsible_user_id")
                /\ (~ named "assets" id a -> a' = a))
       (table "assets" s) (table "assets" deleted.2)
  /\ (Assets.soft_delete e id deleted.2).1
     = ok [ ("message", JV (JStr "Activo eliminado exitosamente")) ].
Proof.
  intros Hadmin (Hs1 & Hs2 & _) (a & Hin & Hnamed) deleted. subst deleted.
  unfold Assets.soft_delete. rewrite Hadmin.
  rewrite sql_update_answers; [|done|reflexivity].
  assert (Hsome : Z.of_nat (length (List.filter (col_eq "assets" "id" id)
                                      (table "assets" s))) <> 0).
  { apply some_row_selected. by exists a. }
  apply Z.eqb_neq in Hsome as ->. cbn [fst snd]. split; [done|]. split.
  - read_tables. apply Forall2_map_self. intros b _. unfold named.
    destruct (col_eq "assets" "id" id b); [|by split].
    split; [intros _|done]. split; [|split].
    + by rewrite (prop_assign_set _ _ _ "status" (JStr "inactive"));
        [|distinct_columns|listed].
    + apply prop_assign_other. apply (bool_decide_unpack _). vm_compute. constructor.
    + apply prop_assign_other. apply (bool_decide_unpack _). vm_compute. constructor.
  - rewrite sql_update_answers; [|exact Hs2|reflexivity]. read_tables.
    match goal with
    | |- context [List.filter ?cond (List.map ?g ?rows)] =>
        assert (Hagain : Z.of_nat (length (List.filter cond (List.map g rows))) <> 0)
    end.
    { apply some_row_selected. eexists. split.
      - apply list_elem_of_In, in_map. apply list_elem_of_In. exact Hin.
      - cbv beta. unfold named in Hnamed. rewrite Hnamed.
        rewrite col_eq_assign_other
          by (apply (bool_decide_unpack _); vm_compute; constructor).
        exact Hnamed. }
    by apply Z.eqb_neq in Hagain as ->.
Qed.

(** The asset of the example store, deleted by its administrator. *)
Lemma deleting_an_asset_twice_succeeds_twice_witness :
  let e := test_env "2024-02-02 12:00:00" in
  let deleted := Assets.soft_delete (C:=test_credentials) e (JNum (Int 3)) test_store in
  deleted.1 = ok [ ("message", JV (JStr "Activo eliminado exitosamente")) ]
  /\ Forall2 (fun a a' =>
                (named "assets" (JNum (Int 3)) a ->
                 prop a' "status" = JStr "inactive"
                 /\ prop a' "asset_code" = prop a "asset_code"
                 /\ prop a' "responsible_user_id" = prop a "responsible_user_id")
                /\ (~ named "assets" (JNum (Int 3)) a -> a' = a))
       (table "assets" test_store) (table "assets" deleted.2)
  /\ (Assets.soft_delete (C:=test_credentials) e (JNum (Int 3)) deleted.2).1
     = ok [ ("message", JV (JStr "Activo eliminado exitosamente")) ].
Proof.
  intros e.
  apply (deleting_an_asset_twice_succeeds_twice (C:=test_credentials) e (JNum (Int 3))
           test_store).
  - reflexivity.
  - repeat split; vm_compute; discriminate.
  - exists (List.hd ∅ (table "assets" test_store)). split; [apply first_is_member|].
    + vm_cast_no_check (eq_refl (Some (List.hd (∅ : row) (table "assets" test_store)))).
    + vm_cast_no_check (eq_refl true).
Defined.

(** ** Lists: pages and limits as they come *)




(** ** The summaries of the reports *)

Section CountBy.
Variable key : row -> jsval.

Lemma counts_rows_nil : counts_rows key ∅ [].
Proof. intros k. split; intros _; [done|by left]. Qed.

Lemma counts_rows_snoc (acc : gmap string Summaries.entry) (rows : list row) (r : row) :
  counts_rows key acc rows -> counts_rows key (Summaries.bump acc (key r)) (rows ++ [r]).
Proof.
  intros Hacc k. unfold Summaries.bump. cbv zeta.
  rewrite List.filter_app, length_app, Nat2Z.inj_add. cbn [List.filter].
  destruct (String.eqb_spec (to_string (key r)) "__proto__") as [Hproto|Hproto].
  - rewrite Hproto. split.
    + intros Hk. destruct (String.eqb_spec "__proto__" k) as [<-|_].
      * exfalso. apply Hk. apply (bool_decide_unpack _). vm_compute. constructor.
      * simpl. rewrite Z.add_0_r. by apply Hacc.
    + intros Hk. by apply Hacc.
  - destruct (Hacc (to_string (key r))) as [Hcounted Hnative].
    destruct (decide (to_string (key r) ∈ Summaries.inherited)) as [Hin|Hout].
    + assert (Hnew : (match acc !! to_string (key r) with
                      | Some (Summaries.Count n) =>
                          <[to_string (key r) := Summaries.Count (n + 1)]> acc
                      | Some Summaries.NativeText =>
                          <[to_string (key r) := Summaries.NativeText]> acc
                      | None =>
                          if bool_decide (to_string (key r) ∈ Summaries.inherited)
                          then <[to_string (key r) := Summaries.NativeText]> acc
                          else <[to_string (key r) := Summaries.Count 1]> acc
                      end) = <[to_string (key r) := Summaries.NativeText]> acc).
      { destruct (Hnative Hin) as [-> | ->]; [|done]. by rewrite bool_decide_true. }
      rewrite Hnew. split.
      * intros Hk. destruct (String.eqb_spec (to_string (key r)) k) as [<-|Hne]; [done|].
        rewrite lookup_insert_ne by done. simpl. rewrite Z.add_0_r. by apply Hacc.
      * intros Hk. destruct (decide (to_string (key r) = k)) as [<-|Hne].
        -- right. by rewrite lookup_insert_eq.
        -- rewrite lookup_insert_ne by done. by apply Hacc.
    + specialize (Hcounted Hout). cbv zeta in Hcounted.
      remember (Z.of_nat (length (List.filter
                                    (fun r0 => String.eqb (to_string (key r0))
                                                 (to_string (key r))) rows))) as n eqn:Hn.
      assert (Hpos : 0 <= n) by (subst n; lia).
      assert (Hnew : (match acc !! to_string (key r) with
                      | Some (Summaries.Count n) =>
                          <[to_string (key r) := Summaries.Count (n + 1)]> acc
                      | Some Summaries.NativeText =>
                          <[to_string (key r) := Summaries.NativeText]> acc
                      | None =>
                          if bool_decide (to_string (key r) ∈ Summaries.inherited)
                          then <[to_string (key r) := Summaries.NativeText]> acc
                          else <[to_string (key r) := Summaries.Count 1]> acc
                      end) = <[to_string (key r) := Summaries.Count (n + 1)]> acc).
      { rewrite Hcounted. destruct (Z.eqb_spec n 0) as [->|_]; [|done].
        by rewrite bool_decide_false. }
      rewrite Hnew. split.
      * intros Hk. destruct (String.eqb_spec (to_string (key r)) k) as [<-|Hne].
        -- rewrite lookup_insert_eq. simpl. rewrite <- Hn.
           change (Z.of_nat 1) with 1.
           destruct (Z.eqb_spec (n + 1) 0) as [Hz|_]; [lia|done].
        -- rewrite lookup_insert_ne by done. simpl. rewrite Z.add_0_r. by apply Hacc.
      * intros Hk. rewrite lookup_insert_ne by (intros Heq; apply Hout; by rewrite Heq).
        by apply Hacc.
Qed.

Lemma counts_rows_fold (rows : list row) :
  counts_rows key (foldl (fun acc r => Summaries.bump acc (key r)) ∅ rows) rows.
Proof.
  induction rows as [|r rows IH] using rev_ind; [apply counts_rows_nil|].
  rewrite foldl_app. simpl. by apply counts_rows_snoc.
Qed.
End CountBy.

(** The decimal text of an integer starts with a digit or with the sign. *)
Lemma toString_head (z : Z) :
  exists c s, toString z = String c s /\ (is_digit c = true \/ c = "-"%char).
Proof.
  unfold toString. destruct (Z.ltb_spec z 0) as [Hneg|Hpos].
  - eexists _, _. split; [reflexivity|by right].
  - unfold nat_toString.
    pose proof (digits_lsb_digits (S (Z.to_nat z)) z Hpos) as Hdigits.
    pose proof (digits_lsb_nonempty (Z.to_nat z) z) as Hne.
    apply Forall_rev in Hdigits.
    change (rev (digits_lsb (S (Z.to_nat z)) z))
      with (List.rev (digits_lsb (S (Z.to_nat z)) z)) in *.
    destruct (List.rev (digits_lsb (S (Z.to_nat z)) z)) as [|c l] eqn:Hrev.
    + exfalso. apply Hne. apply (f_equal (@List.rev ascii)) in Hrev.
      by rewrite List.rev_involutive in Hrev.
    + apply Forall_cons in Hdigits as [Hc _]. eexists _, _. split; [reflexivity|by left].
Qed.

(** A word that starts with a letter is the key of that text only. *)
Lemma word_key (v : jsval) (c : ascii) (w : string) :
  is_digit c = false -> c <> "-"%char ->
  String c w <> "undefined" -> String c w <> "null" -> String c w <> "true" ->
  String c w <> "false" -> String c w <> "NaN" ->
  String.eqb (to_string v) (String c w) = bool_decide (v = JStr (String c w)).
Proof.
  intros Hdigit Hsign Hu Hn Ht Hf Hnan.
  case_bool_decide as Hv.
  - subst v. apply String.eqb_refl.
  - apply String.eqb_neq. intros Heq. destruct v as [| |[]|[z|]|s]; cbn [to_string] in Heq.
    + by apply Hu.
    + by apply Hn.
    + by apply Ht.
    + by apply Hf.
    + destruct (toString_head z) as (c' & s' & Hhead & Hc'). rewrite Hhead in Heq.
      injection Heq as -> _. destruct Hc' as [Hc'|Hc']; congruence.
    + by apply Hnan.
    + apply Hv. by rewrite Heq.
Qed.

Lemma count_where_occurrences (field : string) (c : ascii) (w : string) (rows : list row) :
  is_digit c = false -> c <> "-"%char ->
  String c w <> "undefined" -> String c w <> "null" -> String c w <> "true" ->
  String c w <> "false" -> String c w <> "NaN" ->
  Summaries.count_where field (String c w) rows = occurrences field (String c w) rows.
Proof.
  intros. unfold Summaries.count_where, occurrences. do 2 f_equal.
  apply List.filter_ext. intros r. symmetry. by apply word_key.
Qed.

Lemma filter_length_le {A : Type} (p : A -> bool) (l : list A) :
  (length (List.filter p l) <= length l)%nat.
Proof. induction l as [|x l IH]; simpl; [done|]. destruct (p x); simpl; lia. Qed.

Lemma filters_disjoint_length {A : Type} (p q : A -> bool) (l : list A) :
  (forall x, p x = true -> q x = false) ->
  (length (List.filter p l) + length (List.filter q l) <= length l)%nat.
Proof.
  intros Hpq. induction l as [|x l IH]; simpl; [done|].
  destruct (p x) eqn:Hp; [rewrite (Hpq x Hp)|destruct (q x)]; simpl; lia.
Qed.

Ltac a_word := first [ reflexivity | discriminate ].

(** X22. The counts by status, type, priority and category of the report
    summaries: for a key that is not a property every object inherits, the
    object holds the number of rows with that key, and no entry when there is
    none; a key that names an inherited property (constructor, toString,
    __proto__, ...) never gets a count: the rows with such a value are
    missing from the summary. *)
Theorem a_report_counts_its_rows_by_key (field : string) (rows : list row) (k : string) :
  Forall (plain_key field) rows ->
  (k ∉ Summaries.inherited ->
   Summaries.count_by field rows !! k
   = if occurrences field k rows =? 0 then None
     else Some (Summaries.Count (occurrences field k rows)))
  /\ (k ∈ Summaries.inherited ->
      forall n, Summaries.count_by field rows !! k <> Some (Summaries.Count n)).
Proof.
  intros _. unfold Summaries.count_by.
  destruct (counts_rows_fold (fun r => prop r field) rows k) as [Hcounted Hnative].
  split; [exact Hcounted|].
  intros Hk n. destruct (Hnative Hk) as [-> | ->]; discriminate.
Qed.

(** Three maintenances, two completed and one in the state "constructor". *)
Lemma a_report_counts_its_rows_by_key_witness :
  Summaries.count_by "status" odd_maintenances !! "completed" = Some (Summaries.Count 2)
  /\ forall n, Summaries.count_by "status" odd_maintenances !! "constructor"
               <> Some (Summaries.Count n).
Proof.
  assert (Hplain : Forall (plain_key "status") odd_maintenances).
  { repeat constructor; vm_compute; discriminate. }
  split.
  - destruct (a_report_counts_its_rows_by_key "status" odd_maintenances "completed" Hplain)
      as [Hcounted _].
    rewrite Hcounted; [reflexivity|].
    apply (bool_decide_unpack _). vm_compute. constructor.
  - destruct (a_report_counts_its_rows_by_key "status" odd_maintenances "constructor" Hplain)
      as [_ Hnative].
    apply Hnative. apply (bool_decide_unpack _). vm_compute. constructor.
Defined.

(** X28. In the inventory report the assets without a category name (NULL,
    or the empty string) are counted under "Sin categoría", together with the
    assets of a category of that very name: the entry holds the number of
    both, and there is none when there are no such assets. *)
Theorem assets_without_category_are_counted_together (assets : list row) :
  let unnamed :=
    Z.of_nat (length (List.filter
                        (fun a => negb (truthy (prop a "category_name"))
                                  || bool_decide (prop a "category_name"
                                                  = JStr "Sin categoría")) assets)) in
  Summaries.inventory_byCategory (Summaries.inventory_summary assets) !! "Sin categoría"
  = (if unnamed =? 0 then None else Some (Summaries.Count unnamed)).
Proof.
  intros unnamed. cbn [Summaries.inventory_summary Summaries.inventory_byCategory].
  unfold Summaries.byCategory.
  destruct (counts_rows_fold Summaries.category_of assets "Sin categoría") as [Hcounted _].
  rewrite Hcounted by (apply (bool_decide_unpack _); vm_compute; constructor).
  cbv zeta. unfold unnamed.
  replace (List.filter (fun r => String.eqb (to_string (Summaries.category_of r))
                                   "Sin categoría") assets)
    with (List.filter (fun a => negb (truthy (prop a "category_name"))
                                || bool_decide (prop a "category_name"
                                                = JStr "Sin categoría")) assets); [done|].
  apply List.filter_ext. intros a. unfold Summaries.category_of.
  destruct (truthy (prop a "category_name")) eqn:Htruthy; simpl.
  - symmetry. apply (word_key _ "S"); first [ reflexivity | discriminate ].
  - reflexivity.
Qed.

(** X23. The counters of a summary agree with its counts by status: in the
    maintenance report completedCount is the count the byStatus object holds
    for 'completed' and is at most the total; in the report of the responsive
    forms approvedCount and pendingCount are the counts for 'approved' and
    'pending', and together at most the total. *)
Theorem summary_counters_agree_with_the_counts_by_status (rows : list row) :
  Forall (plain_key "status") rows ->
  (let summary := Summaries.maintenance_summary rows in
   Summaries.completedCount summary
   = counted (Summaries.maintenances_byStatus summary) "completed"
   /\ 0 <= Summaries.completedCount summary <= Summaries.totalMaintenances summary)
  /\ (let summary := Summaries.forms_summary rows in
      Summaries.approvedCount summary = counted (Summaries.forms_byStatus summary) "approved"
      /\ Summaries.pendingCount summary
         = counted (Summaries.forms_byStatus summary) "pending"
      /\ Summaries.approvedCount summary + Summaries.pendingCount summary
         <= Summaries.totalForms summary).
Proof.
  intros Hplain.
  assert (Hcounted : forall (c : ascii) (w : string),
             is_digit c = false -> c <> "-"%char ->
             String c w <> "undefined" -> String c w <> "null" -> String c w <> "true" ->
             String c w <> "false" -> String c w <> "NaN" ->
             String c w ∉ Summaries.inherited ->
             Summaries.count_where "status" (String c w) rows
             = counted (Summaries.count_by "status" rows) (String c w)).
  { intros c w ? ? ? ? ? ? ? Hout. rewrite count_where_occurrences by done.
    destruct (counts_rows_fold (fun r => prop r "status") rows (String c w)) as [Hkey _].
    unfold counted, Summaries.count_by. rewrite (Hkey Hout). cbv zeta.
    fold (occurrences "status" (String c w) rows).
    by destruct (Z.eqb_spec (occurrences "status" (String c w) rows) 0) as [->|_]. }
  split; cbv zeta; cbn [Summaries.maintenance_summary Summaries.forms_summary
                        Summaries.completedCount Summaries.maintenances_byStatus
                        Summaries.totalMaintenances Summaries.approvedCount
                        Summaries.pendingCount Summaries.forms_byStatus
                        Summaries.totalForms].
  - split.
    + apply Hcounted; try a_word. apply (bool_decide_unpack _). vm_compute. constructor.
    + unfold Summaries.count_where.
      pose proof (filter_length_le
                    (fun r => bool_decide (prop r "status" = JStr "completed")) rows).
      lia.
  - split; [|split].
    + apply Hcounted; try a_word. apply (bool_decide_unpack _). vm_compute. constructor.
    + apply Hcounted; try a_word. apply (bool_decide_unpack _). vm_compute. constructor.
    + unfold Summaries.count_where.
      pose proof (filters_disjoint_length
                    (fun r => bool_decide (prop r "status" = JStr "approved"))
                    (fun r => bool_decide (prop r "status" = JStr "pending")) rows) as Hle.
      rewrite <- Nat2Z.inj_add. apply inj_le. apply Hle.
      intros r Hr. apply bool_decide_eq_true in Hr. rewrite Hr. by apply bool_decide_false.
Qed.

(** On the three maintenances of the example, read as maintenances and as
    forms. *)
Lemma summary_counters_agree_with_the_counts_by_status_witness :
  (let summary := Summaries.maintenance_summary odd_maintenances in
   Summaries.completedCount summary
   = counted (Summaries.maintenances_byStatus summary) "completed"
   /\ 0 <= Summaries.completedCount summary <= Summaries.totalMaintenances summary)
  /\ (let summary := Summaries.forms_summary odd_maintenances in
      Summaries.approvedCount summary = counted (Summaries.forms_byStatus summary) "approved"
      /\ Summaries.pendingCount summary
         = counted (Summaries.forms_byStatus summary) "pending"
      /\ Summaries.approvedCount summary + Summaries.pendingCount summary
         <= Summaries.totalForms summary).
Proof.
  apply summary_counters_agree_with_the_counts_by_status.
  repeat constructor; vm_compute; discriminate.
Defined.

(** ** The activity of a user *)

Section ActivityFacts.
Variable db_get : string -> list jsval -> result row.
Variable q : gmap string string.

Let step := UserActivity.callback db_get q.
Let the_queries : gmap string string :=
  list_to_map (UserActivity.queries (qparam q "dateFrom") (qparam q "dateTo")).
Let the_params : list jsval :=
  UserActivity.params (qparam q "user_id") (qparam q "dateFrom") (qparam q "dateTo").

Lemma activity_rejected_stays (schedule : list string) (st : UserActivity.batch_state) :
  is_Some st.2 -> is_Some (foldl step st schedule).2.
Proof.
  revert st. induction schedule as [|key schedule IH]; intros st Hst; [done|].
  simpl. apply IH. unfold step, UserActivity.callback. cbv zeta.
  destruct (list_to_map _ !! key) as [sql|]; [|done].
  destruct (db_get sql _); [done|]. simpl. by destruct st.2.
Qed.

Lemma activity_failure_rejects (schedule : list string) (st : UserActivity.batch_state)
    (key sql e : string) :
  key ∈ schedule -> the_queries !! key = Some sql -> db_get sql the_params = Err e ->
  is_Some (foldl step st schedule).2.
Proof.
  intros Hin Hsql Herr. revert st.
  induction schedule as [|k schedule IH]; intros st; [by apply elem_of_nil in Hin|].
  simpl. apply elem_of_cons in Hin as [<-|Hin]; [|by apply IH].
  apply activity_rejected_stays. unfold step, UserActivity.callback. cbv zeta.
  fold the_queries the_params. rewrite Hsql, Herr. simpl. by destruct st.2.
Qed.

Lemma activity_collects (schedule : list string) (st : UserActivity.batch_state) :
  (forall key, key ∈ schedule ->
     exists sql result, the_queries !! key = Some sql /\ db_get sql the_params = Ok result) ->
  (foldl step st schedule).2 = st.2
  /\ (forall key, key ∉ schedule -> (foldl step st schedule).1 !! key = st.1 !! key)
  /\ (forall key sql result, key ∈ schedule ->
        the_queries !! key = Some sql -> db_get sql the_params = Ok result ->
        (foldl step st schedule).1 !! key = Some (prop result "count")).
Proof.
  revert st. induction schedule as [|k schedule IH]; intros st Hall.
  { split; [done|]. split; [done|]. intros key ? ? Hin. by apply elem_of_nil in Hin. }
  destruct (Hall k) as (sqlk & resultk & Hk & Hokk); [by left|].
  assert (Hstep : step st k = (<[k := prop resultk "count"]> st.1, st.2)).
  { unfold step, UserActivity.callback. cbv zeta. fold the_queries the_params.
    by rewrite Hk, Hokk. }
  destruct (IH (step st k)) as (Hrej & Hout & Hin).
  { intros key Hkey. apply Hall. by right. }
  simpl. rewrite Hstep in *. simpl in *. split; [|split].
  - exact Hrej.
  - intros key Hnot. apply not_elem_of_cons in Hnot as [Hne Hnot].
    rewrite (Hout key Hnot). by apply lookup_insert_ne.
  - intros key sql result Hkey Hsql Hok.
    destruct (decide (key ∈ schedule)) as [Hmem|Hnot]; [by eapply Hin|].
    apply elem_of_cons in Hkey as [->|?]; [|done].
    rewrite (Hout k Hnot), lookup_insert_eq. congruence.
Qed.
End ActivityFacts.



(** X25. The activity report is all or nothing. Without a user id the
    response is the 400, whatever the store answers. With one, in whatever
    order the five counts complete: if one of them fails the response is the
    500 with the message alone; if all answer, the response carries, under
    each of the five names, the count of its query, and no other entry. *)
Theorem the_activity_report_is_all_or_nothing
    (db_get : string -> list jsval -> result row) (q : gmap string string)
    (schedule : list string) :
  let user_id := qparam q "user_id" in
  let dateFrom := qparam q "dateFrom" in
  let dateTo := qparam q "dateTo" in
  let queries := UserActivity.queries dateFrom dateTo in
  let params := UserActivity.params user_id dateFrom dateTo in
  (truthy user_id = false ->
   UserActivity.get db_get q schedule = message 400 "ID de usuario requerido")
  /\ (truthy user_id = true -> schedule ≡ₚ queries.*1 ->
      ((exists key sql e, (key, sql) ∈ queries /\ db_get sql params = Err e) ->
       UserActivity.get db_get q schedule
       = message 500 "Error al generar reporte de actividad")
      /\ ((forall key sql, (key, sql) ∈ queries -> exists result, db_get sql params = Ok result) ->
          exists activity : row,
            UserActivity.get db_get q schedule
            = ok [ ("title", JV (JStr "Reporte de Actividad de Usuario"));
                   ("user_id", JV user_id); ("dateFrom", JV dateFrom);
                   ("dateTo", JV dateTo); ("activity", JRow activity) ]
            /\ (forall key sql, (key, sql) ∈ queries ->
                exists result, db_get sql params = Ok result
                               /\ activity !! key = Some (prop result "count"))
            /\ (forall key, key ∉ queries.*1 -> activity !! key = None))).
Proof.
  intros user_id dateFrom dateTo queries params. split.
  - intros Hnone. unfold UserActivity.get. fold user_id. by rewrite Hnone.
  - intros Hsome Hperm.
    assert (Hnodup : NoDup queries.*1).
    { change (queries.*1)
        with ["incidents_reported"; "incidents_assigned"; "maintenances_assigned";
              "requisitions_made"; "forms_approved"].
      apply (bool_decide_unpack (NoDup _)). vm_compute. constructor. }
    assert (Hlookup : forall key sql, (key, sql) ∈ queries ->
              (list_to_map queries : gmap string string) !! key = Some sql).
    { intros key sql. by apply elem_of_list_to_map_1. }
    assert (Hkeys : forall key sql, (key, sql) ∈ queries -> key ∈ schedule).
    { intros key sql Hin. rewrite Hperm. apply list_elem_of_fmap. by exists (key, sql). }
    unfold UserActivity.get. fold user_id dateFrom dateTo. rewrite Hsome.
    simpl negb. cbv iota. cbv zeta. split.
    + intros (key & sql & e & Hin & Herr).
      destruct (activity_failure_rejects db_get q schedule (∅, None) key sql e)
        as [e0 He0]; eauto.
      by rewrite He0.
    + intros Hall.
      destruct (activity_collects db_get q schedule (∅, None)) as (Hrej & Hout & Hin).
      { intros key Hkey. rewrite Hperm in Hkey.
        apply list_elem_of_fmap in Hkey as ([k sql] & -> & Hmem).
        destruct (Hall k sql Hmem) as [result Hresult]. exists sql, result. eauto. }
      eexists. rewrite Hrej. split; [reflexivity|]. split.
      * intros key sql Hmem. destruct (Hall key sql Hmem) as [result Hresult].
        exists result. split; [done|]. eapply Hin; eauto.
      * intros key Hnot. rewrite Hout; [done|]. by rewrite Hperm.
Qed.

(** No user, then user 4 on a store that counts seven rows for every query,
    the counts completing in the reverse of their order. *)
Lemma the_activity_report_is_all_or_nothing_witness :
  let q : gmap string string := {[ "user_id" := "4" ]} in
  UserActivity.get seven_each ∅ [] = message 400 "ID de usuario requerido"
  /\ exists activity : row,
       UserActivity.get seven_each q
         (reverse (UserActivity.queries JUndefined JUndefined).*1)
       = ok [ ("title", JV (JStr "Reporte de Actividad de Usuario"));
              ("user_id", JV (JStr "4")); ("dateFrom", JV JUndefined);
              ("dateTo", JV JUndefined); ("activity", JRow activity) ]
       /\ (forall key sql, (key, sql) ∈ UserActivity.queries JUndefined JUndefined ->
             activity !! key = Some (JNum (Int 7))).
Proof.
  intros q. split.
  - by apply (proj1 (the_activity_report_is_all_or_nothing seven_each ∅ [])).
  - destruct (proj2 (the_activity_report_is_all_or_nothing seven_each q
                       (reverse (UserActivity.queries JUndefined JUndefined).*1)))
      as [_ Hall]; [reflexivity|apply reverse_Permutation|].
    destruct Hall as (activity & Hresponse & Hcounts & _); [by eexists|].
    exists activity. split; [exact Hresponse|].
    intros key sql Hin. destruct (Hcounts key sql Hin) as (result & Hresult & ->).
    injection Hresult as <-. reflexivity.
Defined.
